(** * OBS WebSocket client of the Twitchat StreamController plugin

    A shallow embedding of [src/services/obs_connection.py] and
    [src/services/twitchat.py], followed by the properties of the
    connection layer that are established on it.

    Conventions of the embedding.
    - A Python [str] is a Rocq [string] holding the UTF-8 encoding of the
      text, so [s.encode("utf-8")] is the conversion to a byte list and
      string concatenation is [++].
    - A Python value that travels through [json.loads] / [json.dumps] is a
      [json]; [None] is [JNull]. Floating point numbers (JSON reals, the
      time-outs, the readings of [time.perf_counter]) are rationals.
    - A method of [OBSConnectionManager] is a function in the monad [M]:
      it takes the object's state and gives an [outcome] (a returned value,
      a raised exception, or a thread that is blocked) with the new state.
    - What the other threads and the network do is an explicit argument:
      the frames a socket will deliver, the result of dialling, the UUID
      drawn, the clock readings and the changes made to the response table
      while the caller sleeps on the condition. *)

From Stdlib Require Import ZArith QArith List Bool Lia Lqa.
From Stdlib.Strings Require Import String Ascii Byte.
From Stdlib.Numbers Require DecimalString.
Import ListNotations.

Local Open Scope Z_scope.
Local Open Scope string_scope.
Local Open Scope list_scope.

(* ================================================================== *)
(** * Bytes, SHA-256 and base64 (the parts of [hashlib] and [base64] used) *)
(* ================================================================== *)

Definition bytes := list byte.

Definition byte_to_Z (b : byte) : Z := Z.of_N (Byte.to_N b).

Definition byte_of_Z (z : Z) : byte :=
  match Byte.of_N (Z.to_N (z mod 256)) with
  | Some b => b
  | None => x00
  end.

(** [s.encode("utf-8")] and [b.decode("utf-8")] under the convention above. *)
Definition encode_utf8 (s : string) : bytes := list_byte_of_string s.
Definition decode_utf8 (b : bytes) : string := string_of_list_byte b.

Module SHA256.

Definition word_mask : Z := 4294967295.

Definition add32 (x y : Z) : Z := (x + y) mod 4294967296.

Definition rotr (n x : Z) : Z :=
  Z.lor (Z.shiftr x n) (Z.land (Z.shiftl x (32 - n)) word_mask).

Definition xor3 (x y z : Z) : Z := Z.lxor (Z.lxor x y) z.

Definition choose (x y z : Z) : Z :=
  Z.lxor (Z.land x y) (Z.land (Z.lxor x word_mask) z).

Definition majority (x y z : Z) : Z :=
  xor3 (Z.land x y) (Z.land x z) (Z.land y z).

Definition big_sigma0 (x : Z) : Z := xor3 (rotr 2 x) (rotr 13 x) (rotr 22 x).
Definition big_sigma1 (x : Z) : Z := xor3 (rotr 6 x) (rotr 11 x) (rotr 25 x).
Definition small_sigma0 (x : Z) : Z := xor3 (rotr 7 x) (rotr 18 x) (Z.shiftr x 3).
Definition small_sigma1 (x : Z) : Z := xor3 (rotr 17 x) (rotr 19 x) (Z.shiftr x 10).

(** Round constants: the first 32 bits of the fractional parts of the cube
    roots of the first 64 primes. *)
Definition round_constants : list Z :=
  [ 1116352408; 1899447441; 3049323471; 3921009573;
    961987163; 1508970993; 2453635748; 2870763221;
    3624381080; 310598401; 607225278; 1426881987;
    1925078388; 2162078206; 2614888103; 3248222580;
    3835390401; 4022224774; 264347078; 604807628;
    770255983; 1249150122; 1555081692; 1996064986;
    2554220882; 2821834349; 2952996808; 3210313671;
    3336571891; 3584528711; 113926993; 338241895;
    666307205; 773529912; 1294757372; 1396182291;
    1695183700; 1986661051; 2177026350; 2456956037;
    2730485921; 2820302411; 3259730800; 3345764771;
    3516065817; 3600352804; 4094571909; 275423344;
    430227734; 506948616; 659060556; 883997877;
    958139571; 1322822218; 1537002063; 1747873779;
    1955562222; 2024104815; 2227730452; 2361852424;
    2428436474; 2756734187; 3204031479; 3329325298 ].

(** Initial hash value: square roots of the first 8 primes. *)
Definition initial_hash : list Z :=
  [ 1779033703; 3144134277; 1013904242; 2773480762;
    1359893119; 2600822924; 528734635; 1541459225 ].

(** Big-endian encoding of [z] on [n] bytes. *)
Fixpoint be_bytes (n : nat) (z : Z) : list Z :=
  match n with
  | O => []
  | S n' => (Z.shiftr z (8 * Z.of_nat n')) mod 256 :: be_bytes n' z
  end.

Definition be_word (bs : list Z) : Z :=
  fold_left (fun acc b => acc * 256 + b) bs 0.

(** The message, a 1 bit, zero bits up to 56 mod 64 bytes, then the length
    in bits on 8 bytes. *)
Definition pad (msg : list Z) : list Z :=
  let len := Z.of_nat (List.length msg) in
  let zeros := Z.to_nat ((55 - len) mod 64) in
  msg ++ [128] ++ repeat 0 zeros ++ be_bytes 8 (8 * len).

Fixpoint chunks (fuel size : nat) (l : list Z) : list (list Z) :=
  match fuel with
  | O => []
  | S fuel' =>
      match l with
      | [] => []
      | _ => firstn size l :: chunks fuel' size (skipn size l)
      end
  end.

Definition words_of_block (block : list Z) : list Z :=
  map be_word (chunks 16 4 block).

(** Message schedule: the 16 words of the block extended to 64. *)
Fixpoint extend (n : nat) (ws : list Z) : list Z :=
  match n with
  | O => ws
  | S n' =>
      let t := List.length ws in
      let at_ i := nth (t - i) ws 0 in
      let w := add32 (add32 (small_sigma1 (at_ 2%nat)) (at_ 7%nat))
                     (add32 (small_sigma0 (at_ 15%nat)) (at_ 16%nat)) in
      extend n' (ws ++ [w])
  end.

Definition schedule (block : list Z) : list Z := extend 48 (words_of_block block).

Record regs := Regs { ra : Z; rb : Z; rc : Z; rd : Z; re : Z; rf : Z; rg : Z; rh : Z }.

Definition round (r : regs) (kw : Z * Z) : regs :=
  let '(k, w) := kw in
  let t1 := add32 (add32 (add32 (rh r) (big_sigma1 (re r)))
                         (add32 (choose (re r) (rf r) (rg r)) k)) w in
  let t2 := add32 (big_sigma0 (ra r)) (majority (ra r) (rb r) (rc r)) in
  Regs (add32 t1 t2) (ra r) (rb r) (rc r) (add32 (rd r) t1) (re r) (rf r) (rg r).

Definition regs_of_list (h : list Z) : regs :=
  Regs (nth 0 h 0) (nth 1 h 0) (nth 2 h 0) (nth 3 h 0)
       (nth 4 h 0) (nth 5 h 0) (nth 6 h 0) (nth 7 h 0).

Definition list_of_regs (r : regs) : list Z :=
  [ra r; rb r; rc r; rd r; re r; rf r; rg r; rh r].

Definition compress (h : list Z) (block : list Z) : list Z :=
  let r := fold_left round (combine round_constants (schedule block)) (regs_of_list h) in
  map (fun p => add32 (fst p) (snd p)) (combine h (list_of_regs r)).

Definition digest_words (msg : list Z) : list Z :=
  let padded := pad msg in
  fold_left compress (chunks (List.length padded) 64 padded) initial_hash.

(** [hashlib.sha256(data).digest()] *)
Definition digest (data : bytes) : bytes :=
  map byte_of_Z (flat_map (be_bytes 4) (digest_words (map byte_to_Z data))).

End SHA256.

Module Base64.

Definition alphabet : string :=
  "ABCDEFGHIJKLMNOPQRSTUVWXYZabcdefghijklmnopqrstuvwxyz0123456789+/".

Definition symbol (i : Z) : byte :=
  match String.get (Z.to_nat i) alphabet with
  | Some c => byte_of_ascii c
  | None => x3d
  end.

Definition pad_symbol : byte := x3d.

(** Encodes the groups of three bytes; [fuel] bounds the number of groups. *)
Fixpoint encode_groups (fuel : nat) (l : list Z) : bytes :=
  match fuel with
  | O => []
  | S fuel' =>
      match l with
      | [] => []
      | [a] =>
          [symbol (Z.shiftr a 2); symbol (Z.land (Z.shiftl a 4) 63);
           pad_symbol; pad_symbol]
      | [a; b] =>
          [symbol (Z.shiftr a 2);
           symbol (Z.lor (Z.land (Z.shiftl a 4) 63) (Z.shiftr b 4));
           symbol (Z.land (Z.shiftl b 2) 63); pad_symbol]
      | a :: b :: c :: rest =>
          symbol (Z.shiftr a 2)
          :: symbol (Z.lor (Z.land (Z.shiftl a 4) 63) (Z.shiftr b 4))
          :: symbol (Z.lor (Z.land (Z.shiftl b 2) 63) (Z.shiftr c 6))
          :: symbol (Z.land c 63)
          :: encode_groups fuel' rest
      end
  end.

(** [base64.b64encode(data)] *)
Definition b64encode (data : bytes) : bytes :=
  encode_groups (S (List.length data)) (map byte_to_Z data).

End Base64.

(** The response as the protocol words it:
    base64(SHA256(base64(SHA256(password + salt)) + challenge)). *)
Definition expected_auth_response (password salt challenge : string) : string :=
  let secret_b64 := Base64.b64encode (SHA256.digest (encode_utf8 (password ++ salt))) in
  decode_utf8 (Base64.b64encode (SHA256.digest (secret_b64 ++ encode_utf8 challenge))).

(* ================================================================== *)
(** * Python values *)
(* ================================================================== *)

#[local] Set Warnings "-register-all".

(** What [json.loads] produces and [json.dumps] accepts. [JNull] is [None]. *)
Inductive json : Type :=
| JNull
| JBool (b : bool)
| JInt (n : Z)
| JFloat (q : Q)
| JStr (s : string)
| JList (items : list json)
| JDict (entries : list (string * json)).

(** [bool(v)]: the truth value Python gives [v] in [if v], [not v], [v or w]. *)
Definition truthy (v : json) : bool :=
  match v with
  | JNull => false
  | JBool b => b
  | JInt n => negb (n =? 0)%Z
  | JFloat q => negb (Qeq_bool q 0)
  | JStr s => negb (String.eqb s "")
  | JList items => match items with [] => false | _ => true end
  | JDict entries => match entries with [] => false | _ => true end
  end.

(** [x or y] *)
Definition py_or (x y : json) : json := if truthy x then x else y.

(** The number a [bool], [int] or [float] stands for in a comparison. *)
Definition as_number (v : json) : option Q :=
  match v with
  | JBool b => Some (inject_Z (if b then 1 else 0))
  | JInt n => Some (inject_Z n)
  | JFloat q => Some q
  | _ => None
  end.

(** [x == y] where [y] is [None], a number or a string (so that a list or
    a dict on the left is never equal to it). *)
Definition py_eq (x y : json) : bool :=
  match as_number x, as_number y with
  | Some a, Some b => Qeq_bool a b
  | None, None =>
      match x, y with
      | JNull, JNull => true
      | JStr s, JStr t => String.eqb s t
      | _, _ => false
      end
  | _, _ => false
  end.

(** Lists and dicts cannot be dictionary keys. *)
Definition hashable (v : json) : bool :=
  match v with
  | JList _ | JDict _ => false
  | _ => true
  end.

Fixpoint lookup (key : string) (entries : list (string * json)) : option json :=
  match entries with
  | [] => None
  | (k, v) :: rest => if String.eqb k key then Some v else lookup key rest
  end.

(** [d[key] = value] on a dict with string keys. *)
Fixpoint store (key : string) (value : json) (entries : list (string * json))
  : list (string * json) :=
  match entries with
  | [] => [(key, value)]
  | (k, v) :: rest =>
      if String.eqb k key then (k, value) :: rest else (k, v) :: store key value rest
  end.

(** ** [str.strip] and [in] on strings *)

(** The UTF-8 encodings of the characters for which [str.isspace] holds:
    U+0009..U+000D, U+001C..U+0020, U+0085, U+00A0, U+1680, U+2000..U+200A,
    U+2028, U+2029, U+202F, U+205F and U+3000. *)
Definition whitespace : list (list N) :=
  [ [9]; [10]; [11]; [12]; [13]; [28]; [29]; [30]; [31]; [32];
    [194; 133]; [194; 160]; [225; 154; 128];
    [226; 128; 128]; [226; 128; 129]; [226; 128; 130]; [226; 128; 131];
    [226; 128; 132]; [226; 128; 133]; [226; 128; 134]; [226; 128; 135];
    [226; 128; 136]; [226; 128; 137]; [226; 128; 138];
    [226; 128; 168]; [226; 128; 169]; [226; 128; 175]; [226; 129; 159];
    [227; 128; 128] ]%N.

Fixpoint starts_with (prefix text : list N) : bool :=
  match prefix, text with
  | [], _ => true
  | p :: prefix', t :: text' => (p =? t)%N && starts_with prefix' text'
  | _ :: _, [] => false
  end.

(** Removes the characters of [spaces] found at the start of [text]. *)
Fixpoint strip_start (fuel : nat) (spaces : list (list N)) (text : list N) : list N :=
  match fuel with
  | O => text
  | S fuel' =>
      match find (fun sp => starts_with sp text) spaces with
      | Some sp => strip_start fuel' spaces (skipn (List.length sp) text)
      | None => text
      end
  end.

Definition codes (s : string) : list N := map N_of_ascii (list_ascii_of_string s).
Definition of_codes (l : list N) : string := string_of_list_ascii (map ascii_of_N l).

(** [s.strip()] *)
Definition strip (s : string) : string :=
  let front := strip_start (String.length s) whitespace (codes s) in
  let back := strip_start (String.length s) (map (@rev N) whitespace) (rev front) in
  of_codes (rev back).

(** [c in s] for a one-character string [c] *)
Fixpoint contains (c : ascii) (s : string) : bool :=
  match s with
  | EmptyString => false
  | String a rest => Ascii.eqb a c || contains c rest
  end.

(* ================================================================== *)
(** * Exceptions and outcomes *)
(* ================================================================== *)

(** The exception classes that occur; messages are not kept, the fields of
    [OBSRequestError] are. *)
Inductive exn : Type :=
| OBSConnectionError
| OBSAuthenticationError
| OBSNotConnectedError
| OBSResponseTimeoutError
| OBSRequestError (request_type : string) (status : json)
| WebSocketException
| WebSocketConnectionClosedException
| OSError
| ValueError
| TypeError
| AttributeError
| OtherException.

(** [isinstance(e, OBSConnectionError)]: the base class and its subclasses. *)
Definition is_OBSConnectionError (e : exn) : bool :=
  match e with
  | OBSConnectionError | OBSAuthenticationError | OBSNotConnectedError
  | OBSResponseTimeoutError | OBSRequestError _ _ => true
  | _ => false
  end.

(** [isinstance(e, WebSocketException)] *)
Definition is_WebSocketException (e : exn) : bool :=
  match e with
  | WebSocketException | WebSocketConnectionClosedException => true
  | _ => false
  end.

Definition is_Exception (e : exn) : bool := true.

Inductive outcome (A : Type) : Type :=
| Return (a : A)
| Raise (e : exn)
| Blocked.

Arguments Return {A} a.
Arguments Raise {A} e.
Arguments Blocked {A}.

(** [v.get(key, default)]: only a dict has the method. *)
Definition py_get_default (v : json) (key : string) (default : json) : outcome json :=
  match v with
  | JDict entries =>
      match lookup key entries with
      | Some x => Return x
      | None => Return default
      end
  | _ => Raise AttributeError
  end.

(** [v.get(key)] *)
Definition py_get (v : json) (key : string) : outcome json :=
  py_get_default v key JNull.

(* ================================================================== *)
(** * Configuration, socket and manager state *)
(* ================================================================== *)

(** The frozen dataclass [OBSConnectionConfig]. *)
Record OBSConnectionConfig : Type := Config {
  host : string;
  port : Z;
  password : string;
  use_ssl : bool;
  request_timeout : Q;
  event_subscriptions : Z
}.

Definition default_config : OBSConnectionConfig :=
  Config "127.0.0.1" 4455 "" false 5 0.

(** [str(n)] for an [int]. *)
Definition str_of_int (n : Z) : string :=
  DecimalString.NilZero.string_of_int (Z.to_int n).

Definition as_url (c : OBSConnectionConfig) : string :=
  let scheme := if use_ssl c then "wss" else "ws" in
  (scheme ++ "://" ++ host c ++ ":" ++ str_of_int (port c))%string.

(** The generated [__eq__] of the dataclass: field by field, with [==]. *)
Definition config_eq (a b : OBSConnectionConfig) : bool :=
  String.eqb (host a) (host b) && (port a =? port b)%Z
  && String.eqb (password a) (password b) && Bool.eqb (use_ssl a) (use_ssl b)
  && Qeq_bool (request_timeout a) (request_timeout b)
  && (event_subscriptions a =? event_subscriptions b)%Z.

(** The keyword arguments of [update_config], one optional value per field. *)
Record config_changes : Type := Changes {
  new_host : option string;
  new_port : option Z;
  new_password : option string;
  new_use_ssl : option bool;
  new_request_timeout : option Q;
  new_event_subscriptions : option Z
}.

Definition no_changes : config_changes := Changes None None None None None None.

Definition or_else {A} (o : option A) (d : A) : A :=
  match o with Some a => a | None => d end.

(** [dataclasses.replace(c, **kwargs)] *)
Definition replace (c : OBSConnectionConfig) (kwargs : config_changes) : OBSConnectionConfig :=
  Config (or_else (new_host kwargs) (host c))
         (or_else (new_port kwargs) (port c))
         (or_else (new_password kwargs) (password c))
         (or_else (new_use_ssl kwargs) (use_ssl c))
         (or_else (new_request_timeout kwargs) (request_timeout c))
         (or_else (new_event_subscriptions kwargs) (event_subscriptions c)).

(** [timeout or default] for an [Optional[float]]: [None] and [0.0] are false. *)
Definition timeout_or (timeout : option Q) (default : Q) : Q :=
  match timeout with
  | Some t => if Qeq_bool t 0 then default else t
  | None => default
  end.

(** What one call of [ws.recv()] does. *)
Inductive recv_event : Type :=
| Text (message : string)      (* a text frame *)
| NoData                       (* [recv] returned [None] *)
| PeerClosed                   (* WebSocketConnectionClosedException *)
| RecvWebSocketError           (* another WebSocketException *)
| RecvOSError                  (* OSError *)
| RecvOtherError.              (* any other exception *)

(** The socket of the [websocket] package: the frames it will deliver, the
    frames written (each with the state of the manager's send lock at the
    time of the write), its time-out and whether it was closed. *)
Record WebSocket : Type := Socket {
  inbox : list recv_event;
  outbox : list (string * bool);
  ws_timeout : option Q;
  closed : bool
}.

Definition ws_settimeout (t : option Q) (w : WebSocket) : WebSocket :=
  Socket (inbox w) (outbox w) t (closed w).

Definition ws_close (w : WebSocket) : WebSocket :=
  Socket (inbox w) (outbox w) (ws_timeout w) true.

(** [ws.send(message)]: [None] when it raises a [WebSocketException]. *)
Definition ws_send (message : string) (lock_held : bool) (w : WebSocket) : option WebSocket :=
  if closed w then None
  else Some (Socket (inbox w) (outbox w ++ [(message, lock_held)]) (ws_timeout w) false).

(** [ws.recv()]: [None] when the call blocks (nothing to read, no time-out). *)
Definition ws_recv (w : WebSocket) : option recv_event * WebSocket :=
  if closed w then (Some PeerClosed, w)
  else match inbox w with
       | [] => (match ws_timeout w with
                | Some _ => Some RecvWebSocketError   (* WebSocketTimeoutException *)
                | None => None
                end, w)
       | ev :: rest => (Some ev, Socket rest (outbox w) (ws_timeout w) false)
       end.

Inductive level : Type := DEBUG | INFO | WARNING | ERROR.

Inductive thread : Type := Alive | Finished.

(** The response table: a dict keyed by the request id found in the frame. *)
Definition registry := list (json * json).

(** The attributes of an [OBSConnectionManager], the two locks ([true] when
    held), the condition's lock and the count of its [notify_all] calls, and
    the lines written to the logger. *)
Record OBSConnectionManager : Type := Manager {
  _config : OBSConnectionConfig;
  _ws : option WebSocket;
  _rpc_version : Z;
  _connection_lock : bool;
  _send_lock : bool;
  _responses : registry;
  _response_condition : bool;
  notifications : nat;
  _receiver_thread : option thread;
  _receiver_running : bool;
  _identified : bool;
  logged : list (level * string)
}.

(** [OBSConnectionManager(config)] *)
Definition new_manager (config : option OBSConnectionConfig) : OBSConnectionManager :=
  Manager (or_else config default_config) None 1 false false [] false 0 None false false [].

(** Attribute assignment, one function per attribute that is written. *)
Definition set_config (c : OBSConnectionConfig) (m : OBSConnectionManager) :=
  Manager c (_ws m) (_rpc_version m) (_connection_lock m) (_send_lock m) (_responses m)
          (_response_condition m) (notifications m) (_receiver_thread m)
          (_receiver_running m) (_identified m) (logged m).
Definition set_ws (w : option WebSocket) (m : OBSConnectionManager) :=
  Manager (_config m) w (_rpc_version m) (_connection_lock m) (_send_lock m) (_responses m)
          (_response_condition m) (notifications m) (_receiver_thread m)
          (_receiver_running m) (_identified m) (logged m).
Definition set_rpc_version (v : Z) (m : OBSConnectionManager) :=
  Manager (_config m) (_ws m) v (_connection_lock m) (_send_lock m) (_responses m)
          (_response_condition m) (notifications m) (_receiver_thread m)
          (_receiver_running m) (_identified m) (logged m).
Definition set_connection_lock (b : bool) (m : OBSConnectionManager) :=
  Manager (_config m) (_ws m) (_rpc_version m) b (_send_lock m) (_responses m)
          (_response_condition m) (notifications m) (_receiver_thread m)
          (_receiver_running m) (_identified m) (logged m).
Definition set_send_lock (b : bool) (m : OBSConnectionManager) :=
  Manager (_config m) (_ws m) (_rpc_version m) (_connection_lock m) b (_responses m)
          (_response_condition m) (notifications m) (_receiver_thread m)
          (_receiver_running m) (_identified m) (logged m).
Definition set_responses (r : registry) (m : OBSConnectionManager) :=
  Manager (_config m) (_ws m) (_rpc_version m) (_connection_lock m) (_send_lock m) r
          (_response_condition m) (notifications m) (_receiver_thread m)
          (_receiver_running m) (_identified m) (logged m).
Definition set_response_condition (b : bool) (m : OBSConnectionManager) :=
  Manager (_config m) (_ws m) (_rpc_version m) (_connection_lock m) (_send_lock m)
          (_responses m) b (notifications m) (_receiver_thread m)
          (_receiver_running m) (_identified m) (logged m).
Definition set_notifications (n : nat) (m : OBSConnectionManager) :=
  Manager (_config m) (_ws m) (_rpc_version m) (_connection_lock m) (_send_lock m)
          (_responses m) (_response_condition m) n (_receiver_thread m)
          (_receiver_running m) (_identified m) (logged m).
Definition set_receiver_thread (t : option thread) (m : OBSConnectionManager) :=
  Manager (_config m) (_ws m) (_rpc_version m) (_connection_lock m) (_send_lock m)
          (_responses m) (_response_condition m) (notifications m) t
          (_receiver_running m) (_identified m) (logged m).
Definition set_receiver_running (b : bool) (m : OBSConnectionManager) :=
  Manager (_config m) (_ws m) (_rpc_version m) (_connection_lock m) (_send_lock m)
          (_responses m) (_response_condition m) (notifications m) (_receiver_thread m)
          b (_identified m) (logged m).
Definition set_identified (b : bool) (m : OBSConnectionManager) :=
  Manager (_config m) (_ws m) (_rpc_version m) (_connection_lock m) (_send_lock m)
          (_responses m) (_response_condition m) (notifications m) (_receiver_thread m)
          (_receiver_running m) b (logged m).
Definition set_logged (l : list (level * string)) (m : OBSConnectionManager) :=
  Manager (_config m) (_ws m) (_rpc_version m) (_connection_lock m) (_send_lock m)
          (_responses m) (_response_condition m) (notifications m) (_receiver_thread m)
          (_receiver_running m) (_identified m) l.

(** ** The response table as a Python dict *)

(** [key in r] and [r[key]] *)
Fixpoint registry_find (key : json) (r : registry) : option json :=
  match r with
  | [] => None
  | (k, v) :: rest => if py_eq key k then Some v else registry_find key rest
  end.

(** [del r[key]], the table left by [r.pop(key)] *)
Fixpoint registry_remove (key : json) (r : registry) : registry :=
  match r with
  | [] => []
  | (k, v) :: rest => if py_eq key k then rest else (k, v) :: registry_remove key rest
  end.

(** [r[key] = data] for a hashable [key] *)
Fixpoint registry_store (key data : json) (r : registry) : registry :=
  match r with
  | [] => [(key, data)]
  | (k, v) :: rest =>
      if py_eq key k then (k, data) :: rest else (k, v) :: registry_store key data rest
  end.

(** ** Observations of a manager *)

(** The manager after its socket [w] delivered the first frame of its inbox,
    [rest] being the frames still to come. *)
Definition delivered (w : WebSocket) (rest : list recv_event) (m : OBSConnectionManager)
  : OBSConnectionManager :=
  set_ws (Some (Socket rest (outbox w) (ws_timeout w) false)) m.

(** The frames written to the manager's socket so far. *)
Definition written (m : OBSConnectionManager) : list (string * bool) :=
  match _ws m with
  | Some w => outbox w
  | None => []
  end.

(** The manager after [message] was written to its socket [w] by a thread
    that held the send lock. *)
Definition after_write (w : WebSocket) (message : string) (m : OBSConnectionManager)
  : OBSConnectionManager :=
  set_ws (Some (Socket (inbox w) (outbox w ++ [(message, true)]) (ws_timeout w) false)) m.

(* ================================================================== *)
(** * The monad of methods *)
(* ================================================================== *)

Definition M (S A : Type) : Type := S -> outcome A * S.

Definition ret {S A} (a : A) : M S A := fun s => (Return a, s).
Definition raise {S A} (e : exn) : M S A := fun s => (Raise e, s).
Definition block {S A} : M S A := fun s => (Blocked, s).
Definition lift {S A} (o : outcome A) : M S A := fun s => (o, s).
Definition gets {S A} (f : S -> A) : M S A := fun s => (Return (f s), s).
Definition modify {S} (f : S -> S) : M S unit := fun s => (Return tt, f s).

Definition bind {S A B} (m : M S A) (k : A -> M S B) : M S B :=
  fun s =>
    match m s with
    | (Return a, s') => k a s'
    | (Raise e, s') => (Raise e, s')
    | (Blocked, s') => (Blocked, s')
    end.

Declare Scope method_scope.
Delimit Scope method_scope with method.
Notation "x <- m ;; k" := (bind m (fun x => k))
  (at level 61, m at next level, right associativity) : method_scope.
Notation "m ;; k" := (bind m (fun _ => k))
  (at level 61, right associativity) : method_scope.
Local Open Scope method_scope.

(** [try: body / except <catches> as e: handler e] *)
Definition try_except {S A} (body : M S A) (catches : exn -> bool) (handler : exn -> M S A)
  : M S A :=
  fun s =>
    match body s with
    | (Raise e, s') => if catches e then handler e s' else (Raise e, s')
    | other => other
    end.

(** [try: body / finally: final]; a blocked thread does not reach [final]. *)
Definition try_finally {S A} (body : M S A) (final : M S unit) : M S A :=
  fun s =>
    match body s with
    | (Blocked, s') => (Blocked, s')
    | (o, s') =>
        match final s' with
        | (Return _, s'') => (o, s'')
        | (Raise e, s'') => (Raise e, s'')
        | (Blocked, s'') => (Blocked, s'')
        end
    end.

(** [with lock: body] for a [threading.Lock]: acquiring a held lock blocks;
    the lock is released when [body] returns or raises. *)
Definition with_lock {S A} (held : S -> bool) (set : bool -> S -> S) (body : M S A) : M S A :=
  fun s =>
    if held s then (Blocked, s)
    else try_finally body (modify (set false)) (set true s).

(* ================================================================== *)
(** * [OBSConnectionManager] *)
(* ================================================================== *)

Section Client.

(** The standard library's [json.loads] ([None] for [JSONDecodeError]),
    [json.dumps], and [int] on a [str] ([None] for [ValueError]). *)
Variable json_loads : string -> option json.
Variable json_dumps : json -> string.
Variable int_of_str : string -> option Z.

Definition Method : Type -> Type := M OBSConnectionManager.

(** [int(v)] *)
Definition py_int (v : json) : outcome Z :=
  match v with
  | JBool b => Return (if b then 1 else 0)
  | JInt n => Return n
  | JFloat q => Return (Z.quot (Qnum q) (Z.pos (Qden q)))
  | JStr s => match int_of_str s with Some n => Return n | None => Raise ValueError end
  | JNull | JList _ | JDict _ => Raise TypeError
  end.

Definition log (l : level) (template : string) : Method unit :=
  modify (fun m => set_logged (logged m ++ [(l, template)]) m).

Definition is_connected (m : OBSConnectionManager) : bool :=
  match _ws m with
  | Some _ => _identified m
  | None => false
  end.

(** [self._ws.settimeout(t)], [self._ws.close()] *)
Definition on_socket (f : WebSocket -> WebSocket) : Method unit :=
  modify (fun m => match _ws m with
                   | Some w => set_ws (Some (f w)) m
                   | None => m
                   end).

Definition _safe_close : Method unit :=
  on_socket ws_close ;;
  modify (set_ws None).

Definition _send (payload : json) : Method unit :=
  ws <- gets _ws ;;
  match ws with
  | None => raise OBSNotConnectedError
  | Some w =>
      let message := json_dumps payload in
      held <- gets _send_lock ;;
      match ws_send message held w with
      | Some w' => modify (set_ws (Some w'))
      | None => raise OBSConnectionError
      end
  end.

(** [self._ws.recv()]: the message ([None] when there is none), or the
    exception of the socket. *)
Definition recv_call : Method (option string) :=
  fun m =>
    match _ws m with
    | None => (Raise AttributeError, m)
    | Some w =>
        let (ev, w') := ws_recv w in
        let m' := set_ws (Some w') m in
        match ev with
        | None => (Blocked, m')
        | Some (Text message) => (Return (Some message), m')
        | Some NoData => (Return None, m')
        | Some PeerClosed => (Raise WebSocketConnectionClosedException, m')
        | Some RecvWebSocketError => (Raise WebSocketException, m')
        | Some RecvOSError => (Raise OSError, m')
        | Some RecvOtherError => (Raise OtherException, m')
        end
    end.

Definition _recv (timeout : Q) : Method json :=
  ws <- gets _ws ;;
  match ws with
  | None => raise OBSNotConnectedError
  | Some w =>
      let previous_timeout := ws_timeout w in
      on_socket (ws_settimeout (Some timeout)) ;;
      message <- try_finally
                   (try_except recv_call is_WebSocketException
                               (fun _ => raise OBSConnectionError))
                   (on_socket (ws_settimeout previous_timeout)) ;;
      match message with
      | None => raise TypeError
      | Some text =>
          match json_loads text with
          | Some v => ret v
          | None => raise OBSConnectionError
          end
      end
  end.

Definition is_None (v : json) : bool :=
  match v with JNull => true | _ => false end.

Definition _build_auth_response (auth_payload : json) : Method string :=
  challenge <- lift (py_get auth_payload "challenge") ;;
  salt <- lift (py_get auth_payload "salt") ;;
  if is_None challenge || is_None salt then raise OBSAuthenticationError
  else
    config <- gets _config ;;
    match salt with
    | JStr salt =>
        let secret := SHA256.digest (encode_utf8 (password config ++ salt)) in
        let secret_b64 := Base64.b64encode secret in
        match challenge with
        | JStr challenge =>
            let auth_response := SHA256.digest (secret_b64 ++ encode_utf8 challenge) in
            ret (decode_utf8 (Base64.b64encode auth_response))
        | _ => raise AttributeError
        end
    | _ => raise TypeError
    end.

Definition _perform_handshake (timeout : Q) : Method unit :=
  hello <- _recv timeout ;;
  op <- lift (py_get hello "op") ;;
  if negb (py_eq op (JInt 0)) then raise OBSConnectionError
  else
    hello_data <- lift (py_get_default hello "d" (JDict [])) ;;
    version <- lift (py_get_default hello_data "rpcVersion" (JInt 1)) ;;
    version <- lift (py_int version) ;;
    modify (set_rpc_version version) ;;
    rpc_version <- gets _rpc_version ;;
    config <- gets _config ;;
    let d := [("rpcVersion", JInt rpc_version);
              ("eventSubscriptions", JInt (event_subscriptions config))] in
    auth <- lift (py_get hello_data "authentication") ;;
    d <- (if truthy auth then
            config <- gets _config ;;
            if negb (truthy (JStr (password config))) then raise OBSAuthenticationError
            else
              response <- _build_auth_response auth ;;
              ret (store "authentication" (JStr response) d)
          else ret d) ;;
    _send (JDict [("op", JInt 1); ("d", JDict d)]) ;;
    identified <- _recv timeout ;;
    op <- lift (py_get identified "op") ;;
    if negb (py_eq op (JInt 2)) then raise OBSConnectionError
    else
      modify (set_identified true) ;;
      on_socket (ws_settimeout None) ;;
      log DEBUG "OBS WebSocket handshake completed (RPC version {})".

(** The first frame the socket [w] of [m] delivers is a Hello: a JSON object
    with opcode 0 whose [d] is an object with a version that [int] accepts;
    [version] is that version, [auth] the value of [d.get("authentication")]
    and [rest] the frames that follow. *)
Definition receives_hello (m : OBSConnectionManager) (w : WebSocket)
           (rest : list recv_event) (version : Z) (auth : json) : Prop :=
  exists text entries op hello_data version_field,
    _ws m = Some w /\ closed w = false /\ inbox w = Text text :: rest
    /\ json_loads text = Some (JDict entries)
    /\ lookup "op" entries = Some op /\ py_eq op (JInt 0) = true
    /\ py_get_default (JDict entries) "d" (JDict []) = Return hello_data
    /\ py_get_default hello_data "rpcVersion" (JInt 1) = Return version_field
    /\ py_int version_field = Return version
    /\ py_get hello_data "authentication" = Return auth.

(** The Identify frame without an [authentication] key. *)
Definition plain_identify (version subscriptions : Z) : json :=
  JDict [("op", JInt 1);
         ("d", JDict [("rpcVersion", JInt version);
                      ("eventSubscriptions", JInt subscriptions)])].

(** [with self._response_condition: self._responses[request_id] = data;
    self._response_condition.notify_all()] *)
Definition store_response (request_id data : json) : Method unit :=
  with_lock _response_condition set_response_condition
    (if hashable request_id then
       modify (fun m => set_responses (registry_store request_id data (_responses m)) m) ;;
       modify (fun m => set_notifications (S (notifications m)) m)
     else raise TypeError).

Definition _handle_message (payload : json) : Method unit :=
  op <- lift (py_get payload "op") ;;
  data <- lift (py_get_default payload "d" (JDict [])) ;;
  if py_eq op (JInt 0) then
    log INFO "OBS WebSocket requested re-identification" ;;
    try_except
      (config <- gets _config ;; _perform_handshake (request_timeout config))
      is_Exception
      (fun _ => log ERROR "Re-identification failed: {}")
  else if py_eq op (JInt 2) then
    modify (set_identified true) ;;
    log DEBUG "OBS WebSocket identified again"
  else if py_eq op (JInt 5) then
    event_type <- lift (py_get data "eventType") ;;
    log DEBUG "OBS Event received: {}"
  else if py_eq op (JInt 7) then
    request_id <- lift (py_get data "requestId") ;;
    if truthy request_id then store_response request_id data else ret tt
  else if py_eq op (JInt 8) then
    request_id <- lift (py_get data "requestId") ;;
    if truthy request_id then store_response request_id data else ret tt
  else
    log DEBUG "Unhandled OBS message op={}: {}".

(** The statements after the [while] loop of [_receiver_loop]. *)
Definition receiver_exit : Method unit :=
  modify (set_identified false) ;;
  modify (set_receiver_running false) ;;
  _safe_close.

(** [_receiver_loop]: [fuel] bounds the number of iterations; the thread
    is [Blocked] when the socket has nothing more to deliver. *)
Fixpoint _receiver_loop (fuel : nat) : Method unit :=
  match fuel with
  | O => block
  | S fuel' =>
      running <- gets _receiver_running ;;
      if negb running then receiver_exit
      else
        ws <- gets _ws ;;
        match ws with
        | None => receiver_exit
        | Some _ =>
            received <-
              try_except (message <- recv_call ;; ret (Some message))
                is_Exception
                (fun e =>
                   match e with
                   | WebSocketConnectionClosedException =>
                       log WARNING "Lost connection to OBS WebSocket"
                   | OSError => log WARNING "OBS WebSocket recv interrupted"
                   | _ => log ERROR "Unexpected OBS WebSocket error: {}"
                   end ;;
                   ret None) ;;
            match received with
            | None => receiver_exit                       (* break *)
            | Some None => _receiver_loop fuel'           (* continue *)
            | Some (Some message) =>
                match json_loads message with
                | None =>
                    log WARNING "Received malformed OBS payload: {}" ;;
                    _receiver_loop fuel'                  (* continue *)
                | Some payload =>
                    _handle_message payload ;;
                    _receiver_loop fuel'
                end
            end
        end
  end.

(** The body of the receiver thread: the loop, after which the thread is
    no longer alive, whether the loop returned or raised. *)
Definition receiver_thread_run (fuel : nat) : Method unit :=
  try_finally (_receiver_loop fuel) (modify (set_receiver_thread (Some Finished))).

Definition thread_is_alive (t : option thread) : bool :=
  match t with Some Alive => true | _ => false end.

Definition _start_receiver : Method unit :=
  t <- gets _receiver_thread ;;
  if thread_is_alive t then ret tt
  else
    modify (set_receiver_running true) ;;
    modify (set_receiver_thread (Some Alive)).

(** [self._receiver_thread.join(timeout=1.0)]: the receiver, whose read was
    interrupted by the closed socket, leaves its loop. *)
Definition thread_join : Method unit :=
  receiver_exit ;;
  modify (set_receiver_thread (Some Finished)).

Definition _stop_receiver : Method unit :=
  modify (set_receiver_running false) ;;
  t <- gets _receiver_thread ;;
  (if thread_is_alive t then
     on_socket ws_close ;;
     thread_join
   else ret tt) ;;
  modify (set_receiver_thread None).

(** [network url] is what [create_connection(url, ...)] gives at the time
    of the call: a socket, or [None] when it raises. *)
Definition _do_connect (timeout : option Q) (network : string -> option WebSocket)
  : Method unit :=
  config <- gets _config ;;
  let connect_timeout := timeout_or timeout (request_timeout config) in
  log DEBUG "Connecting to OBS WebSocket at {}" ;;
  match network (as_url config) with
  | None => raise OBSConnectionError
  | Some ws =>
      modify (set_ws (Some (ws_settimeout (Some connect_timeout) ws))) ;;
      try_except (_perform_handshake connect_timeout) is_Exception
                 (fun e => _safe_close ;; raise e) ;;
      _start_receiver
  end.

Definition connect (timeout : option Q) (network : string -> option WebSocket)
  : Method unit :=
  with_lock _connection_lock set_connection_lock
    (connected <- gets is_connected ;;
     if connected then ret tt
     else
       try_except (_do_connect timeout network) is_Exception
         (fun e => if is_OBSConnectionError e then raise e
                   else _safe_close ;; raise OBSConnectionError)).

Definition ensure_connection (network : string -> option WebSocket) : Method unit :=
  connected <- gets is_connected ;;
  if negb connected then connect None network else ret tt.

Definition disconnect : Method unit :=
  with_lock _connection_lock set_connection_lock
    (_stop_receiver ;;
     _safe_close ;;
     modify (set_identified false)).

Definition update_config (kwargs : config_changes) (network : string -> option WebSocket)
  : Method OBSConnectionConfig :=
  config <- gets _config ;;
  let new_config := replace config kwargs in
  if config_eq new_config config then gets _config
  else
    let reconnect_required :=
      negb (String.eqb (host new_config) (host config))
      || negb (port new_config =? port config)%Z
      || negb (Bool.eqb (use_ssl new_config) (use_ssl config))
      || negb (String.eqb (password new_config) (password config)) in
    was_connected <- gets is_connected ;;
    modify (set_config new_config) ;;
    (if was_connected && reconnect_required then
       log INFO "Reconnecting to OBS WebSocket after configuration change" ;;
       try_except (disconnect ;; connect None network) is_OBSConnectionError
                  (fun _ => log ERROR "Failed to reconnect to OBS: {}")
     else ret tt) ;;
    gets _config.

(** One pass of the [while True] loop of [_wait_for_response] reads the
    clock; when it goes to sleep on the condition, the other threads change
    the response table before it wakes. [wakes] lists, pass by pass, the
    clock reading and that change. The caller is [Blocked] when the list
    ends while it sleeps. *)
Definition wake : Type := Q * (registry -> registry).

Fixpoint wait_loop (request_id : string) (deadline : Q) (wakes : list wake)
  : Method json :=
  match wakes with
  | [] => block
  | (now, others) :: later =>
      let remaining := (deadline - now)%Q in
      if Qle_bool remaining 0 then raise OBSResponseTimeoutError
      else
        responses <- gets _responses ;;
        match registry_find (JStr request_id) responses with
        | Some data =>
            modify (set_responses (registry_remove (JStr request_id) responses)) ;;
            ret data
        | None =>
            (* self._response_condition.wait(timeout=remaining) *)
            modify (set_response_condition false) ;;
            modify (fun m => set_responses (others (_responses m)) m) ;;
            modify (set_response_condition true) ;;
            wait_loop request_id deadline later
        end
  end.

(** [start] is the reading of [time.perf_counter()] at the call. *)
Definition _wait_for_response (request_id : string) (timeout : option Q)
           (start : Q) (wakes : list wake) : Method json :=
  config <- gets _config ;;
  let deadline := (start + timeout_or timeout (request_timeout config))%Q in
  with_lock _response_condition set_response_condition
    (wait_loop request_id deadline wakes).

(** What a call of [send_request] takes from outside the manager: the
    value of [str(uuid.uuid4())], the clock and the other threads. *)
Record surroundings : Type := Surroundings {
  uuid4 : string;
  perf_counter : Q;
  wakes_of : list wake
}.

Definition send_request (request_type : string) (request_data : json)
           (timeout : option Q) (env : surroundings) : Method json :=
  connected <- gets is_connected ;;
  if negb connected then raise OBSNotConnectedError
  else
    let request_id := uuid4 env in
    let payload :=
      JDict [("op", JInt 6);
             ("d", JDict [("requestType", JStr request_type);
                          ("requestId", JStr request_id);
                          ("requestData", py_or request_data (JDict []))])] in
    with_lock _send_lock set_send_lock (_send payload) ;;
    response <- _wait_for_response request_id timeout (perf_counter env) (wakes_of env) ;;
    status <- lift (py_get_default response "requestStatus" (JDict [])) ;;
    result <- lift (py_get_default status "result" (JBool false)) ;;
    if negb (truthy result) then raise (OBSRequestError request_type status)
    else lift (py_get_default response "responseData" (JDict [])).

(** The frame of a request: [{op: 6, d: {requestType, requestId,
    requestData}}], the data being [{}] when none is given. *)
Definition request_envelope (request_type request_id : string) (request_data : json)
  : json :=
  JDict [("op", JInt 6);
         ("d", JDict [("requestType", JStr request_type);
                      ("requestId", JStr request_id);
                      ("requestData", py_or request_data (JDict []))])].

(** The manager is identified, its socket [w] is open and no thread holds
    the send lock. *)
Definition ready_to_send (m : OBSConnectionManager) (w : WebSocket) : Prop :=
  is_connected m = true /\ _ws m = Some w /\ closed w = false /\ _send_lock m = false.

(** [error.status.get("code")] and [error.status.get("comment")] of an
    [OBSRequestError]. *)
Definition error_code (e : exn) : option json :=
  match e with
  | OBSRequestError _ (JDict status) => lookup "code" status
  | _ => None
  end.

Definition error_comment (e : exn) : option json :=
  match e with
  | OBSRequestError _ (JDict status) => lookup "comment" status
  | _ => None
  end.


(* ================================================================ *)
(** * [TwitchatEventBroadcaster] *)
(* ================================================================ *)

Record TwitchatEventBroadcaster : Type := Broadcaster {
  _connection : OBSConnectionManager;
  _namespace : string
}.

(** [TwitchatEventBroadcaster(connection, namespace="twitchat")] *)
Definition new_broadcaster (connection : OBSConnectionManager) (namespace : option string)
  : TwitchatEventBroadcaster :=
  Broadcaster connection (or_else namespace "twitchat").

Definition Helper : Type -> Type := M TwitchatEventBroadcaster.

(** A method of the connection called through [self._connection]. *)
Definition on_connection {A} (m : Method A) : Helper A :=
  fun b =>
    let (o, c) := m (_connection b) in
    (o, Broadcaster c (_namespace b)).

Definition set_namespace (namespace : string) : Helper unit :=
  if negb (truthy (JStr namespace)) then raise ValueError
  else modify (fun b => Broadcaster (_connection b) namespace).

Definition broadcaster_ensure_connection (network : string -> option WebSocket)
  : Helper unit :=
  on_connection (ensure_connection network).

Definition _format_event_type (action : string) : Helper string :=
  let action := strip action in
  if contains ":" action then ret action
  else
    namespace <- gets _namespace ;;
    ret (namespace ++ ":" ++ action)%string.

Definition broadcast (action : string) (payload : json) (timeout : option Q)
           (env : surroundings) : Helper json :=
  if negb (truthy (JStr action)) then raise ValueError
  else
    event_type <- _format_event_type action ;;
    let event_data := py_or payload (JDict []) in
    on_connection (log DEBUG "Broadcasting Twitchat event {} with payload {}") ;;
    response <- on_connection
                  (send_request "BroadcastCustomEvent"
                     (JDict [("eventType", JStr event_type);
                             ("eventData", event_data)])
                     timeout env) ;;
    ret response.

(** The request by which an event of type [event_type] is broadcast: the
    debug line, then [BroadcastCustomEvent] with the event type and, as event
    data, the payload or [{}]. *)
Definition custom_event_request (event_type : string) (payload : json)
           (timeout : option Q) (env : surroundings) : Helper json :=
  on_connection
    (log DEBUG "Broadcasting Twitchat event {} with payload {}" ;;
     send_request "BroadcastCustomEvent"
       (JDict [("eventType", JStr event_type);
               ("eventData", py_or payload (JDict []))])
       timeout env).

(** The classes named by the [except] clause of [safe_broadcast]. *)
Definition is_expected_failure (e : exn) : bool :=
  match e with
  | OBSNotConnectedError | OBSRequestError _ _ | OBSResponseTimeoutError => true
  | _ => false
  end.

Definition safe_broadcast (action : string) (payload : json) (timeout : option Q)
           (env : surroundings) : Helper bool :=
  try_except
    (broadcast action payload timeout env ;; ret true)
    is_expected_failure
    (fun _ =>
       on_connection (log ERROR "Failed to broadcast Twitchat event {}: {}") ;;
       ret false).

End Client.

(* ================================================================== *)
(** * The plugin: settings, background connection, broadcast entry point *)
(* ================================================================== *)

(** A method that leaves no thread blocked, whatever the state. *)
Definition never_blocks {S A : Type} (m : M S A) : Prop :=
  forall s, fst (m s) <> Blocked.

(** A method that leaves the observation [f] of the state as it was. *)
Definition keeps {S A X : Type} (f : S -> X) (m : M S A) : Prop :=
  forall s, f (snd (m s)) = f s.

(** The manager once its socket is dropped, its identified flag cleared and
    its receiver stopped and forgotten. *)
Definition released (m : OBSConnectionManager) : OBSConnectionManager :=
  set_receiver_thread None
    (set_receiver_running false (set_identified false (set_ws None m))).

(** The test of [update_config] for a reconnection: host, port, SSL or
    password differ. *)
Definition reconnect_required (new_config config : OBSConnectionConfig) : bool :=
  negb (String.eqb (host new_config) (host config))
  || negb (port new_config =? port config)%Z
  || negb (Bool.eqb (use_ssl new_config) (use_ssl config))
  || negb (String.eqb (password new_config) (password config)).

(** [o] then [k], for computations without state. *)
Definition and_then {A B : Type} (o : outcome A) (k : A -> outcome B) : outcome B :=
  match o with
  | Return a => k a
  | Raise e => Raise e
  | Blocked => Blocked
  end.

(** [s or default] on strings *)
Definition str_or (s default : string) : string :=
  if truthy (JStr s) then s else default.

Module Settings.

Section Conversions.

(** [str] on a float, a list or a dict, [float] on a [str] ([None] for
    [ValueError]) and [int] on a [str], of the Python runtime. *)
Variable repr : json -> string.
Variable float_of_str : string -> option Q.
Variable int_of_str : string -> option Z.

(** [str(v)] *)
Definition py_str (v : json) : string :=
  match v with
  | JStr s => s
  | JInt n => str_of_int n
  | JBool true => "True"
  | JBool false => "False"
  | JNull => "None"
  | JFloat _ | JList _ | JDict _ => repr v
  end.

(** [float(v)] *)
Definition py_float (v : json) : outcome Q :=
  match v with
  | JBool b => Return (inject_Z (if b then 1 else 0))
  | JInt n => Return (inject_Z n)
  | JFloat q => Return q
  | JStr s => match float_of_str s with Some q => Return q | None => Raise ValueError end
  | JNull | JList _ | JDict _ => Raise TypeError
  end.

(** The dataclass [TwitchatSettings]. *)
Record TwitchatSettings : Type := Make {
  host : string;
  port : Z;
  password : string;
  use_ssl : bool;
  namespace : string;
  request_timeout : Q
}.

(** The class attributes, that is, the defaults of the fields. *)
Definition defaults : TwitchatSettings :=
  Make "127.0.0.1" 4455 "" false "twitchat" 5.

Definition from_dict (raw : json) : outcome TwitchatSettings :=
  let raw := py_or raw (JDict []) in
  and_then (py_get_default raw "host" (JStr (host defaults))) (fun h =>
  let host_ := str_or (strip (py_str h)) (host defaults) in
  and_then (py_get_default raw "port" (JInt (port defaults))) (fun p =>
  and_then (py_int int_of_str p) (fun port_ =>
  and_then (py_get_default raw "password" (JStr (password defaults))) (fun pw =>
  let password_ := py_str pw in
  and_then (py_get_default raw "use_ssl" (JBool (use_ssl defaults))) (fun ssl =>
  let use_ssl_ := truthy ssl in
  and_then (py_get_default raw "namespace" (JStr (namespace defaults))) (fun ns =>
  let namespace_ := str_or (strip (py_str ns)) (namespace defaults) in
  and_then (py_get_default raw "request_timeout" (JFloat (request_timeout defaults)))
    (fun t =>
  and_then (py_float t) (fun request_timeout_ =>
  Return (Make host_ port_ password_ use_ssl_ namespace_ request_timeout_))))))))).

(** [asdict(self)]: the fields in the order of their declaration. *)
Definition to_dict (s : TwitchatSettings) : json :=
  JDict [("host", JStr (host s));
         ("port", JInt (port s));
         ("password", JStr (password s));
         ("use_ssl", JBool (use_ssl s));
         ("namespace", JStr (namespace s));
         ("request_timeout", JFloat (request_timeout s))].

Definition to_obs_config (s : TwitchatSettings) : OBSConnectionConfig :=
  Config (host s) (port s) (password s) (use_ssl s) (request_timeout s) 0.

(** [data.update(kwargs)] *)
Definition dict_update (data : json) (kwargs : list (string * json)) : json :=
  match data with
  | JDict entries =>
      JDict (fold_left (fun d kv => store (fst kv) (snd kv) d) kwargs entries)
  | other => other
  end.

Definition update (s : TwitchatSettings) (kwargs : list (string * json))
  : outcome TwitchatSettings :=
  let data := to_dict s in
  let data := dict_update data kwargs in
  from_dict data.

End Conversions.

End Settings.

Section Plugin.

Variable json_loads : string -> option json.
Variable json_dumps : json -> string.
Variable int_of_str : string -> option Z.

(** The [worker] of [_connect_in_background], run by the thread it starts. *)
Definition connect_worker (network : string -> option WebSocket)
  : M OBSConnectionManager unit :=
  try_except (ensure_connection json_loads json_dumps int_of_str network)
    is_OBSConnectionError
    (fun _ => log WARNING "OBS connection attempt failed: {}").

Definition is_dict (v : json) : bool :=
  match v with JDict _ => true | _ => false end.

(** [TwitchatIntegrationPlugin.broadcast], on the plugin's broadcaster. *)
Definition plugin_broadcast (action : string) (payload : json) (env : surroundings)
  : M TwitchatEventBroadcaster bool :=
  if negb (is_None payload) && negb (is_dict payload) then raise ValueError
  else safe_broadcast json_dumps action payload None env.

(** [GreetFeedReadAllAction.on_key_down] *)
Definition on_key_down (env : surroundings) : M TwitchatEventBroadcaster unit :=
  success <- plugin_broadcast "GREET_FEED_READ_ALL" JNull env ;;
  if negb success then
    on_connection
      (log WARNING
         "Twitchat greet feed read-all command failed; see plugin logs for details")
  else ret tt.

End Plugin.

(* ================================================================== *)
(** * A codec and states to run the methods on *)
(* ================================================================== *)

Module Sample.

Definition quote : string := String "034" EmptyString.

Fixpoint escape (s : string) : string :=
  match s with
  | EmptyString => EmptyString
  | String c rest =>
      if Ascii.eqb c "034" || Ascii.eqb c "092"
      then String "092" (String c (escape rest))
      else String c (escape rest)
  end.

Definition quoted (s : string) : string := (quote ++ escape s ++ quote)%string.

(** [json.dumps] with its default separators, for values without reals,
    control characters or characters outside ASCII (a real is written as
    a quotient of two integers; no frame below has one). *)
Fixpoint dumps (v : json) : string :=
  match v with
  | JNull => "null"
  | JBool true => "true"
  | JBool false => "false"
  | JInt n => str_of_int n
  | JFloat q => (str_of_int (Qnum q) ++ "/" ++ str_of_int (Z.pos (Qden q)))%string
  | JStr s => quoted s
  | JList items =>
      let fix go (l : list json) : string :=
        match l with
        | [] => ""
        | x :: rest =>
            (dumps x ++ match rest with [] => "" | _ => ", " ++ go rest end)%string
        end in
      ("[" ++ go items ++ "]")%string
  | JDict entries =>
      let fix go (l : list (string * json)) : string :=
        match l with
        | [] => ""
        | (k, x) :: rest =>
            (quoted k ++ ": " ++ dumps x
             ++ match rest with [] => "" | _ => ", " ++ go rest end)%string
        end in
      ("{" ++ go entries ++ "}")%string
  end.

(** The frames of the examples. *)
Definition hello_plain : json :=
  JDict [("op", JInt 0); ("d", JDict [("rpcVersion", JInt 1)])].

Definition hello_challenge : json :=
  JDict [("op", JInt 0);
         ("d", JDict [("rpcVersion", JInt 1);
                      ("authentication",
                       JDict [("challenge", JStr "c"); ("salt", JStr "s")])])].

Definition identified : json :=
  JDict [("op", JInt 2); ("d", JDict [("negotiatedRpcVersion", JInt 1)])].

Definition accepted : json := JDict [("result", JBool true); ("code", JInt 100)].

Definition rejected : json :=
  JDict [("result", JBool false); ("code", JInt 400); ("comment", JStr "bad")].

Definition response_data (request_id : json) (ok : bool) : json :=
  JDict [("requestType", JStr "BroadcastCustomEvent");
         ("requestId", request_id);
         ("requestStatus", if ok then accepted else rejected);
         ("responseData", JDict [("done", JBool true)])].

Definition response (request_id : json) (ok : bool) : json :=
  JDict [("op", JInt 7); ("d", response_data request_id ok)].

Definition frames : list json :=
  [ hello_plain; hello_challenge; identified;
    response (JStr "id-1") true; response (JStr "id-1") false;
    response (JStr "") true; response JNull true;
    JList []; JDict []; JInt 42; JNull ].

(** [json.loads] on the texts of [frames]; every other text of the
    examples is not JSON. *)
Definition loads (text : string) : option json :=
  find (fun v => String.eqb (dumps v) text) frames.

(** [int] on a string of decimal digits with an optional minus sign. *)
Definition int_of_str (s : string) : option Z :=
  option_map Z.of_int (DecimalString.NilZero.int_of_string s).

Definition socket (incoming : list recv_event) : WebSocket :=
  Socket incoming [] None false.

(** A manager whose handshake is done and whose receiver runs. *)
Definition identified_manager (incoming : list recv_event) : OBSConnectionManager :=
  Manager default_config (Some (socket incoming)) 1 false false [] false 0
          (Some Alive) true true [].

(** A manager inside [connect]: the socket is dialled, with the time-out of
    the handshake, and nothing is identified yet. *)
Definition dialled (incoming : list recv_event) : WebSocket :=
  Socket incoming [] (Some 5%Q) false.

Definition connecting_manager (incoming : list recv_event) : OBSConnectionManager :=
  Manager default_config (Some (dialled incoming)) 1 true false [] false 0
          None false false [].

(** The response table after the receiver stored [data] under ["id-1"]. *)
Definition arrival (data : json) (r : registry) : registry :=
  registry_store (JStr "id-1") data r.

Definition answer : json := JDict [("requestId", JStr "id-1")].

(** A caller that sleeps at time 1 with five seconds left, for whom the
    answer is stored while it sleeps, and that runs again at time 6. *)
Definition late_wakes : list wake := [(1%Q, arrival answer); (6%Q, fun r => r)].

(** The same caller running again at time 3. *)
Definition timely_wakes : list wake := [(1%Q, arrival answer); (3%Q, fun r => r)].

(** A call that draws the id ["id-1"] at time 0 and sleeps at time 1; the
    receiver stores the response while it sleeps, and the call runs again at
    time 2. *)
Definition answered (ok : bool) : surroundings :=
  Surroundings "id-1" 0
    [(1%Q, arrival (response_data (JStr "id-1") ok)); (2%Q, fun r => r)].

(** A broadcaster with the default namespace on an identified manager, and
    one on a manager that never connected. *)
Definition broadcaster : TwitchatEventBroadcaster :=
  new_broadcaster (identified_manager []) None.

Definition offline_broadcaster : TwitchatEventBroadcaster :=
  new_broadcaster (new_manager None) None.

(** The conversions of the runtime on the values of the examples: no float,
    list or dict is passed to [str], and the floats read from text are
    written as integers. *)
Definition repr (v : json) : string := dumps v.

Definition float_of_str (s : string) : option Q :=
  option_map inject_Z (int_of_str s).

(** A socket closed by the peer under an identified manager. *)
Definition closed_socket : WebSocket := Socket [] [] None true.

Definition stale_manager : OBSConnectionManager :=
  Manager default_config (Some closed_socket) 1 false false [] false 0
          (Some Alive) true true [].

(** An Event frame, as decoded. *)
Definition event : json :=
  JDict [("op", JInt 5); ("d", JDict [("eventType", JStr "SceneChanged")])].

(** A manager inside [connect] whose configuration has the password "pw". *)
Definition secured_manager (incoming : list recv_event) : OBSConnectionManager :=
  Manager (Config "127.0.0.1" 4455 "pw" false 5 0) (Some (dialled incoming)) 1
          true false [] false 0 None false false [].

(** Three networks: one where nothing listens, one where OBS answers without
    asking for a password, one where it sends a challenge. *)
Definition network_down (url : string) : option WebSocket := None.

Definition network_up (url : string) : option WebSocket :=
  Some (socket [Text (dumps hello_plain); Text (dumps identified)]).

Definition network_challenge (url : string) : option WebSocket :=
  Some (socket [Text (dumps hello_challenge); Text (dumps identified)]).

(** Settings as saved by a user, with spaces around the host. *)
Definition saved_settings : json :=
  JDict [("host", JStr " obs.local "); ("port", JStr "4460")].

End Sample.

(* ================================================================== *)
(** * Properties *)
(* ================================================================== *)

(** ** The authentication response *)

(** C1. For every password, salt and challenge that are strings,
    [_build_auth_response] returns
    base64(SHA256(base64(SHA256(password + salt)) + challenge)) and leaves the
    manager as it was: the value depends on the three strings only, and the
    intermediate secret enters the second hash base64-encoded. For "pw", "s"
    and "c" the value is the one [hashlib] and [base64] give. *)
Theorem build_auth_response_formula :
  forall (m : OBSConnectionManager) (auth : json) (challenge salt : string),
    py_get auth "challenge" = Return (JStr challenge) ->
    py_get auth "salt" = Return (JStr salt) ->
    _build_auth_response auth m
    = (Return (expected_auth_response (password (_config m)) salt challenge), m)
    /\ expected_auth_response "pw" "s" "c"
       = "xMPN4g9M0+1V8ZyBd8LT5TKpVDn9gISLBuOsmcvzsaU=".
Proof.
  intros m auth challenge salt Hchallenge Hsalt.
  split.
  - unfold _build_auth_response, bind, lift.
    rewrite Hchallenge, Hsalt.
    reflexivity.
  - vm_compute. reflexivity.
Qed.

Lemma build_auth_response_formula_witness :
  _build_auth_response
    (JDict [("challenge", JStr "c"); ("salt", JStr "s")])
    (new_manager (Some (Config "127.0.0.1" 4455 "pw" false 5 0)))
  = (Return (expected_auth_response "pw" "s" "c"),
     new_manager (Some (Config "127.0.0.1" 4455 "pw" false 5 0)))
  /\ expected_auth_response "pw" "s" "c"
     = "xMPN4g9M0+1V8ZyBd8LT5TKpVDn9gISLBuOsmcvzsaU=".
Proof.
  apply (build_auth_response_formula
           (new_manager (Some (Config "127.0.0.1" 4455 "pw" false 5 0)))
           (JDict [("challenge", JStr "c"); ("salt", JStr "s")]) "c" "s");
    reflexivity.
Defined.

(** ** Waiting for a response *)

Lemma remaining_exhausted (deadline now : Q) :
  Qle_bool (deadline - now) 0 = true <-> (deadline <= now)%Q.
Proof.
  rewrite Qle_bool_iff. split; intros H; lra.
Qed.

Lemma remaining_left (deadline now : Q) :
  Qle_bool (deadline - now) 0 = false <-> (now < deadline)%Q.
Proof.
  split; intros H.
  - destruct (Qlt_le_dec now deadline) as [Hlt | Hle]; [exact Hlt |].
    apply remaining_exhausted in Hle. congruence.
  - destruct (Qle_bool (deadline - now) 0) eqn:E; [| reflexivity].
    apply remaining_exhausted in E. lra.
Qed.

(** The caller is not left blocked when one of the scripted passes reads a
    clock at or after the deadline. *)
Lemma wait_loop_ends (request_id : string) (deadline : Q) (wakes : list wake) :
  Exists (fun w => (deadline <= fst w)%Q) wakes ->
  forall m, fst (wait_loop request_id deadline wakes m) <> Blocked.
Proof.
  induction wakes as [| [now others] later IH]; intros Hex m.
  - inversion Hex.
  - cbn [wait_loop].
    destruct (Qle_bool (deadline - now) 0) eqn:E.
    + cbn. discriminate.
    + unfold bind, gets. cbn.
      destruct (registry_find (JStr request_id) (_responses m)) as [data |].
      * cbn. discriminate.
      * cbn. apply IH.
        inversion Hex as [w l Hnow | w l Hlater]; subst.
        -- cbn in Hnow. apply remaining_exhausted in Hnow. congruence.
        -- exact Hlater.
Qed.

(** C2, the claim as written fails: the caller slept with time left, the
    response for its id was stored while it slept, and it ran again after the
    deadline; the entry is in the table and stays there, and the call raises
    the time-out. *)
Lemma wait_times_out_on_stored_response :
  _wait_for_response "id-1" None 0 Sample.late_wakes (Sample.identified_manager [])
  = (Raise OBSResponseTimeoutError,
     set_responses [(JStr "id-1", Sample.answer)] (Sample.identified_manager []))
  /\ registry_find (JStr "id-1") [(JStr "id-1", Sample.answer)] = Some Sample.answer.
Proof.
  split; reflexivity.
Qed.

(** C2, as the code has it. Every pass of the loop first recomputes the
    remaining time from the clock. With none left it raises the time-out and
    leaves the table as it is, also when the entry for the id is stored. With
    time left, a stored entry is removed and returned; without one the caller
    sleeps on the condition (the other threads act on the table) and makes
    the next pass. The call ends when a pass reads a clock at or after the
    deadline. *)
Theorem wait_checks_deadline_before_presence :
  (forall request_id deadline now others later m,
      (deadline <= now)%Q ->
      wait_loop request_id deadline ((now, others) :: later) m
      = (Raise OBSResponseTimeoutError, m))
  /\ (forall request_id deadline now others later m data,
         (now < deadline)%Q ->
         registry_find (JStr request_id) (_responses m) = Some data ->
         wait_loop request_id deadline ((now, others) :: later) m
         = (Return data,
            set_responses (registry_remove (JStr request_id) (_responses m)) m))
  /\ (forall request_id deadline now others later m,
         (now < deadline)%Q ->
         registry_find (JStr request_id) (_responses m) = None ->
         wait_loop request_id deadline ((now, others) :: later) m
         = wait_loop request_id deadline later
             (set_response_condition true
                (set_responses (others (_responses m))
                   (set_response_condition false m))))
  /\ (forall request_id deadline wakes m,
         Exists (fun w => (deadline <= fst w)%Q) wakes ->
         fst (wait_loop request_id deadline wakes m) <> Blocked).
Proof.
  repeat split.
  - intros request_id deadline now others later m H.
    apply remaining_exhausted in H. cbn [wait_loop]. rewrite H. reflexivity.
  - intros request_id deadline now others later m data H Hfind.
    apply remaining_left in H. cbn [wait_loop]. rewrite H.
    unfold bind, gets. rewrite Hfind. reflexivity.
  - intros request_id deadline now others later m H Hfind.
    apply remaining_left in H. cbn [wait_loop]. rewrite H.
    unfold bind, gets. rewrite Hfind. reflexivity.
  - intros request_id deadline wakes m H. now apply wait_loop_ends.
Qed.

Lemma wait_checks_deadline_before_presence_witness :
  wait_loop "id-1" 5 [(6%Q, fun r => r)]
    (set_responses [(JStr "id-1", Sample.answer)] (Sample.identified_manager []))
  = (Raise OBSResponseTimeoutError,
     set_responses [(JStr "id-1", Sample.answer)] (Sample.identified_manager []))
  /\ wait_loop "id-1" 5 [(3%Q, fun r => r)]
       (set_responses [(JStr "id-1", Sample.answer)] (Sample.identified_manager []))
     = (Return Sample.answer, Sample.identified_manager [])
  /\ wait_loop "id-1" 5 Sample.timely_wakes (Sample.identified_manager [])
     = wait_loop "id-1" 5 [(3%Q, fun r => r)]
         (set_response_condition true
            (set_responses [(JStr "id-1", Sample.answer)] (Sample.identified_manager [])))
  /\ fst (wait_loop "id-1" 5 Sample.late_wakes (Sample.identified_manager [])) <> Blocked.
Proof.
  destruct wait_checks_deadline_before_presence as (Hlate & Hfound & Hsleep & Hends).
  split; [| split; [| split]].
  - apply Hlate. unfold Qle; simpl; lia.
  - apply (Hfound "id-1" 5%Q 3%Q (fun r => r) []
             (set_responses [(JStr "id-1", Sample.answer)] (Sample.identified_manager []))
             Sample.answer).
    + unfold Qlt; simpl; lia.
    + reflexivity.
  - apply (Hsleep "id-1" 5%Q 1%Q (Sample.arrival Sample.answer) [(3%Q, fun r => r)]
             (Sample.identified_manager [])).
    + unfold Qlt; simpl; lia.
    + reflexivity.
  - apply Hends. apply Exists_cons_tl, Exists_cons_hd. unfold Qle; simpl; lia.
Defined.

(** ** The receiver loop *)

Section ReceiverProperties.

Variable json_loads : string -> option json.
Variable json_dumps : json -> string.
Variable int_of_str : string -> option Z.

Local Abbreviation receiver_loop := (_receiver_loop json_loads json_dumps int_of_str).

(** A text that is not JSON is logged and the loop makes its next pass. *)
Lemma receiver_loop_skips_undecodable :
  forall fuel m w message rest,
    _receiver_running m = true ->
    _ws m = Some w -> closed w = false -> inbox w = Text message :: rest ->
    json_loads message = None ->
    receiver_loop (S fuel) m
    = receiver_loop fuel
        (set_logged (logged m ++ [(WARNING, "Received malformed OBS payload: {}")])
           (delivered w rest m)).
Proof.
  intros fuel m w message rest Hrun Hws Hopen Hin Hloads.
  cbn [_receiver_loop].
  unfold bind at 1. unfold gets at 1. rewrite Hrun. cbn [negb].
  unfold bind at 1. unfold gets at 1. rewrite Hws.
  unfold bind at 1. unfold try_except, bind at 1, recv_call, ws_recv.
  rewrite Hws, Hopen, Hin. cbn [ret]. rewrite Hloads.
  reflexivity.
Qed.

(** A decoded frame that is not a JSON object makes [_handle_message]
    raise, and the exception leaves the loop: the statements after the loop
    are not run and no later frame is read. *)
Lemma receiver_loop_raises_on_non_object :
  forall fuel m w message rest payload,
    _receiver_running m = true ->
    _ws m = Some w -> closed w = false -> inbox w = Text message :: rest ->
    json_loads message = Some payload ->
    (forall entries, payload <> JDict entries) ->
    receiver_loop (S fuel) m = (Raise AttributeError, delivered w rest m).
Proof.
  intros fuel m w message rest payload Hrun Hws Hopen Hin Hloads Hshape.
  cbn [_receiver_loop].
  unfold bind at 1. unfold gets at 1. rewrite Hrun. cbn [negb].
  unfold bind at 1. unfold gets at 1. rewrite Hws.
  unfold bind at 1. unfold try_except, bind at 1, recv_call, ws_recv.
  rewrite Hws, Hopen, Hin. cbn [ret]. rewrite Hloads.
  unfold bind at 1. unfold _handle_message. unfold bind at 1, lift at 1.
  destruct payload; try reflexivity.
  exfalso. eapply Hshape. reflexivity.
Qed.

End ReceiverProperties.

(** C3, at the frame [[]], which is JSON but not an object: the receiver
    first skips a text that is not JSON, then reads [[]], on which
    [_handle_message] raises [AttributeError]; the loop is left by the
    exception, the response that follows stays unread, the table stays empty
    and the manager still counts as identified. *)
Theorem receiver_loop_stops_on_json_array :
  _receiver_loop Sample.loads Sample.dumps Sample.int_of_str 4
    (Sample.identified_manager
       [Text "nonsense"; Text "[]";
        Text (Sample.dumps (Sample.response (JStr "id-1") true))])
  = (Raise AttributeError,
     set_logged [(WARNING, "Received malformed OBS payload: {}")]
       (Sample.identified_manager
          [Text (Sample.dumps (Sample.response (JStr "id-1") true))]))
  /\ Sample.loads "[]" = Some (JList [])
  /\ Sample.loads "nonsense" = None.
Proof.
  repeat split; vm_compute; reflexivity.
Qed.

(** With the array left out, the same frames are handled to the end: the
    response is stored under its id and the waiters are notified. *)
Example receiver_loop_stores_response :
  _receiver_loop Sample.loads Sample.dumps Sample.int_of_str 4
    (Sample.identified_manager
       [Text "nonsense";
        Text (Sample.dumps (Sample.response (JStr "id-1") true))])
  = (Blocked,
     set_notifications 1
       (set_responses
          [(JStr "id-1", Sample.response_data (JStr "id-1") true)]
          (set_logged [(WARNING, "Received malformed OBS payload: {}")]
             (Sample.identified_manager [])))).
Proof.
  vm_compute. reflexivity.
Qed.

(** ** The message handler *)

Lemma py_eq_int_distinct (op : json) (a b : Z) :
  py_eq op (JInt a) = true -> a <> b -> py_eq op (JInt b) = false.
Proof.
  unfold py_eq. cbn [as_number].
  destruct (as_number op) as [q |]; [| discriminate].
  intros Ha Hab.
  destruct (Qeq_bool q (inject_Z b)) eqn:Hb; [| reflexivity].
  apply Qeq_bool_iff in Ha, Hb.
  exfalso. apply Hab. apply inject_Z_injective.
  rewrite <- Ha. exact Hb.
Qed.

Section HandlerProperties.

Variable json_loads : string -> option json.
Variable json_dumps : json -> string.
Variable int_of_str : string -> option Z.

Local Abbreviation handle_message := (_handle_message json_loads json_dumps int_of_str).

(** On a frame whose opcode is 7 or 8 the handler does what the two
    branches of the source say: a request id that counts as true is stored,
    any other is dropped. *)
Lemma handle_message_response :
  forall m payload op data request_id,
    py_get payload "op" = Return op ->
    py_eq op (JInt 7) || py_eq op (JInt 8) = true ->
    py_get_default payload "d" (JDict []) = Return data ->
    py_get data "requestId" = Return request_id ->
    handle_message payload m
    = if truthy request_id then store_response request_id data m else (Return tt, m).
Proof.
  intros m payload op data request_id Hop Hkind Hdata Hid.
  unfold _handle_message.
  unfold bind at 1. unfold lift at 1. rewrite Hop.
  unfold bind at 1. unfold lift at 1. rewrite Hdata.
  apply orb_true_iff in Hkind. destruct Hkind as [H7 | H8].
  - rewrite (py_eq_int_distinct op 7 0 H7), (py_eq_int_distinct op 7 2 H7),
      (py_eq_int_distinct op 7 5 H7), H7 by lia.
    unfold bind, lift. rewrite Hid. destruct (truthy request_id); reflexivity.
  - rewrite (py_eq_int_distinct op 8 0 H8), (py_eq_int_distinct op 8 2 H8),
      (py_eq_int_distinct op 8 5 H8), (py_eq_int_distinct op 8 7 H8), H8 by lia.
    unfold bind, lift. rewrite Hid. destruct (truthy request_id); reflexivity.
Qed.

(** C10. For a Response or BatchResponse frame (opcode 7 or 8) whose payload
    has no [requestId], or an empty one (a value that counts as false), the
    handler leaves the manager, hence the response table and the count of
    notifications, unchanged. If the table or the count did change, the
    request id counts as true, that is, it is present and not empty; and for
    such an id that can be a key, the payload is stored under it and the
    waiters are notified once. *)
Theorem response_without_id_is_dropped :
  forall m payload op data request_id,
    py_get payload "op" = Return op ->
    py_eq op (JInt 7) || py_eq op (JInt 8) = true ->
    py_get_default payload "d" (JDict []) = Return data ->
    py_get data "requestId" = Return request_id ->
    (truthy request_id = false -> handle_message payload m = (Return tt, m))
    /\ (_responses (snd (handle_message payload m)) <> _responses m
        \/ notifications (snd (handle_message payload m)) <> notifications m ->
        truthy request_id = true)
    /\ (truthy request_id = true -> hashable request_id = true ->
        _response_condition m = false ->
        handle_message payload m
        = (Return tt,
           set_notifications (S (notifications m))
             (set_responses (registry_store request_id data (_responses m)) m))).
Proof.
  intros m payload op data request_id Hop Hkind Hdata Hid.
  rewrite (handle_message_response m payload op data request_id Hop Hkind Hdata Hid).
  repeat split.
  - intros Hfalse. rewrite Hfalse. reflexivity.
  - destruct (truthy request_id); [reflexivity |].
    cbn. intros [H | H]; exfalso; apply H; reflexivity.
  - intros Htrue Hkey Hfree. rewrite Htrue.
    unfold store_response, with_lock. rewrite Hfree, Hkey.
    destruct m. cbn in Hfree. subst. reflexivity.
Qed.

End HandlerProperties.

Lemma response_without_id_is_dropped_witness :
  (truthy JNull = false ->
   _handle_message Sample.loads Sample.dumps Sample.int_of_str
     (Sample.response JNull true) (Sample.identified_manager [])
   = (Return tt, Sample.identified_manager []))
  /\ (_responses (snd (_handle_message Sample.loads Sample.dumps Sample.int_of_str
                         (Sample.response JNull true) (Sample.identified_manager [])))
      <> _responses (Sample.identified_manager [])
      \/ notifications (snd (_handle_message Sample.loads Sample.dumps Sample.int_of_str
                               (Sample.response JNull true) (Sample.identified_manager [])))
         <> notifications (Sample.identified_manager []) ->
      truthy JNull = true)
  /\ (truthy JNull = true -> hashable JNull = true ->
      _response_condition (Sample.identified_manager []) = false ->
      _handle_message Sample.loads Sample.dumps Sample.int_of_str
        (Sample.response JNull true) (Sample.identified_manager [])
      = (Return tt,
         set_notifications (S (notifications (Sample.identified_manager [])))
           (set_responses
              (registry_store JNull (Sample.response_data JNull true)
                 (_responses (Sample.identified_manager [])))
              (Sample.identified_manager [])))).
Proof.
  apply (response_without_id_is_dropped Sample.loads Sample.dumps Sample.int_of_str
           (Sample.identified_manager []) (Sample.response JNull true) (JInt 7));
    reflexivity.
Defined.

(** ** The handshake *)

Section HandshakeProperties.

Variable json_loads : string -> option json.
Variable json_dumps : json -> string.
Variable int_of_str : string -> option Z.

Local Abbreviation recv := (_recv json_loads).
Local Abbreviation perform_handshake :=
  (_perform_handshake json_loads json_dumps int_of_str).

Lemma recv_text :
  forall timeout m w text rest v,
    _ws m = Some w -> closed w = false -> inbox w = Text text :: rest ->
    json_loads text = Some v ->
    recv timeout m = (Return v, delivered w rest m).
Proof.
  intros timeout m w text rest v Hws Hopen Hin Hloads.
  unfold _recv, bind, gets. rewrite Hws.
  unfold on_socket, modify. rewrite Hws.
  unfold try_finally, try_except, recv_call, ws_recv. cbn.
  rewrite Hopen, Hin. cbn. rewrite Hloads.
  destruct m; reflexivity.
Qed.

(** Reading a frame writes none. *)
Lemma recv_keeps_written :
  forall timeout m, written (snd (recv timeout m)) = written m.
Proof.
  intros timeout m.
  unfold _recv, bind, gets.
  destruct (_ws m) as [w |] eqn:Hws; [| cbn; reflexivity].
  unfold on_socket, modify. rewrite Hws.
  unfold try_finally, try_except, recv_call, ws_recv. cbn.
  destruct (closed w) eqn:Hclosed; cbn.
  - unfold written. rewrite Hws. reflexivity.
  - destruct (inbox w) as [| ev rest] eqn:Hin; cbn.
    + unfold written. rewrite Hws. reflexivity.
    + destruct ev; cbn; try (unfold written; rewrite Hws; reflexivity).
      destruct (json_loads message); cbn; unfold written; rewrite Hws; reflexivity.
Qed.

(** What follows the Identify frame in the handshake writes nothing. *)
Lemma handshake_tail_keeps_written :
  forall timeout m,
    written
      (snd ((identified <- recv timeout ;;
             op <- lift (py_get identified "op") ;;
             if negb (py_eq op (JInt 2)) then raise OBSConnectionError
             else
               modify (set_identified true) ;;
               on_socket (ws_settimeout None) ;;
               log DEBUG "OBS WebSocket handshake completed (RPC version {})") m))
    = written m.
Proof.
  intros timeout m.
  unfold bind at 1.
  pose proof (recv_keeps_written timeout m) as Hrecv.
  destruct (recv timeout m) as [[identified | e |] m1]; cbn [snd] in *; try exact Hrecv.
  unfold bind at 1, lift at 1.
  destruct (py_get identified "op") as [op | e |]; cbn [snd]; try exact Hrecv.
  destruct (negb (py_eq op (JInt 2))); cbn [snd raise]; try exact Hrecv.
  rewrite <- Hrecv. destruct m1 as [c [s |] v cl sl r rc n t rr i l]; reflexivity.
Qed.

(** After a Hello the handshake is at the test of [auth]. *)
Lemma handshake_after_hello :
  forall timeout m w rest version auth,
    receives_hello json_loads int_of_str m w rest version auth ->
    perform_handshake timeout m
    = (d <- (if truthy auth then
               config <- gets _config ;;
               if negb (truthy (JStr (password config)))
               then raise OBSAuthenticationError
               else
                 response <- _build_auth_response auth ;;
                 ret (store "authentication" (JStr response)
                        [("rpcVersion", JInt version);
                         ("eventSubscriptions",
                          JInt (event_subscriptions (_config m)))])
             else ret [("rpcVersion", JInt version);
                       ("eventSubscriptions",
                        JInt (event_subscriptions (_config m)))]) ;;
       _send json_dumps (JDict [("op", JInt 1); ("d", JDict d)]) ;;
       identified <- recv timeout ;;
       op <- lift (py_get identified "op") ;;
       if negb (py_eq op (JInt 2)) then raise OBSConnectionError
       else
         modify (set_identified true) ;;
         on_socket (ws_settimeout None) ;;
         log DEBUG "OBS WebSocket handshake completed (RPC version {})")
        (set_rpc_version version (delivered w rest m)).
Proof.
  intros timeout m w rest version auth
         (text & entries & op & hello_data & version_field & Hws & Hopen & Hin
          & Hloads & Hop & Hhello & Hdata & Hfield & Hversion & Hauth).
  unfold _perform_handshake.
  unfold bind at 1. rewrite (recv_text timeout m w text rest _ Hws Hopen Hin Hloads).
  unfold bind at 1, lift at 1. unfold py_get at 1, py_get_default at 1. rewrite Hop.
  rewrite Hhello. cbn [negb].
  unfold bind at 1, lift at 1. rewrite Hdata.
  unfold bind at 1, lift at 1. rewrite Hfield.
  unfold bind at 1, lift at 1. rewrite Hversion.
  unfold bind at 1, modify at 1.
  unfold bind at 1, gets at 1.
  unfold bind at 1, gets at 1.
  unfold bind at 1, lift at 1. rewrite Hauth.
  destruct m; reflexivity.
Qed.

(** C8. When the Hello frame carries an authentication challenge and the
    configured password is empty, the handshake raises
    [OBSAuthenticationError] and no frame has been written. When the Hello
    frame carries no challenge, the frame written is the Identify frame with
    the version and the event subscriptions and without an [authentication]
    key. *)
Theorem handshake_authentication :
  (forall timeout m w rest version auth,
      receives_hello json_loads int_of_str m w rest version auth ->
      truthy auth = true -> password (_config m) = "" ->
      fst (perform_handshake timeout m) = Raise OBSAuthenticationError
      /\ written (snd (perform_handshake timeout m)) = outbox w)
  /\ (forall timeout m w rest version auth,
         receives_hello json_loads int_of_str m w rest version auth ->
         truthy auth = false ->
         written (snd (perform_handshake timeout m))
         = outbox w
           ++ [(json_dumps (plain_identify version (event_subscriptions (_config m))),
                _send_lock m)]).
Proof.
  split; intros timeout m w rest version auth Hhello.
  - intros Htruthy Hpassword.
    rewrite (handshake_after_hello timeout m w rest version auth Hhello).
    rewrite Htruthy.
    match goal with |- fst ?r = _ /\ _ => remember r as run eqn:Hrun end.
    unfold bind at 1 in Hrun. unfold bind at 1, gets at 1 in Hrun.
    destruct m; cbn in *. subst. rewrite Hpassword. split; reflexivity.
  - intros Hfalsy.
    rewrite (handshake_after_hello timeout m w rest version auth Hhello).
    destruct Hhello as (text & entries & op & hello_data & version_field & Hws & Hopen & _).
    rewrite Hfalsy.
    unfold bind at 1, ret at 1.
    unfold bind at 1.
    unfold _send at 1. unfold bind at 1, gets at 1.
    cbn [_ws set_rpc_version delivered set_ws].
    unfold bind at 1, gets at 1. unfold ws_send. cbn [closed].
    unfold modify at 1.
    rewrite handshake_tail_keeps_written.
    unfold written. cbn. reflexivity.
Qed.

End HandshakeProperties.

Lemma handshake_authentication_witness :
  (fst (_perform_handshake Sample.loads Sample.dumps Sample.int_of_str 5
          (Sample.connecting_manager [Text (Sample.dumps Sample.hello_challenge)]))
   = Raise OBSAuthenticationError
   /\ written
        (snd (_perform_handshake Sample.loads Sample.dumps Sample.int_of_str 5
                (Sample.connecting_manager [Text (Sample.dumps Sample.hello_challenge)])))
      = [])
  /\ written
       (snd (_perform_handshake Sample.loads Sample.dumps Sample.int_of_str 5
               (Sample.connecting_manager
                  [Text (Sample.dumps Sample.hello_plain);
                   Text (Sample.dumps Sample.identified)])))
     = [] ++ [(Sample.dumps (plain_identify 1 0), false)].
Proof.
  destruct (handshake_authentication Sample.loads Sample.dumps Sample.int_of_str)
    as [Hchallenge Hplain].
  split.
  - apply (Hchallenge 5%Q
             (Sample.connecting_manager [Text (Sample.dumps Sample.hello_challenge)])
             (Sample.dialled [Text (Sample.dumps Sample.hello_challenge)]) [] 1
             (JDict [("challenge", JStr "c"); ("salt", JStr "s")])).
    + unfold receives_hello. do 5 eexists. repeat split; reflexivity.
    + reflexivity.
    + reflexivity.
  - apply (Hplain 5%Q
             (Sample.connecting_manager
                [Text (Sample.dumps Sample.hello_plain);
                 Text (Sample.dumps Sample.identified)])
             (Sample.dialled
                [Text (Sample.dumps Sample.hello_plain);
                 Text (Sample.dumps Sample.identified)])
             [Text (Sample.dumps Sample.identified)] 1 JNull).
    + unfold receives_hello. do 5 eexists. repeat split; reflexivity.
    + reflexivity.
Defined.

(** ** Requests *)

Section RequestProperties.

Variable json_dumps : json -> string.

Local Abbreviation request := (send_request json_dumps).

Lemma send_request_not_connected :
  forall request_type request_data timeout env m,
    is_connected m = false ->
    request request_type request_data timeout env m = (Raise OBSNotConnectedError, m).
Proof.
  intros request_type request_data timeout env m H.
  unfold send_request, bind, gets. rewrite H. reflexivity.
Qed.

(** The write of [send_request]: made with the send lock held, which is
    free again afterwards. *)
Lemma send_under_lock :
  forall payload m w,
    ready_to_send m w ->
    with_lock _send_lock set_send_lock (_send json_dumps payload) m
    = (Return tt, after_write w (json_dumps payload) m).
Proof.
  intros payload m w (_ & Hws & Hopen & Hfree).
  unfold with_lock. rewrite Hfree.
  unfold try_finally, _send, bind, gets, ws_send, modify.
  destruct m. cbn in *. subst. rewrite Hopen. reflexivity.
Qed.

(** Waiting for a response does not touch the socket. *)
Lemma wait_loop_keeps_socket :
  forall request_id deadline wakes m,
    _ws (snd (wait_loop request_id deadline wakes m)) = _ws m.
Proof.
  intros request_id deadline wakes.
  induction wakes as [| [now others] later IH]; intros m.
  - reflexivity.
  - cbn [wait_loop].
    destruct (Qle_bool (deadline - now) 0); [reflexivity |].
    unfold bind, gets. cbn.
    destruct (registry_find (JStr request_id) (_responses m)).
    + destruct m; reflexivity.
    + rewrite IH. destruct m; reflexivity.
Qed.

Lemma wait_keeps_socket :
  forall request_id timeout start wakes m,
    _ws (snd (_wait_for_response request_id timeout start wakes m)) = _ws m.
Proof.
  intros request_id timeout start wakes m.
  unfold _wait_for_response, bind, gets, with_lock.
  destruct (_response_condition m); [reflexivity |].
  unfold try_finally.
  pose proof (wait_loop_keeps_socket request_id
                (start + timeout_or timeout (request_timeout (_config m)))%Q wakes
                (set_response_condition true m)) as H.
  destruct (wait_loop request_id _ wakes (set_response_condition true m))
    as [[data | e |] m1]; cbn in *; rewrite <- H; destruct m1; destruct m; reflexivity.
Qed.

(** [send_request] from the write on. *)
Lemma send_request_connected :
  forall request_type request_data timeout env m w,
    ready_to_send m w ->
    request request_type request_data timeout env m
    = (response <- _wait_for_response (uuid4 env) timeout (perf_counter env)
                     (wakes_of env) ;;
       status <- lift (py_get_default response "requestStatus" (JDict [])) ;;
       result <- lift (py_get_default status "result" (JBool false)) ;;
       if negb (truthy result) then raise (OBSRequestError request_type status)
       else lift (py_get_default response "responseData" (JDict [])))
        (after_write w
           (json_dumps (request_envelope request_type (uuid4 env) request_data)) m).
Proof.
  intros request_type request_data timeout env m w Hready.
  unfold send_request.
  unfold bind at 1, gets at 1.
  destruct Hready as (Hconn & Hrest). rewrite Hconn. cbn [negb].
  unfold bind at 1.
  fold (request_envelope request_type (uuid4 env) request_data).
  rewrite (send_under_lock _ m w (conj Hconn Hrest)).
  reflexivity.
Qed.

(** C5. A call of [send_request] on a manager that is not identified raises
    [OBSNotConnectedError] and leaves the manager, hence its socket,
    untouched. On an identified manager the call draws the request id from
    [uuid.uuid4] and writes, with the send lock held, the frame
    [{op: 6, d: {requestType, requestId, requestData}}], whose data are [{}]
    when the caller gave none. *)
Theorem send_request_writes_envelope :
  (forall request_type request_data timeout env m,
      is_connected m = false ->
      request request_type request_data timeout env m = (Raise OBSNotConnectedError, m))
  /\ (forall request_type request_data timeout env m w,
         ready_to_send m w ->
         written (snd (request request_type request_data timeout env m))
         = outbox w
           ++ [(json_dumps (request_envelope request_type (uuid4 env) request_data),
                true)])
  /\ (forall request_type request_id,
         request_envelope request_type request_id JNull
         = JDict [("op", JInt 6);
                  ("d", JDict [("requestType", JStr request_type);
                               ("requestId", JStr request_id);
                               ("requestData", JDict [])])]).
Proof.
  repeat split.
  - apply send_request_not_connected.
  - intros request_type request_data timeout env m w Hready.
    rewrite (send_request_connected request_type request_data timeout env m w Hready).
    unfold bind at 1.
    pose proof (wait_keeps_socket (uuid4 env) timeout (perf_counter env) (wakes_of env)
                  (after_write w
                     (json_dumps (request_envelope request_type (uuid4 env) request_data))
                     m)) as Hsocket.
    destruct (_wait_for_response _ _ _ _ _) as [[response | e |] m1];
      cbn [snd] in *; try (unfold written; rewrite Hsocket; reflexivity).
    unfold bind, lift.
    destruct (py_get_default response "requestStatus" (JDict [])) as [status | e |];
      try (unfold written; cbn [snd]; rewrite Hsocket; reflexivity).
    destruct (py_get_default status "result" (JBool false)) as [result | e |];
      try (unfold written; cbn [snd]; rewrite Hsocket; reflexivity).
    destruct (negb (truthy result));
      unfold written; cbn [snd raise]; rewrite Hsocket; reflexivity.
Qed.

(** C4. When the response to a request arrives, that is, when the wait of
    [send_request] returns it: if the [result] of its [requestStatus] is
    false, the call raises an [OBSRequestError] that carries the request type
    and that status, from which the code and the comment are read back; if
    the [result] is true, the call returns the [responseData] of the
    response. *)
Theorem send_request_reports_status :
  forall request_type request_data timeout env m w response m' status result,
    ready_to_send m w ->
    _wait_for_response (uuid4 env) timeout (perf_counter env) (wakes_of env)
      (after_write w
         (json_dumps (request_envelope request_type (uuid4 env) request_data)) m)
    = (Return response, m') ->
    py_get_default response "requestStatus" (JDict []) = Return status ->
    py_get_default status "result" (JBool false) = Return result ->
    (truthy result = false ->
     request request_type request_data timeout env m
     = (Raise (OBSRequestError request_type status), m')
     /\ (forall entries, status = JDict entries ->
         error_code (OBSRequestError request_type status) = lookup "code" entries
         /\ error_comment (OBSRequestError request_type status)
            = lookup "comment" entries))
    /\ (truthy result = true ->
        request request_type request_data timeout env m
        = (py_get_default response "responseData" (JDict []), m')
        /\ (forall data, py_get response "responseData" = Return data ->
            data <> JNull ->
            fst (request request_type request_data timeout env m) = Return data)).
Proof.
  intros request_type request_data timeout env m w response m' status result
         Hready Hwait Hstatus Hresult.
  assert (Hrun :
            request request_type request_data timeout env m
            = (if negb (truthy result) then raise (OBSRequestError request_type status)
               else lift (py_get_default response "responseData" (JDict []))) m').
  { rewrite (send_request_connected request_type request_data timeout env m w Hready).
    unfold bind at 1. rewrite Hwait.
    unfold bind at 1, lift at 1. rewrite Hstatus.
    unfold bind at 1, lift at 1. rewrite Hresult.
    reflexivity. }
  rewrite Hrun. clear Hrun.
  split; intros Htruth; rewrite Htruth; cbn [negb].
  - split; [reflexivity |].
    intros entries ->. split; reflexivity.
  - split; [reflexivity |].
    intros data Hdata Hpresent. unfold lift. cbn [fst].
    unfold py_get, py_get_default in *.
    destruct response; try discriminate.
    destruct (lookup "responseData" entries); [exact Hdata |].
    congruence.
Qed.

End RequestProperties.

Lemma send_request_writes_envelope_witness :
  send_request Sample.dumps "GetVersion" JNull None (Sample.answered true)
    (new_manager None)
  = (Raise OBSNotConnectedError, new_manager None)
  /\ written
       (snd (send_request Sample.dumps "GetVersion" JNull None (Sample.answered true)
               (Sample.identified_manager [])))
     = [] ++ [(Sample.dumps (request_envelope "GetVersion" "id-1" JNull), true)].
Proof.
  destruct (send_request_writes_envelope Sample.dumps) as (Hrefused & Hwritten & _).
  split.
  - apply Hrefused. reflexivity.
  - apply (Hwritten "GetVersion" JNull None (Sample.answered true)
             (Sample.identified_manager []) (Sample.socket [])).
    repeat split; reflexivity.
Defined.

Lemma send_request_reports_status_witness :
  (send_request Sample.dumps "BroadcastCustomEvent" JNull None (Sample.answered false)
     (Sample.identified_manager [])
   = (Raise (OBSRequestError "BroadcastCustomEvent" Sample.rejected),
      after_write (Sample.socket [])
        (Sample.dumps (request_envelope "BroadcastCustomEvent" "id-1" JNull))
        (Sample.identified_manager []))
   /\ error_code (OBSRequestError "BroadcastCustomEvent" Sample.rejected)
      = Some (JInt 400)
   /\ error_comment (OBSRequestError "BroadcastCustomEvent" Sample.rejected)
      = Some (JStr "bad"))
  /\ send_request Sample.dumps "BroadcastCustomEvent" JNull None (Sample.answered true)
       (Sample.identified_manager [])
     = (Return (JDict [("done", JBool true)]),
        after_write (Sample.socket [])
          (Sample.dumps (request_envelope "BroadcastCustomEvent" "id-1" JNull))
          (Sample.identified_manager [])).
Proof.
  split.
  - destruct (send_request_reports_status Sample.dumps
                "BroadcastCustomEvent" JNull None (Sample.answered false)
                (Sample.identified_manager []) (Sample.socket [])
                (Sample.response_data (JStr "id-1") false)
                (after_write (Sample.socket [])
                   (Sample.dumps (request_envelope "BroadcastCustomEvent" "id-1" JNull))
                   (Sample.identified_manager []))
                Sample.rejected (JBool false))
      as [Hrejected _].
    + repeat split; reflexivity.
    + reflexivity.
    + reflexivity.
    + reflexivity.
    + destruct (Hrejected eq_refl) as [Hrun Hfields].
      split; [exact Hrun |].
      exact (Hfields _ eq_refl).
  - destruct (send_request_reports_status Sample.dumps
                "BroadcastCustomEvent" JNull None (Sample.answered true)
                (Sample.identified_manager []) (Sample.socket [])
                (Sample.response_data (JStr "id-1") true)
                (after_write (Sample.socket [])
                   (Sample.dumps (request_envelope "BroadcastCustomEvent" "id-1" JNull))
                   (Sample.identified_manager []))
                Sample.accepted (JBool true))
      as [_ Haccepted].
    + repeat split; reflexivity.
    + reflexivity.
    + reflexivity.
    + reflexivity.
    + destruct (Haccepted eq_refl) as [Hrun _]. exact Hrun.
Defined.

(** ** Configuration updates *)

Lemma config_eq_refl (c : OBSConnectionConfig) : config_eq c c = true.
Proof.
  unfold config_eq.
  rewrite !String.eqb_refl, !Z.eqb_refl, Bool.eqb_reflx, Qeq_bool_refl.
  reflexivity.
Qed.

Section ConfigProperties.

Variable json_loads : string -> option json.
Variable json_dumps : json -> string.
Variable int_of_str : string -> option Z.

Local Abbreviation update := (update_config json_loads json_dumps int_of_str).

(** C6. When the configuration made from the current one and the supplied
    values is equal to the current one, [update_config] returns the current
    configuration and the manager is exactly as before: nothing is
    disconnected, dialled, logged or stored. This is the case in particular
    when every supplied value is the current value of its field. *)
Theorem update_config_unchanged :
  (forall kwargs network m,
      config_eq (replace (_config m) kwargs) (_config m) = true ->
      update kwargs network m = (Return (_config m), m))
  /\ (forall kwargs network m,
         replace (_config m) kwargs = _config m ->
         update kwargs network m = (Return (_config m), m)).
Proof.
  assert (Hequal : forall kwargs network m,
             config_eq (replace (_config m) kwargs) (_config m) = true ->
             update kwargs network m = (Return (_config m), m)).
  { intros kwargs network m H.
    unfold update_config. unfold bind at 1, gets at 1.
    rewrite H. reflexivity. }
  split; [exact Hequal |].
  intros kwargs network m H. apply Hequal. rewrite H. apply config_eq_refl.
Qed.

End ConfigProperties.

Lemma update_config_unchanged_witness :
  update_config Sample.loads Sample.dumps Sample.int_of_str
    (Changes (Some "127.0.0.1") (Some 4455) None (Some false) (Some (10 # 2)) None)
    (fun _ => None) (Sample.identified_manager [])
  = (Return default_config, Sample.identified_manager [])
  /\ update_config Sample.loads Sample.dumps Sample.int_of_str
       (Changes None (Some 4455) (Some "") None None (Some 0))
       (fun _ => None) (Sample.identified_manager [])
     = (Return default_config, Sample.identified_manager []).
Proof.
  destruct (update_config_unchanged Sample.loads Sample.dumps Sample.int_of_str)
    as [Hequal Hsame].
  split.
  - apply (Hequal _ (fun _ => None) (Sample.identified_manager [])). reflexivity.
  - apply (Hsame _ (fun _ => None) (Sample.identified_manager [])). reflexivity.
Defined.

(** ** The broadcaster *)

Section BroadcasterProperties.

Variable json_dumps : json -> string.

Local Abbreviation broadcast_event := (broadcast json_dumps).
Local Abbreviation safe := (safe_broadcast json_dumps).

Lemma nonempty_is_truthy (s : string) : s <> "" -> truthy (JStr s) = true.
Proof.
  intros H. cbn. apply String.eqb_neq in H. rewrite H. reflexivity.
Qed.

(** [broadcast] on an action that is not empty: the event type is made from
    the stripped action and handed to the request. *)
Lemma broadcast_nonempty :
  forall action payload timeout env b,
    action <> "" ->
    broadcast_event action payload timeout env b
    = custom_event_request json_dumps
        (if contains ":" (strip action) then strip action
         else (_namespace b ++ ":" ++ strip action)%string)
        payload timeout env b.
Proof.
  intros action payload timeout env b Hne.
  unfold broadcast. rewrite (nonempty_is_truthy action Hne). cbn [negb].
  unfold bind at 1. unfold _format_event_type.
  unfold custom_event_request, on_connection.
  destruct (contains ":" (strip action)).
  - unfold ret at 1. unfold bind at 1 2, log, modify. cbn -[send_request].
    match goal with
    | |- context [send_request ?d ?t ?r ?o ?v ?c] =>
        destruct (send_request d t r o v c) as [[response | e |] c']; reflexivity
    end.
  - unfold bind at 1, gets at 1, ret at 1. unfold bind at 1 2, log, modify.
    cbn -[send_request].
    match goal with
    | |- context [send_request ?d ?t ?r ?o ?v ?c] =>
        destruct (send_request d t r o v c) as [[response | e |] c']; reflexivity
    end.
Qed.

Lemma broadcast_not_connected :
  forall action payload timeout env b,
    action <> "" -> is_connected (_connection b) = false ->
    fst (broadcast_event action payload timeout env b) = Raise OBSNotConnectedError.
Proof.
  intros action payload timeout env b Hne Hconn.
  rewrite (broadcast_nonempty action payload timeout env b Hne).
  unfold custom_event_request, on_connection, bind, log, modify.
  rewrite send_request_not_connected; [reflexivity |].
  destruct b as [c ns]. destruct c. exact Hconn.
Qed.

(** C7. [safe_broadcast] returns [True] when [broadcast] returns, returns
    [False], after an error line in the log, when [broadcast] raises
    [OBSNotConnectedError], [OBSRequestError] or [OBSResponseTimeoutError],
    and raises what [broadcast] raises in every other case. An empty action
    raises [ValueError] through it, and on a manager that is not connected it
    returns [False]. *)
Theorem safe_broadcast_outcome :
  (forall action payload timeout env b,
      safe action payload timeout env b
      = match broadcast_event action payload timeout env b with
        | (Return _, b') => (Return true, b')
        | (Raise e, b') =>
            if is_expected_failure e
            then (Return false,
                  snd (on_connection
                         (log ERROR "Failed to broadcast Twitchat event {}: {}") b'))
            else (Raise e, b')
        | (Blocked, b') => (Blocked, b')
        end)
  /\ (forall e,
         is_expected_failure e = true
         <-> (e = OBSNotConnectedError
              \/ (exists request_type status, e = OBSRequestError request_type status)
              \/ e = OBSResponseTimeoutError))
  /\ (forall payload timeout env b,
         safe "" payload timeout env b = (Raise ValueError, b))
  /\ (forall action payload timeout env b,
         action <> "" -> is_connected (_connection b) = false ->
         fst (safe action payload timeout env b) = Return false).
Proof.
  assert (Hcases : forall action payload timeout env b,
             safe action payload timeout env b
             = match broadcast_event action payload timeout env b with
               | (Return _, b') => (Return true, b')
               | (Raise e, b') =>
                   if is_expected_failure e
                   then (Return false,
                         snd (on_connection
                                (log ERROR "Failed to broadcast Twitchat event {}: {}")
                                b'))
                   else (Raise e, b')
               | (Blocked, b') => (Blocked, b')
               end).
  { intros action payload timeout env b.
    unfold safe_broadcast, try_except. unfold bind at 1.
    destruct (broadcast_event action payload timeout env b) as [[response | e |] b'];
      reflexivity. }
  split; [exact Hcases |].
  split; [| split].
  - intros e. split.
    + destruct e; cbn; intros H; try discriminate; eauto.
    + intros [-> | [(request_type & status & ->) | ->]]; reflexivity.
  - intros payload timeout env b. reflexivity.
  - intros action payload timeout env b Hne Hconn.
    rewrite Hcases.
    pose proof (broadcast_not_connected action payload timeout env b Hne Hconn) as H.
    destruct (broadcast_event action payload timeout env b) as [[response | e |] b'];
      cbn [fst] in H; try discriminate.
    injection H as ->. reflexivity.
Qed.

(** C9, as the code has it. For an action that is not empty, [broadcast]
    first strips the white space around the action. If the stripped action
    contains [":"], the event type is the stripped action; otherwise it is the
    namespace, [":"] and the stripped action. The event type is the
    [eventType] of a [BroadcastCustomEvent] request whose [eventData] is the
    payload, or [{}] without one. *)
Theorem broadcast_formats_event_type :
  forall action payload timeout env b,
    action <> "" ->
    (contains ":" (strip action) = true ->
     broadcast_event action payload timeout env b
     = custom_event_request json_dumps (strip action) payload timeout env b)
    /\ (contains ":" (strip action) = false ->
        broadcast_event action payload timeout env b
        = custom_event_request json_dumps
            (_namespace b ++ ":" ++ strip action)%string payload timeout env b).
Proof.
  intros action payload timeout env b Hne.
  rewrite (broadcast_nonempty action payload timeout env b Hne).
  split; intros H; rewrite H; reflexivity.
Qed.

End BroadcasterProperties.

Lemma safe_broadcast_outcome_witness :
  safe_broadcast Sample.dumps "" JNull None (Sample.answered true) Sample.broadcaster
  = (Raise ValueError, Sample.broadcaster)
  /\ fst (safe_broadcast Sample.dumps "GREET_FEED_READ_ALL" JNull None
            (Sample.answered true) Sample.offline_broadcaster)
     = Return false.
Proof.
  destruct (safe_broadcast_outcome Sample.dumps) as (_ & _ & Hempty & Hoffline).
  split.
  - apply Hempty.
  - apply Hoffline; [discriminate | reflexivity].
Defined.

(** C9, the claim as written fails on an action with white space around it:
    [" GREET"] has no [":"], and the event type written is ["twitchat:GREET"],
    not the namespace, [":"] and the action; [" a:b"] has a [":"], and the
    event type is ["a:b"], not the action unchanged. *)
Lemma broadcast_strips_action :
  contains ":" " GREET" = false
  /\ written
       (_connection
          (snd (broadcast Sample.dumps " GREET" JNull None (Sample.answered true)
                  Sample.broadcaster)))
     = [(Sample.dumps
           (request_envelope "BroadcastCustomEvent" "id-1"
              (JDict [("eventType", JStr "twitchat:GREET"); ("eventData", JDict [])])),
         true)]
  /\ "twitchat:GREET" <> ("twitchat" ++ ":" ++ " GREET")%string
  /\ contains ":" " a:b" = true
  /\ _format_event_type " a:b" Sample.broadcaster = (Return "a:b", Sample.broadcaster)
  /\ "a:b" <> " a:b".
Proof.
  repeat split; try discriminate; vm_compute; reflexivity.
Qed.

Lemma broadcast_formats_event_type_witness :
  broadcast Sample.dumps " a:b" JNull None (Sample.answered true) Sample.broadcaster
  = custom_event_request Sample.dumps "a:b" JNull None (Sample.answered true)
      Sample.broadcaster
  /\ broadcast Sample.dumps " GREET" JNull None (Sample.answered true) Sample.broadcaster
     = custom_event_request Sample.dumps "twitchat:GREET" JNull None
         (Sample.answered true) Sample.broadcaster.
Proof.
  split.
  - destruct (broadcast_formats_event_type Sample.dumps " a:b" JNull None
                (Sample.answered true) Sample.broadcaster) as [Hqualified _].
    + discriminate.
    + apply Hqualified. reflexivity.
  - destruct (broadcast_formats_event_type Sample.dumps " GREET" JNull None
                (Sample.answered true) Sample.broadcaster) as [_ Hplain].
    + discriminate.
    + apply Hplain. reflexivity.
Defined.

(* ================================================================== *)
(** * Further properties of the connection layer *)
(* ================================================================== *)

(** ** The response table *)

Lemma Qeq_bool_sym (a b : Q) : Qeq_bool a b = Qeq_bool b a.
Proof.
  destruct (Qeq_bool a b) eqn:Hab, (Qeq_bool b a) eqn:Hba; try reflexivity.
  - apply Qeq_bool_iff in Hab. symmetry in Hab. apply Qeq_bool_iff in Hab. congruence.
  - apply Qeq_bool_iff in Hba. symmetry in Hba. apply Qeq_bool_iff in Hba. congruence.
Qed.

Lemma py_eq_sym (x y : json) : py_eq x y = py_eq y x.
Proof.
  unfold py_eq.
  destruct (as_number x) as [a |] eqn:Hx, (as_number y) as [b |] eqn:Hy;
    try reflexivity.
  - apply Qeq_bool_sym.
  - destruct x, y; try reflexivity. apply String.eqb_sym.
Qed.

Lemma py_eq_refl (k : json) : hashable k = true -> py_eq k k = true.
Proof.
  destruct k; cbn; intros H; try discriminate; try reflexivity.
  - unfold py_eq. cbn. apply Qeq_bool_refl.
  - unfold py_eq. cbn. apply Qeq_bool_refl.
  - unfold py_eq. cbn. apply Qeq_bool_refl.
  - unfold py_eq. cbn. apply String.eqb_refl.
Qed.

(** Only the string itself is equal to a string. *)
Lemma py_eq_str (id : string) (k : json) : py_eq (JStr id) k = true <-> k = JStr id.
Proof.
  unfold py_eq. cbn [as_number].
  destruct k; cbn; split; intros H; try discriminate; try congruence.
  - apply String.eqb_eq in H. congruence.
  - injection H as ->. apply String.eqb_refl.
Qed.

Lemma registry_find_store_same (k v : json) (r : registry) :
  hashable k = true -> registry_find k (registry_store k v r) = Some v.
Proof.
  intros Hk. induction r as [| [k0 v0] rest IH]; cbn [registry_find registry_store registry_remove].
  - rewrite (py_eq_refl k Hk). reflexivity.
  - destruct (py_eq k k0) eqn:E; cbn [registry_find registry_store registry_remove]; rewrite E; [reflexivity | exact IH].
Qed.

Lemma registry_find_store_other (id : string) (k v : json) (r : registry) :
  py_eq (JStr id) k = false ->
  registry_find (JStr id) (registry_store k v r) = registry_find (JStr id) r.
Proof.
  intros Hother. induction r as [| [k0 v0] rest IH]; cbn [registry_find registry_store registry_remove].
  - rewrite Hother. reflexivity.
  - destruct (py_eq k k0) eqn:E; cbn [registry_find registry_store registry_remove].
    + destruct (py_eq (JStr id) k0) eqn:E0; [| reflexivity].
      apply py_eq_str in E0. subst k0.
      rewrite py_eq_sym in E. congruence.
    + destruct (py_eq (JStr id) k0); [reflexivity | exact IH].
Qed.

Lemma registry_find_remove_other (id other : string) (r : registry) :
  id <> other ->
  registry_find (JStr other) (registry_remove (JStr id) r) = registry_find (JStr other) r.
Proof.
  intros Hne. induction r as [| [k0 v0] rest IH]; cbn [registry_find registry_store registry_remove]; [reflexivity |].
  destruct (py_eq (JStr id) k0) eqn:E; cbn [registry_find registry_store registry_remove].
  - apply py_eq_str in E. subst k0.
    assert (H : py_eq (JStr other) (JStr id) = false).
    { destruct (py_eq (JStr other) (JStr id)) eqn:E; [| reflexivity].
      apply py_eq_str in E. congruence. }
    rewrite H. reflexivity.
  - destruct (py_eq (JStr other) k0); [reflexivity | exact IH].
Qed.

Lemma registry_remove_store_fresh (k v : json) (r : registry) :
  hashable k = true -> registry_find k r = None ->
  registry_remove k (registry_store k v r) = r.
Proof.
  intros Hk. induction r as [| [k0 v0] rest IH]; cbn [registry_find registry_store registry_remove]; intros Hfresh.
  - rewrite (py_eq_refl k Hk). reflexivity.
  - destruct (py_eq k k0) eqn:E; [discriminate |].
    cbn [registry_find registry_store registry_remove]. rewrite E. rewrite (IH Hfresh). reflexivity.
Qed.

(** A response stored under a key that can be a dict key is the one found
    under that key afterwards, whatever the table held; and a table that had
    no entry for the key is the same again once the entry is removed. *)
Theorem registry_store_then_find :
  forall (k v : json) (r : registry),
    hashable k = true ->
    registry_find k (registry_store k v r) = Some v
    /\ (registry_find k r = None -> registry_remove k (registry_store k v r) = r).
Proof.
  intros k v r Hk. split.
  - now apply registry_find_store_same.
  - now apply registry_remove_store_fresh.
Qed.

Lemma registry_store_then_find_witness :
  registry_find (JStr "id-1")
    (registry_store (JStr "id-1") Sample.answer [(JStr "id-0", JNull)])
  = Some Sample.answer
  /\ (registry_find (JStr "id-1") [(JStr "id-0", JNull)] = None ->
      registry_remove (JStr "id-1")
        (registry_store (JStr "id-1") Sample.answer [(JStr "id-0", JNull)])
      = [(JStr "id-0", JNull)]).
Proof.
  apply (registry_store_then_find (JStr "id-1") Sample.answer [(JStr "id-0", JNull)]).
  reflexivity.
Defined.

(** Responses are matched by request id only: what a caller waiting for
    [other] finds in the table is changed neither by storing a response under
    a key that is not equal to [other], nor by another caller taking the
    response of a different id. *)
Theorem registry_entries_are_independent :
  forall (id other : string) (k v : json) (r : registry),
    py_eq (JStr other) k = false -> id <> other ->
    registry_find (JStr other) (registry_store k v r) = registry_find (JStr other) r
    /\ registry_find (JStr other) (registry_remove (JStr id) r)
       = registry_find (JStr other) r.
Proof.
  intros id other k v r Hk Hne. split.
  - now apply registry_find_store_other.
  - now apply registry_find_remove_other.
Qed.

Lemma registry_entries_are_independent_witness :
  registry_find (JStr "id-2")
    (registry_store (JStr "id-1") Sample.answer [(JStr "id-2", JNull)])
  = registry_find (JStr "id-2") [(JStr "id-2", JNull)]
  /\ registry_find (JStr "id-2")
       (registry_remove (JStr "id-1") [(JStr "id-2", JNull)])
     = registry_find (JStr "id-2") [(JStr "id-2", JNull)].
Proof.
  apply (registry_entries_are_independent "id-1" "id-2" (JStr "id-1") Sample.answer
           [(JStr "id-2", JNull)]).
  - reflexivity.
  - discriminate.
Defined.

(** ** Methods that never block *)

Section NeverBlocks.

Context {S : Type}.

Lemma nb_ret {A} (a : A) : never_blocks (ret a : M S A).
Proof. intros s. discriminate. Qed.

Lemma nb_raise {A} (e : exn) : never_blocks (raise e : M S A).
Proof. intros s. discriminate. Qed.

Lemma nb_gets {A} (f : S -> A) : never_blocks (gets f).
Proof. intros s. discriminate. Qed.

Lemma nb_modify (f : S -> S) : never_blocks (modify f).
Proof. intros s. discriminate. Qed.

Lemma nb_lift {A} (o : outcome A) : o <> Blocked -> never_blocks (lift o : M S A).
Proof. intros H s. exact H. Qed.

Lemma nb_bind {A B} (m : M S A) (k : A -> M S B) :
  never_blocks m -> (forall a, never_blocks (k a)) -> never_blocks (bind m k).
Proof.
  intros Hm Hk s. unfold bind.
  specialize (Hm s). destruct (m s) as [[a | e |] s1]; cbn in *.
  - apply Hk.
  - discriminate.
  - congruence.
Qed.

Lemma nb_try_except {A} (body : M S A) (catches : exn -> bool) (handler : exn -> M S A) :
  never_blocks body -> (forall e, never_blocks (handler e)) ->
  never_blocks (try_except body catches handler).
Proof.
  intros Hb Hh s. unfold try_except.
  specialize (Hb s). destruct (body s) as [[a | e |] s1]; cbn in *.
  - discriminate.
  - destruct (catches e); [apply Hh | discriminate].
  - congruence.
Qed.

Lemma nb_try_finally {A} (body : M S A) (final : M S unit) :
  never_blocks body -> never_blocks final -> never_blocks (try_finally body final).
Proof.
  intros Hb Hf s. unfold try_finally.
  specialize (Hb s). destruct (body s) as [[a | e |] s1]; cbn in *;
    try congruence;
    specialize (Hf s1); destruct (final s1) as [[u | e' |] s2]; cbn in *;
    congruence.
Qed.

End NeverBlocks.

Lemma py_get_default_returns_or_raises (v : json) (key : string) (default : json) :
  py_get_default v key default <> Blocked.
Proof.
  destruct v; cbn; try discriminate. destruct (lookup key entries); discriminate.
Qed.

Lemma py_int_returns_or_raises (int_of_str : string -> option Z) (v : json) :
  py_int int_of_str v <> Blocked.
Proof.
  destruct v; cbn; try discriminate. destruct (int_of_str s); discriminate.
Qed.

Lemma nb_log (l : level) (template : string) : never_blocks (log l template).
Proof. apply nb_modify. Qed.

Lemma nb_on_socket (f : WebSocket -> WebSocket) : never_blocks (on_socket f).
Proof. apply nb_modify. Qed.

Lemma nb_safe_close : never_blocks _safe_close.
Proof. apply nb_bind; [apply nb_on_socket | intros; apply nb_modify]. Qed.

(** Steps through a method made of the combinators above; [leaf] closes the
    goals on the methods already known not to block. *)
Ltac noblock_with leaf :=
  repeat first
    [ leaf
    | apply nb_ret | apply nb_raise | apply nb_gets | apply nb_modify
    | apply nb_log | apply nb_on_socket | apply nb_safe_close
    | apply nb_lift; first [ apply py_get_default_returns_or_raises
                           | apply py_int_returns_or_raises ]
    | apply nb_bind; [| intro]
    | apply nb_try_except; [| intro]
    | apply nb_try_finally
    | progress cbv zeta
    | match goal with
      | |- never_blocks (if ?b then _ else _) => destruct b
      | |- never_blocks (match ?x with _ => _ end) => destruct x
      end ].

Ltac noblock := noblock_with fail.

Section HandshakeNeverBlocks.

Variable json_loads : string -> option json.
Variable json_dumps : json -> string.
Variable int_of_str : string -> option Z.

(** A read made with a time-out set comes back. *)
Lemma nb_recv (timeout : Q) : never_blocks (_recv json_loads timeout).
Proof.
  intros m. unfold _recv, bind, gets.
  destruct (_ws m) as [w |] eqn:Hws; [| discriminate].
  unfold on_socket, modify. rewrite Hws.
  unfold try_finally, try_except, recv_call, ws_recv. cbn.
  destruct (closed w); cbn; [discriminate |].
  destruct (inbox w) as [| ev rest]; cbn; [discriminate |].
  destruct ev; cbn; try discriminate.
  destruct (json_loads message); discriminate.
Qed.

Lemma nb_send (payload : json) : never_blocks (_send json_dumps payload).
Proof.
  unfold _send. noblock.
Qed.

Lemma nb_build_auth_response (auth : json) : never_blocks (_build_auth_response auth).
Proof.
  unfold _build_auth_response. unfold py_get. noblock.
Qed.

Lemma nb_perform_handshake (timeout : Q) :
  never_blocks (_perform_handshake json_loads json_dumps int_of_str timeout).
Proof.
  unfold _perform_handshake. unfold py_get.
  noblock_with ltac:(first [ apply nb_recv | apply nb_send
                           | apply nb_build_auth_response ]).
Qed.

End HandshakeNeverBlocks.

(** ** Connecting and disconnecting *)

Section Lifecycle.

Variable json_loads : string -> option json.
Variable json_dumps : json -> string.
Variable int_of_str : string -> option Z.

Local Abbreviation do_connect := (_do_connect json_loads json_dumps int_of_str).
Local Abbreviation connect_ := (connect json_loads json_dumps int_of_str).
Local Abbreviation perform_handshake :=
  (_perform_handshake json_loads json_dumps int_of_str).

Lemma disconnect_releases (m : OBSConnectionManager) :
  _connection_lock m = false -> disconnect m = (Return tt, released m).
Proof.
  intros Hfree.
  destruct m as [c ws v cl sl r rc n t rr i l]. cbn in Hfree. subst cl.
  destruct t as [[|] |], ws as [w |]; reflexivity.
Qed.

(** X3. [disconnect], when no other thread is inside [connect] or
    [disconnect], returns and leaves the manager without socket, not
    identified and without receiver, whatever state it was in (also with a
    socket already closed, or none); the configuration and the response table
    are kept and the lock is free again. Calling it once more changes
    nothing. *)
Theorem disconnect_leaves_manager_released :
  forall m,
    _connection_lock m = false ->
    fst (disconnect m) = Return tt
    /\ _ws (snd (disconnect m)) = None
    /\ _identified (snd (disconnect m)) = false
    /\ _receiver_thread (snd (disconnect m)) = None
    /\ _receiver_running (snd (disconnect m)) = false
    /\ is_connected (snd (disconnect m)) = false
    /\ _connection_lock (snd (disconnect m)) = false
    /\ _config (snd (disconnect m)) = _config m
    /\ _responses (snd (disconnect m)) = _responses m
    /\ disconnect (snd (disconnect m)) = (Return tt, snd (disconnect m)).
Proof.
  intros m Hfree.
  rewrite (disconnect_releases m Hfree). cbn [fst snd].
  rewrite disconnect_releases by (destruct m; exact Hfree).
  destruct m; cbn in *; subst; repeat split; reflexivity.
Qed.

(** [connect] raises nothing but the errors of the connection layer. *)
Lemma connect_raises_connection_errors :
  forall timeout network m e,
    fst (connect_ timeout network m) = Raise e -> is_OBSConnectionError e = true.
Proof.
  intros timeout network m e H.
  unfold connect, with_lock in H.
  destruct (_connection_lock m); [discriminate |].
  unfold try_finally, bind, gets, try_except, modify in H.
  destruct (is_connected (set_connection_lock true m)); [discriminate |].
  destruct (do_connect timeout network (set_connection_lock true m))
    as [[u | e' |] m1]; cbn in H; try discriminate.
  destruct (is_OBSConnectionError e') eqn:E; cbn in H.
  - injection H as <-. exact E.
  - injection H as <-. reflexivity.
Qed.

(** When the dial gave a socket and [_do_connect] raises, the socket is
    dropped. *)
Lemma do_connect_failure_drops_socket :
  forall timeout network m e m',
    (network (as_url (_config m)) <> None \/ _ws m = None) ->
    do_connect timeout network m = (Raise e, m') -> _ws m' = None.
Proof.
  intros timeout network m e m' Hdial H.
  unfold _do_connect in H. unfold bind at 1, gets at 1 in H.
  unfold bind at 1, log at 1, modify at 1 in H. cbn [fst snd] in H.
  destruct (network (as_url (_config m))) as [ws |].
  - unfold bind at 1, modify at 1 in H.
    unfold bind at 1, try_except in H.
    match type of H with
    | context [perform_handshake ?t ?s] =>
        destruct (perform_handshake t s) as [[u | e' |] m1]
    end.
    + unfold _start_receiver, bind, gets, modify in H.
      destruct (thread_is_alive (_receiver_thread m1)); discriminate.
    + cbn in H. injection H as _ <-. reflexivity.
    + discriminate.
  - unfold raise in H. injection H as _ <-.
    destruct Hdial as [Habs | Hnone]; [congruence |].
    destruct m; exact Hnone.
Qed.

End Lifecycle.

Lemma bind_return_inv {S A B : Type} (m : M S A) (k : A -> M S B) (s s' : S) (b : B) :
  bind m k s = (Return b, s') ->
  exists a s1, m s = (Return a, s1) /\ k a s1 = (Return b, s').
Proof.
  unfold bind. destruct (m s) as [[a | e |] s1]; intros H; try discriminate.
  exists a, s1. split; [reflexivity | exact H].
Qed.

Lemma lift_return_inv {S A : Type} (o : outcome A) (s s' : S) (a : A) :
  lift o s = (Return a, s') -> o = Return a /\ s' = s.
Proof.
  unfold lift. intros H. injection H as -> ->. split; reflexivity.
Qed.

Section ConnectProperties.

Variable json_loads : string -> option json.
Variable json_dumps : json -> string.
Variable int_of_str : string -> option Z.

Local Abbreviation do_connect := (_do_connect json_loads json_dumps int_of_str).
Local Abbreviation connect_ := (connect json_loads json_dumps int_of_str).
Local Abbreviation perform_handshake :=
  (_perform_handshake json_loads json_dumps int_of_str).

(** A read that returns a frame leaves the socket in place. *)
Lemma recv_return_keeps_socket :
  forall timeout m v m',
    _recv json_loads timeout m = (Return v, m') -> _ws m' <> None.
Proof.
  intros timeout m v m'. unfold _recv, bind, gets.
  destruct (_ws m) as [w |] eqn:Hws; [| discriminate].
  unfold on_socket, modify. rewrite Hws.
  unfold try_finally, try_except, recv_call, ws_recv. cbn.
  destruct (closed w); cbn; [discriminate |].
  destruct (inbox w) as [| ev rest]; cbn; [destruct (ws_timeout w); discriminate |].
  destruct ev; cbn; try discriminate.
  destruct (json_loads message); [| discriminate].
  intros H. injection H as _ <-. discriminate.
Qed.

(** A handshake that returns has set the identified flag, on a manager that
    still has its socket, now without time-out. *)
Lemma handshake_return :
  forall timeout m m',
    perform_handshake timeout m = (Return tt, m') ->
    _identified m' = true
    /\ exists w, _ws m' = Some w /\ ws_timeout w = None.
Proof.
  intros timeout m m' H.
  unfold _perform_handshake in H.
  apply bind_return_inv in H as (hello & m1 & _ & H).
  apply bind_return_inv in H as (op & m2 & _ & H).
  destruct (negb (py_eq op (JInt 0))); [discriminate |].
  apply bind_return_inv in H as (hello_data & m3 & _ & H).
  apply bind_return_inv in H as (field & m4 & _ & H).
  apply bind_return_inv in H as (version & m5 & _ & H).
  apply bind_return_inv in H as (u1 & m6 & _ & H).
  apply bind_return_inv in H as (rpc_version & m7 & _ & H).
  apply bind_return_inv in H as (config & m8 & _ & H).
  apply bind_return_inv in H as (auth & m9 & _ & H).
  apply bind_return_inv in H as (d & m10 & _ & H).
  apply bind_return_inv in H as (u2 & m11 & _ & H).
  apply bind_return_inv in H as (identified & m12 & Hrecv & H).
  apply bind_return_inv in H as (op2 & m13 & Hop2 & H).
  apply lift_return_inv in Hop2 as [_ ->].
  destruct (negb (py_eq op2 (JInt 2))); [discriminate |].
  apply recv_return_keeps_socket in Hrecv.
  unfold bind, modify, on_socket, log in H. cbn in H.
  injection H as <-.
  destruct m12 as [c [w |] v cl sl r rc n t rr i l]; [| cbn in Hrecv; congruence].
  cbn. split; [reflexivity |]. eexists. split; reflexivity.
Qed.

(** X4. A call of [connect] that fails raises an error of the connection
    layer ([OBSConnectionError] or a subclass), whatever went wrong inside;
    and unless it failed to dial while the manager already held a socket, the
    manager holds no socket afterwards: no half-open connection is left. *)
Theorem connect_failure_is_typed_and_releases :
  forall timeout network m e,
    _connection_lock m = false ->
    fst (connect_ timeout network m) = Raise e ->
    is_OBSConnectionError e = true
    /\ (network (as_url (_config m)) <> None \/ _ws m = None ->
        _ws (snd (connect_ timeout network m)) = None).
Proof.
  intros timeout network m e Hfree H.
  split; [exact (connect_raises_connection_errors json_loads json_dumps int_of_str
                  timeout network m e H) |].
  intros Hdial.
  unfold connect, with_lock in *. rewrite Hfree in *.
  unfold try_finally, bind, gets, try_except, modify in *.
  destruct (is_connected (set_connection_lock true m)); [discriminate |].
  destruct (do_connect timeout network (set_connection_lock true m))
    as [[u | e' |] m1] eqn:Hdo; cbn in H; try discriminate.
  assert (Hws : _ws m1 = None).
  { apply (do_connect_failure_drops_socket json_loads json_dumps int_of_str
             timeout network
             (set_connection_lock true m) e' m1); [| exact Hdo].
    destruct m; exact Hdial. }
  destruct (is_OBSConnectionError e'); cbn.
  - destruct m1; exact Hws.
  - destruct m1; reflexivity.
Qed.

(** X5. A call of [connect] that returns leaves the manager connected: it has
    a socket and is identified; and if it was not connected before, the
    receiver thread is alive. A manager that was connected is not touched. *)
Theorem connect_success_is_connected :
  forall timeout network m,
    _connection_lock m = false ->
    fst (connect_ timeout network m) = Return tt ->
    is_connected (snd (connect_ timeout network m)) = true
    /\ (is_connected m = false ->
        thread_is_alive (_receiver_thread (snd (connect_ timeout network m))) = true)
    /\ (is_connected m = true -> snd (connect_ timeout network m) = m).
Proof.
  intros timeout network m Hfree H.
  unfold connect, with_lock in *. rewrite Hfree in *.
  unfold try_finally, bind, gets, try_except, modify in *.
  assert (Hsame : is_connected (set_connection_lock true m) = is_connected m)
    by (destruct m; reflexivity).
  rewrite Hsame in *.
  destruct (is_connected m) eqn:Hconn.
  - cbn. split; [destruct m; exact Hconn |].
    split; [discriminate |].
    intros _. destruct m; cbn in *; subst; reflexivity.
  - destruct (do_connect timeout network (set_connection_lock true m))
      as [[u | e' |] m1] eqn:Hdo; cbn in H;
      [| destruct (is_OBSConnectionError e'); discriminate | discriminate].
    cbn.
    unfold _do_connect in Hdo.
    apply bind_return_inv in Hdo as (config & m2 & _ & Hdo).
    apply bind_return_inv in Hdo as (u1 & m3 & _ & Hdo).
    destruct (network (as_url config)) as [ws |]; [| discriminate].
    apply bind_return_inv in Hdo as (u2 & m4 & _ & Hdo).
    apply bind_return_inv in Hdo as (u3 & m5 & Hshake & Hdo).
    unfold try_except in Hshake.
    destruct (perform_handshake _ m4) as [[u4 | e4 |] m6] eqn:Hhs;
      [| cbn in Hshake; discriminate | discriminate].
    injection Hshake as _ <-.
    destruct u4. apply handshake_return in Hhs as (Hid & w & Hws & _).
    unfold _start_receiver, bind, gets, modify in Hdo.
    destruct m6 as [c6 ws6 v6 cl6 sl6 r6 rc6 n6 t6 rr6 i6 l6]. cbn in *. subst.
    destruct (thread_is_alive t6) eqn:Halive; cbn in Hdo; injection Hdo as Hm1;
      subst m1; cbn.
    + split; [reflexivity |]. split; [intros _; exact Halive | discriminate].
    + split; [reflexivity |]. split; [reflexivity | discriminate].
Qed.

End ConnectProperties.

(** ** Methods that keep a part of the state *)

Section Keeps.

Context {S X : Type} (f : S -> X).

Lemma keeps_ret {A} (a : A) : keeps f (ret a : M S A).
Proof. intros s. reflexivity. Qed.

Lemma keeps_raise {A} (e : exn) : keeps f (raise e : M S A).
Proof. intros s. reflexivity. Qed.

Lemma keeps_block {A} : keeps f (block : M S A).
Proof. intros s. reflexivity. Qed.

Lemma keeps_gets {A} (g : S -> A) : keeps f (gets g).
Proof. intros s. reflexivity. Qed.

Lemma keeps_lift {A} (o : outcome A) : keeps f (lift o : M S A).
Proof. intros s. reflexivity. Qed.

Lemma keeps_modify (g : S -> S) : (forall s, f (g s) = f s) -> keeps f (modify g).
Proof. intros H s. apply H. Qed.

Lemma keeps_bind {A B} (m : M S A) (k : A -> M S B) :
  keeps f m -> (forall a, keeps f (k a)) -> keeps f (bind m k).
Proof.
  intros Hm Hk s. unfold bind.
  specialize (Hm s). destruct (m s) as [[a | e |] s1]; cbn in *; try exact Hm.
  rewrite Hk. exact Hm.
Qed.

Lemma keeps_try_except {A} (body : M S A) (catches : exn -> bool) (handler : exn -> M S A) :
  keeps f body -> (forall e, keeps f (handler e)) ->
  keeps f (try_except body catches handler).
Proof.
  intros Hb Hh s. unfold try_except.
  specialize (Hb s). destruct (body s) as [[a | e |] s1]; cbn in *; try exact Hb.
  destruct (catches e); [rewrite Hh |]; exact Hb.
Qed.

Lemma keeps_try_finally {A} (body : M S A) (final : M S unit) :
  keeps f body -> keeps f final -> keeps f (try_finally body final).
Proof.
  intros Hb Hf s. unfold try_finally.
  specialize (Hb s). destruct (body s) as [[a | e |] s1]; cbn in *; try exact Hb;
    specialize (Hf s1); destruct (final s1) as [[u | e' |] s2]; cbn in *;
    congruence.
Qed.

Lemma keeps_with_lock {A} (held : S -> bool) (set : bool -> S -> S) (body : M S A) :
  (forall b s, f (set b s) = f s) -> keeps f body ->
  keeps f (with_lock held set body).
Proof.
  intros Hset Hb s. unfold with_lock.
  destruct (held s); [reflexivity |].
  rewrite (keeps_try_finally body (modify (set false)) Hb
             (keeps_modify (set false) (Hset false))).
  apply Hset.
Qed.

End Keeps.

(** Closes the goals on the attribute assignments. *)
Ltac unchanged_by_assignment :=
  let s := fresh "s" in
  intros s; destruct s as [? [?|] ? ? ? ? ? ? ? ? ? ?]; reflexivity.

(** Steps through a method made of the combinators; [leaf] closes the goals
    on the methods already known to keep the observation. *)
Ltac keeps_with leaf :=
  repeat first
    [ leaf
    | apply keeps_ret | apply keeps_raise | apply keeps_block | apply keeps_gets
    | apply keeps_lift
    | apply keeps_modify; unchanged_by_assignment
    | apply keeps_with_lock; [intros ?; unchanged_by_assignment |]
    | apply keeps_bind; [| intro]
    | apply keeps_try_except; [| intro]
    | apply keeps_try_finally
    | progress cbv zeta
    | match goal with
      | |- keeps _ (if ?b then _ else _) => destruct b
      | |- keeps _ (match ?x with _ => _ end) => destruct x
      end ].

Section ConfigurationIsKept.

Variable json_loads : string -> option json.
Variable json_dumps : json -> string.
Variable int_of_str : string -> option Z.

Lemma recv_call_keeps_config : keeps _config recv_call.
Proof.
  intros m. unfold recv_call.
  destruct (_ws m) as [w |]; [| reflexivity].
  destruct (ws_recv w) as [[[] |] w']; destruct m; reflexivity.
Qed.

Lemma handshake_keeps_config (timeout : Q) :
  keeps _config (_perform_handshake json_loads json_dumps int_of_str timeout).
Proof.
  unfold _perform_handshake, _recv, _send, _build_auth_response, log, on_socket.
  keeps_with ltac:(apply recv_call_keeps_config).
Qed.

Lemma disconnect_keeps_config : keeps _config disconnect.
Proof.
  unfold disconnect, _stop_receiver, thread_join, receiver_exit, _safe_close, on_socket.
  keeps_with fail.
Qed.

Lemma connect_keeps_config (timeout : option Q) (network : string -> option WebSocket) :
  keeps _config (connect json_loads json_dumps int_of_str timeout network).
Proof.
  unfold connect, _do_connect, _start_receiver, _safe_close, log, on_socket.
  keeps_with ltac:(apply handshake_keeps_config).
Qed.

End ConfigurationIsKept.

(** ** Updating the configuration *)

Section UpdateProperties.

Variable json_loads : string -> option json.
Variable json_dumps : json -> string.
Variable int_of_str : string -> option Z.

Local Abbreviation connect_ := (connect json_loads json_dumps int_of_str).
Local Abbreviation update := (update_config json_loads json_dumps int_of_str).

Lemma nb_do_connect (timeout : option Q) (network : string -> option WebSocket) :
  never_blocks (_do_connect json_loads json_dumps int_of_str timeout network).
Proof.
  unfold _do_connect, _start_receiver.
  noblock_with ltac:(apply nb_perform_handshake).
Qed.

(** With the connection lock free, [connect] comes back. *)
Lemma connect_comes_back :
  forall timeout network m,
    _connection_lock m = false -> fst (connect_ timeout network m) <> Blocked.
Proof.
  intros timeout network m Hfree.
  unfold connect, with_lock. rewrite Hfree.
  apply nb_try_finally; [| apply nb_modify].
  noblock_with ltac:(apply nb_do_connect).
Qed.

(** The reconnection of [update_config] returns and keeps the
    configuration. *)
Lemma reconnection_returns :
  forall network m,
    _connection_lock m = false ->
    let reconnection :=
      (log INFO "Reconnecting to OBS WebSocket after configuration change" ;;
       try_except (disconnect ;; connect_ None network) is_OBSConnectionError
                  (fun _ => log ERROR "Failed to reconnect to OBS: {}")) in
    fst (reconnection m) = Return tt /\ _config (snd (reconnection m)) = _config m.
Proof.
  intros network m Hfree reconnection. split.
  - subst reconnection. unfold bind at 1, log at 1, modify at 1.
    unfold try_except. unfold bind at 1.
    rewrite disconnect_releases by (destruct m; exact Hfree).
    match goal with
    | |- context [connect_ None network ?s] =>
        pose proof (connect_comes_back None network s) as Hback;
        pose proof (connect_raises_connection_errors json_loads json_dumps int_of_str
                      None network s) as Htyped;
        destruct (connect_ None network s) as [[[] | e |] m1]
    end.
    + reflexivity.
    + cbn [fst] in Htyped. rewrite (Htyped e eq_refl). reflexivity.
    + exfalso. apply Hback; [destruct m; exact Hfree | reflexivity].
  - subst reconnection.
    assert (H : keeps _config
                  (log INFO "Reconnecting to OBS WebSocket after configuration change" ;;
                   try_except (disconnect ;; connect_ None network)
                     is_OBSConnectionError
                     (fun _ => log ERROR "Failed to reconnect to OBS: {}"))).
    { unfold log.
      keeps_with ltac:(first [ apply disconnect_keeps_config
                             | apply connect_keeps_config ]). }
    apply H.
Qed.

(** X6. With the connection lock free, [update_config] never raises: when the
    new configuration differs from the current one it returns the new
    configuration, which is the one the manager holds afterwards, also when
    the reconnection it attempts fails. *)
Theorem update_config_returns_new_config :
  forall kwargs network m,
    _connection_lock m = false ->
    config_eq (replace (_config m) kwargs) (_config m) = false ->
    fst (update kwargs network m) = Return (replace (_config m) kwargs)
    /\ _config (snd (update kwargs network m)) = replace (_config m) kwargs.
Proof.
  intros kwargs network m Hfree Hdiff.
  assert (Hrun : exists m',
             update kwargs network m = (Return (replace (_config m) kwargs), m')
             /\ _config m' = replace (_config m) kwargs).
  { unfold update_config. unfold bind at 1, gets at 1. rewrite Hdiff.
    unfold bind at 1, gets at 1. unfold bind at 1, modify at 1.
    fold (reconnect_required (replace (_config m) kwargs) (_config m)).
    destruct (is_connected m
              && reconnect_required (replace (_config m) kwargs) (_config m)).
    - destruct (reconnection_returns network
                  (set_config (replace (_config m) kwargs) m))
        as [Hret Hcfg]; [destruct m; exact Hfree |].
      cbv zeta in Hret, Hcfg. unfold bind at 1.
      destruct ((log INFO "Reconnecting to OBS WebSocket after configuration change" ;;
                 try_except (disconnect ;; connect_ None network) is_OBSConnectionError
                   (fun _ => log ERROR "Failed to reconnect to OBS: {}"))
                  (set_config (replace (_config m) kwargs) m)) as [[[] | e |] m1];
        cbn [fst snd] in *; try discriminate.
      exists m1. unfold gets. rewrite Hcfg. destruct m; split; reflexivity.
    - eexists. destruct m; split; reflexivity. }
  destruct Hrun as (m' & Hrun & Hcfg). rewrite Hrun. split; [reflexivity | exact Hcfg].
Qed.


(** The run of [update_config] when the dial of the reconnection fails. *)
Lemma failed_reconnection_run :
  forall kwargs network m,
    _connection_lock m = false ->
    is_connected m = true ->
    config_eq (replace (_config m) kwargs) (_config m) = false ->
    reconnect_required (replace (_config m) kwargs) (_config m) = true ->
    network (as_url (replace (_config m) kwargs)) = None ->
    update kwargs network m
    = (Return (replace (_config m) kwargs),
       set_logged
         (logged m
          ++ [(INFO, "Reconnecting to OBS WebSocket after configuration change")]
          ++ [(DEBUG, "Connecting to OBS WebSocket at {}")]
          ++ [(ERROR, "Failed to reconnect to OBS: {}")])
         (released (set_config (replace (_config m) kwargs) m))).
Proof.
  intros kwargs network m Hfree Hconn Hdiff Hreq Hdial.
  unfold update_config. unfold bind at 1, gets at 1. rewrite Hdiff.
  unfold bind at 1, gets at 1. unfold bind at 1, modify at 1.
  fold (reconnect_required (replace (_config m) kwargs) (_config m)).
  rewrite Hconn, Hreq. cbn [andb].
  unfold bind at 1. unfold bind at 1, log at 1, modify at 1.
  unfold try_except. unfold bind at 1.
  rewrite disconnect_releases by (destruct m; exact Hfree).
  unfold connect, with_lock.
  destruct m as [c ws v cl sl r rc n t rr i l]. cbn in Hfree, Hdial |- *. subst cl.
  unfold try_finally, bind, gets, try_except, _do_connect, log, modify. cbn.
  rewrite Hdial. cbn. rewrite <- !app_assoc. reflexivity.
Qed.


(** X8. When the host, port, SSL flag or password of a connected manager
    changes and the dial to the new URL fails, [update_config] still returns
    the new configuration: the failure is logged as an error, not raised, and
    the manager is left with the new configuration, without socket and not
    connected, so that a later [ensure_connection] dials again. *)
Theorem update_config_failed_reconnection :
  forall kwargs network m,
    _connection_lock m = false ->
    is_connected m = true ->
    config_eq (replace (_config m) kwargs) (_config m) = false ->
    reconnect_required (replace (_config m) kwargs) (_config m) = true ->
    network (as_url (replace (_config m) kwargs)) = None ->
    fst (update kwargs network m) = Return (replace (_config m) kwargs)
    /\ _config (snd (update kwargs network m)) = replace (_config m) kwargs
    /\ _ws (snd (update kwargs network m)) = None
    /\ is_connected (snd (update kwargs network m)) = false
    /\ In (ERROR, "Failed to reconnect to OBS: {}")
          (logged (snd (update kwargs network m))).
Proof.
  intros kwargs network m Hfree Hconn Hdiff Hreq Hdial.
  rewrite (failed_reconnection_run kwargs network m Hfree Hconn Hdiff Hreq Hdial).
  cbn [fst snd]. destruct m; cbn.
  repeat split; try reflexivity.
  apply in_or_app. right. right. right. left. reflexivity.
Qed.

End UpdateProperties.

(** ** The receiver and re-identification *)

Lemma receiver_exit_releases (m : OBSConnectionManager) :
  receiver_exit m
  = (Return tt, set_ws None (set_receiver_running false (set_identified false m))).
Proof.
  destruct m as [c [w |] v cl sl r rc n t rr i l]; reflexivity.
Qed.

Section ReceiverExit.

Variable json_loads : string -> option json.
Variable json_dumps : json -> string.
Variable int_of_str : string -> option Z.

Local Abbreviation receiver_loop := (_receiver_loop json_loads json_dumps int_of_str).
Local Abbreviation handle_message := (_handle_message json_loads json_dumps int_of_str).

(** X9. However the receiver loop comes to its end without an exception,
    be it by a lost connection, a read error, a cleared running flag or a
    missing socket, the manager is left without socket, not identified and
    with the running flag cleared. *)
Theorem receiver_loop_exit_clears_connection :
  forall fuel m m',
    receiver_loop fuel m = (Return tt, m') ->
    _ws m' = None /\ _identified m' = false /\ _receiver_running m' = false
    /\ is_connected m' = false.
Proof.
  assert (Hexit : forall m m',
             receiver_exit m = (Return tt, m') ->
             _ws m' = None /\ _identified m' = false /\ _receiver_running m' = false
             /\ is_connected m' = false).
  { intros m m' H. rewrite receiver_exit_releases in H. injection H as <-.
    destruct m; repeat split; reflexivity. }
  induction fuel as [| fuel IH]; intros m m' H.
  - discriminate.
  - cbn [_receiver_loop] in H.
    apply bind_return_inv in H as (running & m1 & _ & H).
    destruct (negb running); [exact (Hexit _ _ H) |].
    apply bind_return_inv in H as (ws & m2 & _ & H).
    destruct ws as [w |]; [| exact (Hexit _ _ H)].
    apply bind_return_inv in H as (received & m3 & _ & H).
    destruct received as [[message |] |].
    + destruct (json_loads message) as [payload |].
      * apply bind_return_inv in H as (u & m4 & _ & H). exact (IH _ _ H).
      * apply bind_return_inv in H as (u & m4 & _ & H). exact (IH _ _ H).
    + exact (IH _ _ H).
    + exact (Hexit _ _ H).
Qed.

(** X10. Closing the socket makes a running receiver leave its loop: its read
    fails, it logs the lost connection, clears the identified flag and the
    running flag and drops the socket. This is what lets [disconnect] stop a
    receiver that is blocked in a read. *)
Theorem receiver_loop_leaves_on_closed_socket :
  forall fuel m w,
    _receiver_running m = true -> _ws m = Some w -> closed w = true ->
    receiver_loop (S fuel) m
    = (Return tt,
       set_logged (logged m ++ [(WARNING, "Lost connection to OBS WebSocket")])
         (set_ws None (set_receiver_running false (set_identified false m)))).
Proof.
  intros fuel m w Hrun Hws Hclosed.
  cbn [_receiver_loop].
  unfold bind at 1, gets at 1. rewrite Hrun. cbn [negb].
  unfold bind at 1, gets at 1. rewrite Hws.
  unfold bind at 1. unfold try_except, bind at 1, recv_call, ws_recv.
  rewrite Hws, Hclosed. cbn [is_Exception].
  unfold bind at 1, log at 1, modify at 1. cbn [ret].
  rewrite receiver_exit_releases.
  destruct m; cbn in *; subst; reflexivity.
Qed.

End ReceiverExit.

Section Reidentification.

Variable json_loads : string -> option json.
Variable json_dumps : json -> string.
Variable int_of_str : string -> option Z.

Local Abbreviation handle_message := (_handle_message json_loads json_dumps int_of_str).
Local Abbreviation perform_handshake :=
  (_perform_handshake json_loads json_dumps int_of_str).




(** X12. An Event frame, or a frame with an opcode the client does not know,
    adds one debug line to the log and changes nothing else: no response is
    stored, no waiter is woken, the connection state stays. *)
Theorem event_frames_are_only_logged :
  forall m entries op data,
    lookup "op" entries = Some op ->
    py_eq op (JInt 0) = false -> py_eq op (JInt 2) = false ->
    py_eq op (JInt 7) = false -> py_eq op (JInt 8) = false ->
    py_get_default (JDict entries) "d" (JDict []) = Return data ->
    (py_eq op (JInt 5) = true -> is_dict data = true) ->
    exists line,
      handle_message (JDict entries) m
      = (Return tt, set_logged (logged m ++ [(DEBUG, line)]) m).
Proof.
  intros m entries op data Hop H0 H2 H7 H8 Hdata Hevent.
  unfold _handle_message.
  unfold bind at 1, lift at 1. unfold py_get at 1, py_get_default at 1. rewrite Hop.
  unfold bind at 1, lift at 1. rewrite Hdata.
  rewrite H0, H2.
  destruct (py_eq op (JInt 5)) eqn:H5.
  - specialize (Hevent eq_refl). destruct data; try discriminate.
    eexists. unfold bind, lift, py_get, py_get_default, log, modify.
    destruct (lookup "eventType" entries0); reflexivity.
  - rewrite H7, H8. eexists. reflexivity.
Qed.

End Reidentification.

(** ** More on the handshake *)

Lemma build_auth_response_returns (m : OBSConnectionManager) (auth : json)
      (challenge salt : string) :
  py_get auth "challenge" = Return (JStr challenge) ->
  py_get auth "salt" = Return (JStr salt) ->
  _build_auth_response auth m
  = (Return (expected_auth_response (password (_config m)) salt challenge), m).
Proof.
  intros Hchallenge Hsalt.
  unfold _build_auth_response, bind, lift.
  rewrite Hchallenge, Hsalt. reflexivity.
Qed.

Section HandshakeOutcomes.

Variable json_loads : string -> option json.
Variable json_dumps : json -> string.
Variable int_of_str : string -> option Z.

Local Abbreviation perform_handshake :=
  (_perform_handshake json_loads json_dumps int_of_str).

(** X13. When the Hello frame carries a challenge and a salt and a password
    is configured, the Identify frame written carries, next to the version
    and the event subscriptions, the authentication string
    base64(SHA256(base64(SHA256(password + salt)) + challenge)). *)
Theorem handshake_sends_authentication :
  forall timeout m w rest version auth challenge salt,
    receives_hello json_loads int_of_str m w rest version auth ->
    truthy auth = true ->
    py_get auth "challenge" = Return (JStr challenge) ->
    py_get auth "salt" = Return (JStr salt) ->
    password (_config m) <> "" ->
    written (snd (perform_handshake timeout m))
    = outbox w
      ++ [(json_dumps
             (JDict [("op", JInt 1);
                     ("d", JDict [("rpcVersion", JInt version);
                                  ("eventSubscriptions",
                                   JInt (event_subscriptions (_config m)));
                                  ("authentication",
                                   JStr (expected_auth_response
                                           (password (_config m)) salt challenge))])]),
           _send_lock m)].
Proof.
  intros timeout m w rest version auth challenge salt Hhello Htruthy Hch Hsalt Hpw.
  rewrite (handshake_after_hello json_loads json_dumps int_of_str
             timeout m w rest version auth Hhello).
  destruct Hhello as (text & entries & op & hello_data & field & Hws & Hopen & _).
  rewrite Htruthy.
  unfold bind at 1. unfold bind at 1, gets at 1.
  assert (Hp : truthy (JStr (password (_config (set_rpc_version version
                                                  (delivered w rest m))))) = true).
  { destruct m. cbn in *. apply String.eqb_neq in Hpw. rewrite Hpw. reflexivity. }
  rewrite Hp. cbn [negb].
  unfold bind at 1.
  rewrite (build_auth_response_returns _ auth challenge salt Hch Hsalt).
  unfold ret at 1. cbn [store String.eqb Ascii.eqb Bool.eqb].
  unfold bind at 1.
  unfold _send at 1. unfold bind at 1, gets at 1.
  cbn [_ws set_rpc_version delivered set_ws].
  unfold bind at 1, gets at 1. unfold ws_send. cbn [closed].
  unfold modify at 1.
  rewrite handshake_tail_keeps_written.
  unfold written. destruct m. cbn. reflexivity.
Qed.

(** X14. The handshake fails with [OBSConnectionError] on its first read when
    nothing arrives within the time-out, when the frame is not JSON, and when
    the frame is not a Hello (its opcode is not 0); in each case no frame has
    been written and the identified flag is as before. *)
Theorem handshake_rejects_first_frame :
  (forall timeout m w,
      _ws m = Some w -> closed w = false -> inbox w = [] ->
      perform_handshake timeout m = (Raise OBSConnectionError, m))
  /\ (forall timeout m w text rest,
         _ws m = Some w -> closed w = false -> inbox w = Text text :: rest ->
         json_loads text = None ->
         perform_handshake timeout m = (Raise OBSConnectionError, delivered w rest m))
  /\ (forall timeout m w text rest hello op,
         _ws m = Some w -> closed w = false -> inbox w = Text text :: rest ->
         json_loads text = Some hello ->
         py_get hello "op" = Return op -> py_eq op (JInt 0) = false ->
         perform_handshake timeout m = (Raise OBSConnectionError, delivered w rest m)).
Proof.
  split; [| split].
  - intros timeout m w Hws Hopen Hin.
    unfold _perform_handshake. unfold bind at 1.
    unfold _recv, bind, gets. rewrite Hws.
    unfold on_socket, modify. rewrite Hws.
    unfold try_finally, try_except, recv_call, ws_recv. cbn.
    rewrite Hopen, Hin. cbn.
    destruct m, w. cbn in *. subst. reflexivity.
  - intros timeout m w text rest Hws Hopen Hin Hloads.
    unfold _perform_handshake. unfold bind at 1.
    unfold _recv, bind, gets. rewrite Hws.
    unfold on_socket, modify. rewrite Hws.
    unfold try_finally, try_except, recv_call, ws_recv. cbn.
    rewrite Hopen, Hin. cbn. rewrite Hloads.
    destruct m; reflexivity.
  - intros timeout m w text rest hello op Hws Hopen Hin Hloads Hop Hother.
    unfold _perform_handshake. unfold bind at 1.
    rewrite (recv_text json_loads timeout m w text rest hello Hws Hopen Hin Hloads).
    unfold bind at 1, lift at 1. rewrite Hop. rewrite Hother. reflexivity.
Qed.

(** X15. After a Hello without challenge, the handshake succeeds exactly on
    an Identified frame: when the next frame has opcode 2 it returns, with the
    identified flag set, the version of the Hello recorded, the Identify frame
    written and the socket switched to reads without time-out; when the next
    frame has another opcode it raises [OBSConnectionError] and the
    identified flag is as before. *)
Theorem handshake_needs_identified :
  forall timeout m w text rest version auth reply op,
    receives_hello json_loads int_of_str m w (Text text :: rest) version auth ->
    truthy auth = false ->
    json_loads text = Some reply ->
    py_get reply "op" = Return op ->
    (py_eq op (JInt 2) = true ->
     perform_handshake timeout m
     = (Return tt,
        set_logged
          (logged m ++ [(DEBUG, "OBS WebSocket handshake completed (RPC version {})")])
          (set_ws
             (Some (Socket rest
                      (outbox w
                       ++ [(json_dumps
                              (plain_identify version
                                 (event_subscriptions (_config m))),
                            _send_lock m)])
                      None false))
             (set_identified true (set_rpc_version version m)))))
    /\ (py_eq op (JInt 2) = false ->
        fst (perform_handshake timeout m) = Raise OBSConnectionError
        /\ _identified (snd (perform_handshake timeout m)) = _identified m).
Proof.
  intros timeout m w text rest version auth reply op Hhello Hfalsy Hloads Hop.
  pose (sent := Socket (Text text :: rest)
                  (outbox w
                   ++ [(json_dumps
                          (plain_identify version (event_subscriptions (_config m))),
                        _send_lock m)])
                  (ws_timeout w) false).
  assert (Hrun :
            perform_handshake timeout m
            = (if negb (py_eq op (JInt 2)) then raise OBSConnectionError
               else
                 modify (set_identified true) ;;
                 on_socket (ws_settimeout None) ;;
                 log DEBUG "OBS WebSocket handshake completed (RPC version {})")
                (delivered sent rest (set_rpc_version version m))).
  { rewrite (handshake_after_hello json_loads json_dumps int_of_str
               timeout m w (Text text :: rest) version auth Hhello).
    destruct Hhello as (text0 & entries & op0 & hello_data & field & Hws & Hopen & _).
    rewrite Hfalsy.
    unfold bind at 1, ret at 1.
    unfold bind at 1.
    unfold _send at 1. unfold bind at 1, gets at 1.
    cbn [_ws set_rpc_version delivered set_ws].
    unfold bind at 1, gets at 1. unfold ws_send. cbn [closed].
    unfold modify at 1.
    unfold bind at 1.
    match goal with
    | |- context [_recv json_loads timeout ?s] =>
        rewrite (recv_text json_loads timeout s sent text rest reply)
    end; try reflexivity; try exact Hloads.
    unfold bind at 1, lift at 1. rewrite Hop.
    destruct m; reflexivity. }
  rewrite Hrun. clear Hrun.
  split; intros Hkind; rewrite Hkind; cbn [negb].
  - destruct m; reflexivity.
  - destruct m; split; reflexivity.
Qed.

End HandshakeOutcomes.

(** ** More on waiting *)

(** The passes of the wait, one equation per case. *)
Lemma wait_loop_pass :
  forall request_id deadline now others later m,
    wait_loop request_id deadline ((now, others) :: later) m
    = if Qle_bool (deadline - now) 0 then (Raise OBSResponseTimeoutError, m)
      else match registry_find (JStr request_id) (_responses m) with
           | Some data =>
               (Return data,
                set_responses (registry_remove (JStr request_id) (_responses m)) m)
           | None =>
               wait_loop request_id deadline later
                 (set_response_condition true
                    (set_responses (others (_responses m))
                       (set_response_condition false m)))
           end.
Proof.
  intros request_id deadline now others later m.
  cbn [wait_loop].
  destruct (Qle_bool (deadline - now) 0); [reflexivity |].
  unfold bind, gets.
  destruct (registry_find (JStr request_id) (_responses m)); reflexivity.
Qed.

(** X16. The wait raises nothing but the time-out, and it raises it only at
    a pass whose clock reading is at or after the deadline, never before.
    When no response for the id is in the table and the other threads never
    store one, a pass at or after the deadline does make it raise the
    time-out. *)
Theorem wait_times_out_at_the_deadline :
  forall request_id deadline wakes m,
    (forall e, fst (wait_loop request_id deadline wakes m) = Raise e ->
               e = OBSResponseTimeoutError
               /\ Exists (fun w => (deadline <= fst w)%Q) wakes)
    /\ (registry_find (JStr request_id) (_responses m) = None ->
        Forall (fun w => forall r, registry_find (JStr request_id) r = None ->
                                   registry_find (JStr request_id) (snd w r) = None)
               wakes ->
        Exists (fun w => (deadline <= fst w)%Q) wakes ->
        fst (wait_loop request_id deadline wakes m) = Raise OBSResponseTimeoutError).
Proof.
  intros request_id deadline wakes.
  induction wakes as [| [now others] later IH]; intros m.
  - split.
    + intros e H. discriminate.
    + intros _ _ Hex. inversion Hex.
  - rewrite wait_loop_pass.
    destruct (Qle_bool (deadline - now) 0) eqn:E.
    + split.
      * intros e H. injection H as <-. split; [reflexivity |].
        apply Exists_cons_hd. cbn. now apply remaining_exhausted.
      * intros _ _ _. reflexivity.
    + destruct (registry_find (JStr request_id) (_responses m)) as [data |] eqn:Hfind.
      * split; [intros e H; discriminate | intros Habs; discriminate].
      * match goal with
        | |- context [wait_loop request_id deadline later ?s] =>
            destruct (IH s) as [Honly Hnone]
        end.
        split.
        -- intros e H. destruct (Honly e H) as [He Hex].
           split; [exact He | now apply Exists_cons_tl].
        -- intros _ Hquiet Hex.
           apply Forall_cons_iff in Hquiet as [Hnow Hlater].
           apply Hnone.
           ++ destruct m; cbn in *. apply Hnow. exact Hfind.
           ++ exact Hlater.
           ++ apply Exists_cons in Hex as [Hhead | Htail]; [| exact Htail].
              cbn in Hhead. apply remaining_exhausted in Hhead. congruence.
Qed.

Section Correlation.

Variable json_loads : string -> option json.
Variable json_dumps : json -> string.
Variable int_of_str : string -> option Z.

Local Abbreviation handle_message := (_handle_message json_loads json_dumps int_of_str).

(** X2. A response frame handled by the receiver reaches the caller that
    waits for its id: after the handler ran on a frame with opcode 7 or 8 and
    a non-empty [requestId], a pass of the wait for that id with time left
    returns the [d] of the frame and takes the entry out again, so that the
    table is as it was before the frame arrived; one more notification has
    been given. *)
Theorem handled_response_reaches_waiter :
  forall m payload op data request_id deadline now others later,
    py_get payload "op" = Return op ->
    py_eq op (JInt 7) || py_eq op (JInt 8) = true ->
    py_get_default payload "d" (JDict []) = Return data ->
    py_get data "requestId" = Return (JStr request_id) ->
    request_id <> "" ->
    _response_condition m = false ->
    registry_find (JStr request_id) (_responses m) = None ->
    (now < deadline)%Q ->
    fst (handle_message payload m) = Return tt
    /\ wait_loop request_id deadline ((now, others) :: later)
         (snd (handle_message payload m))
       = (Return data, set_notifications (S (notifications m)) m).
Proof.
  intros m payload op data request_id deadline now others later
         Hop Hkind Hdata Hid Hne Hfree Hfresh Htime.
  rewrite (handle_message_response json_loads json_dumps int_of_str
             m payload op data (JStr request_id) Hop Hkind Hdata Hid).
  rewrite (nonempty_is_truthy request_id Hne).
  unfold store_response, with_lock. rewrite Hfree. cbn [hashable].
  unfold try_finally, bind, modify. cbn [fst snd].
  split; [reflexivity |].
  cbn [wait_loop].
  apply remaining_left in Htime. rewrite Htime.
  unfold bind, gets, modify.
  destruct m as [c ws v cl sl r rc n t rr i l]. cbn in Hfree, Hfresh |- *. subst rc.
  rewrite registry_find_store_same by reflexivity.
  rewrite registry_remove_store_fresh by (reflexivity || exact Hfresh).
  reflexivity.
Qed.

End Correlation.

(** ** More on the broadcaster and the plugin *)

Lemma contains_app (c : ascii) (s t : string) :
  contains c (s ++ t) = contains c s || contains c t.
Proof.
  induction s as [| a s IH]; cbn; [reflexivity |].
  rewrite IH. apply orb_assoc.
Qed.

Section BroadcasterOutcomes.

Variable json_dumps : json -> string.

Local Abbreviation broadcast_event := (broadcast json_dumps).
Local Abbreviation safe := (safe_broadcast json_dumps).

(** X19. [set_namespace] refuses the empty namespace with [ValueError] and
    keeps the old one; any other namespace replaces the old one, the
    connection being untouched, and is the prefix of the event types built
    afterwards from actions without [":"]. *)
Theorem set_namespace_takes_effect :
  (forall b, set_namespace "" b = (Raise ValueError, b))
  /\ (forall namespace b,
         namespace <> "" ->
         set_namespace namespace b
         = (Return tt, Broadcaster (_connection b) namespace))
  /\ (forall namespace action b,
         namespace <> "" -> contains ":" (strip action) = false ->
         (set_namespace namespace ;; _format_event_type action) b
         = (Return (namespace ++ ":" ++ strip action)%string,
            Broadcaster (_connection b) namespace)).
Proof.
  split; [| split].
  - intros b. reflexivity.
  - intros namespace b Hne. unfold set_namespace.
    rewrite (nonempty_is_truthy namespace Hne). reflexivity.
  - intros namespace action b Hne Hplain.
    unfold bind at 1. unfold set_namespace.
    rewrite (nonempty_is_truthy namespace Hne). cbn [negb modify].
    unfold _format_event_type. rewrite Hplain. reflexivity.
Qed.

(** X20. [safe_broadcast] does not turn every failure of the connection into
    [False]: when the manager counts as connected but its socket was closed,
    the write fails, [_send] raises the base class [OBSConnectionError], which
    is not one of the three classes caught, and the error reaches the
    caller. *)
Theorem safe_broadcast_raises_on_failed_write :
  forall action payload timeout env b w,
    action <> "" ->
    is_connected (_connection b) = true ->
    _ws (_connection b) = Some w -> closed w = true ->
    _send_lock (_connection b) = false ->
    fst (safe action payload timeout env b) = Raise OBSConnectionError
    /\ written (_connection (snd (safe action payload timeout env b))) = outbox w.
Proof.
  intros action payload timeout env b w Hne Hconn Hws Hclosed Hfree.
  assert (Hrun : exists line,
             safe action payload timeout env b
             = (Raise OBSConnectionError,
                Broadcaster
                  (set_logged (logged (_connection b) ++ [(DEBUG, line)])
                     (_connection b))
                  (_namespace b))).
  { unfold safe_broadcast, try_except. unfold bind at 1.
    rewrite (broadcast_nonempty json_dumps action payload timeout env b Hne).
    unfold custom_event_request, on_connection.
    unfold bind at 1, log at 1, modify at 1.
    unfold send_request. unfold bind at 1, gets at 1.
    destruct b as [c ns]. destruct c as [cf ws v cl sl r rc n t rr i l].
    cbn in Hconn, Hws, Hfree. subst ws sl. cbn in Hconn. subst i.
    cbn [is_connected _ws _identified set_logged negb].
    unfold bind at 1. unfold with_lock, try_finally, _send, bind, gets, ws_send, modify.
    cbn. rewrite Hclosed. cbn. eexists. reflexivity. }
  destruct Hrun as [line Hrun]. rewrite Hrun. cbn.
  split; [reflexivity |]. unfold written. cbn. rewrite Hws. reflexivity.
Qed.

(** X21. The event type of every broadcast contains the separator [":"]:
    for an action that is not empty, [broadcast] is the request for an event
    type that has a [":"], be it the one of the action or the one put after
    the namespace. *)
Theorem broadcast_event_type_is_qualified :
  forall action payload timeout env b,
    action <> "" ->
    exists event_type,
      broadcast_event action payload timeout env b
      = custom_event_request json_dumps event_type payload timeout env b
      /\ contains ":" event_type = true.
Proof.
  intros action payload timeout env b Hne.
  rewrite (broadcast_nonempty json_dumps action payload timeout env b Hne).
  eexists. split; [reflexivity |].
  destruct (contains ":" (strip action)) eqn:E; [exact E |].
  rewrite !contains_app. cbn. apply orb_true_r.
Qed.

End BroadcasterOutcomes.

Section PluginProperties.

Variable json_loads : string -> option json.
Variable json_dumps : json -> string.
Variable int_of_str : string -> option Z.

(** X23. The worker of the background connection never raises: with the
    connection lock free it returns, the manager being connected afterwards
    or the failed attempt logged as a warning. *)
Theorem connect_worker_never_raises :
  forall network m,
    _connection_lock m = false ->
    fst (connect_worker json_loads json_dumps int_of_str network m) = Return tt.
Proof.
  intros network m Hfree.
  unfold connect_worker, try_except, ensure_connection.
  unfold bind at 1, gets at 1.
  destruct (is_connected m); [reflexivity |]. cbn [negb].
  pose proof (connect_comes_back json_loads json_dumps int_of_str None network m Hfree)
    as Hback.
  pose proof (connect_raises_connection_errors json_loads json_dumps int_of_str
                None network m) as Htyped.
  destruct (connect json_loads json_dumps int_of_str None network m)
    as [[[] | e |] m1]; cbn [fst] in *.
  - reflexivity.
  - rewrite (Htyped e eq_refl). reflexivity.
  - congruence.
Qed.

(** X24. The key press of the greet-feed action never raises on a manager
    that is not connected: the broadcast is refused, [safe_broadcast] turns
    the refusal into [False], and the action logs its warning after the error
    line of the broadcaster. Nothing is written to any socket. *)
Theorem key_press_while_disconnected :
  forall env b,
    is_connected (_connection b) = false ->
    on_key_down json_dumps env b
    = (Return tt,
       Broadcaster
         (set_logged
            (logged (_connection b)
             ++ [(DEBUG, "Broadcasting Twitchat event {} with payload {}")]
             ++ [(ERROR, "Failed to broadcast Twitchat event {}: {}")]
             ++ [(WARNING,
                  "Twitchat greet feed read-all command failed; see plugin logs for details")])
            (_connection b))
         (_namespace b)).
Proof.
  intros env b Hoff.
  unfold on_key_down, plugin_broadcast. cbn [is_None negb andb].
  unfold bind at 1. unfold safe_broadcast, try_except. unfold bind at 1.
  rewrite (broadcast_nonempty json_dumps "GREET_FEED_READ_ALL" JNull None env b)
    by discriminate.
  unfold custom_event_request, on_connection.
  unfold bind at 1, log at 1, modify at 1.
  rewrite send_request_not_connected by (destruct b as [[] ns]; exact Hoff).
  cbn. destruct b as [c ns]. destruct c. cbn. rewrite <- !app_assoc. reflexivity.
Qed.

End PluginProperties.

(** ** [str.strip] *)

Lemma starts_with_split (prefix text : list N) :
  starts_with prefix text = true -> text = prefix ++ skipn (List.length prefix) text.
Proof.
  revert text. induction prefix as [| p prefix IH]; intros text H; [reflexivity |].
  destruct text as [| t text]; [discriminate |].
  cbn in H. apply andb_true_iff in H as [Hhead Htail].
  apply N.eqb_eq in Hhead. subst t. cbn. f_equal. now apply IH.
Qed.

Lemma starts_with_longer (prefix text more : list N) :
  starts_with prefix text = true -> starts_with prefix (text ++ more) = true.
Proof.
  revert text. induction prefix as [| p prefix IH]; intros text H; [reflexivity |].
  destruct text as [| t text]; [discriminate |].
  cbn in *. apply andb_true_iff in H as [Hhead Htail].
  rewrite Hhead. cbn. now apply IH.
Qed.

Lemma find_none_all {A} (f : A -> bool) (l : list A) :
  (forall x, In x l -> f x = false) -> find f l = None.
Proof.
  induction l as [| a l IH]; intros H; [reflexivity |].
  cbn. rewrite (H a (or_introl eq_refl)). apply IH. intros x Hx. apply H. now right.
Qed.

(** What [strip_start] returns is the end of the text. *)
Lemma strip_start_suffix (fuel : nat) (spaces : list (list N)) (text : list N) :
  exists removed, text = removed ++ strip_start fuel spaces text.
Proof.
  revert text. induction fuel as [| fuel IH]; intros text.
  - exists []. reflexivity.
  - cbn. destruct (find (fun sp => starts_with sp text) spaces) as [sp |] eqn:E.
    + apply find_some in E as [_ Hsp].
      destruct (IH (skipn (List.length sp) text)) as [removed Hrem].
      exists (sp ++ removed).
      rewrite <- app_assoc, <- Hrem. now apply starts_with_split.
    + exists []. reflexivity.
Qed.

(** With fuel for every element, no space is left at the start. *)
Lemma strip_start_done (fuel : nat) (spaces : list (list N)) (text : list N) :
  (forall sp, In sp spaces -> sp <> []) ->
  (List.length text <= fuel)%nat ->
  find (fun sp => starts_with sp (strip_start fuel spaces text)) spaces = None.
Proof.
  intros Hspaces. revert text. induction fuel as [| fuel IH]; intros text Hlen.
  - destruct text; [| cbn in Hlen; lia].
    cbn. apply find_none_all. intros sp Hin.
    destruct sp; [now destruct (Hspaces [] Hin) | reflexivity].
  - cbn. destruct (find (fun sp => starts_with sp text) spaces) as [sp |] eqn:E.
    + apply IH.
      apply find_some in E as [Hin Hsp].
      apply starts_with_split in Hsp.
      assert (Hnonempty : (0 < List.length sp)%nat).
      { destruct sp; [now destruct (Hspaces [] Hin) | cbn; lia]. }
      rewrite Hsp in Hlen. rewrite length_app in Hlen. lia.
    + exact E.
Qed.

Lemma strip_start_nothing (fuel : nat) (spaces : list (list N)) (text : list N) :
  find (fun sp => starts_with sp text) spaces = None ->
  strip_start fuel spaces text = text.
Proof.
  intros H. destruct fuel; [reflexivity |]. cbn. rewrite H. reflexivity.
Qed.

Lemma whitespace_nonempty : forall sp, In sp whitespace -> sp <> [].
Proof.
  intros sp Hin. unfold whitespace in Hin.
  repeat (destruct Hin as [<- | Hin]; [discriminate |]). destruct Hin.
Qed.

Lemma reversed_whitespace_nonempty : forall sp, In sp (map (@rev N) whitespace) -> sp <> [].
Proof.
  intros sp Hin. unfold whitespace in Hin. cbn in Hin.
  repeat (destruct Hin as [<- | Hin]; [discriminate |]). destruct Hin.
Qed.

Lemma codes_length (s : string) : List.length (codes s) = String.length s.
Proof.
  unfold codes. rewrite length_map.
  induction s as [| a s IH]; cbn; [reflexivity | now rewrite IH].
Qed.

Lemma codes_bounded (s : string) : Forall (fun n => (n < 256)%N) (codes s).
Proof.
  unfold codes. induction s as [| a s IH]; cbn; constructor.
  - apply N_ascii_bounded.
  - exact IH.
Qed.

Lemma of_codes_length (l : list N) : String.length (of_codes l) = List.length l.
Proof.
  unfold of_codes. induction l as [| n l IH]; cbn; [reflexivity | now rewrite IH].
Qed.

Lemma codes_of_codes (l : list N) :
  Forall (fun n => (n < 256)%N) l -> codes (of_codes l) = l.
Proof.
  unfold codes, of_codes. induction 1 as [| n l Hn Hl IH]; cbn; [reflexivity |].
  rewrite IH. rewrite N_ascii_embedding by exact Hn. reflexivity.
Qed.

(** The codes of [s.strip()]: the codes of [s] between a removed start and a
    removed end, with no space left on either side. *)
Lemma strip_codes (s : string) :
  exists front_removed back_removed kept,
    codes s = front_removed ++ kept ++ back_removed
    /\ strip s = of_codes kept
    /\ find (fun sp => starts_with sp kept) whitespace = None
    /\ find (fun sp => starts_with sp (rev kept)) (map (@rev N) whitespace) = None.
Proof.
  unfold strip.
  set (n := String.length s).
  set (front := strip_start n whitespace (codes s)).
  set (back := strip_start n (map (@rev N) whitespace) (rev front)).
  destruct (strip_start_suffix n whitespace (codes s)) as [p Hp]. fold front in Hp.
  destruct (strip_start_suffix n (map (@rev N) whitespace) (rev front)) as [q Hq].
  fold back in Hq.
  assert (Hfront : front = rev back ++ rev q).
  { rewrite <- (rev_involutive front), Hq, rev_app_distr. reflexivity. }
  assert (Hlen : (List.length (codes s) <= n)%nat) by (rewrite codes_length; lia).
  exists p, (rev q), (rev back). repeat split.
  - rewrite Hp at 1. rewrite Hfront. reflexivity.
  - apply find_none_all. intros sp Hin.
    pose proof (strip_start_done n whitespace (codes s) whitespace_nonempty Hlen) as Hdone.
    fold front in Hdone. rewrite Hfront in Hdone.
    destruct (starts_with sp (rev back)) eqn:E; [| reflexivity].
    apply (starts_with_longer sp (rev back) (rev q)) in E.
    pose proof (find_none _ _ Hdone sp Hin) as Hno. cbn in Hno. congruence.
  - rewrite rev_involutive.
    apply strip_start_done; [exact reversed_whitespace_nonempty |].
    rewrite length_rev. rewrite Hp in Hlen. rewrite length_app in Hlen. lia.
Qed.

Lemma strip_idempotent (s : string) : strip (strip s) = strip s.
Proof.
  destruct (strip_codes s) as (p & q & kept & Hcodes & Hstrip & Hstart & Hend).
  assert (Hbound : Forall (fun n => (n < 256)%N) kept).
  { pose proof (codes_bounded s) as H. rewrite Hcodes in H.
    apply Forall_app in H as [_ H]. apply Forall_app in H as [H _]. exact H. }
  rewrite Hstrip. unfold strip at 1.
  rewrite (codes_of_codes kept Hbound).
  rewrite (strip_start_nothing _ whitespace kept Hstart).
  rewrite (strip_start_nothing _ (map (@rev N) whitespace) (rev kept) Hend).
  rewrite rev_involutive. reflexivity.
Qed.

(** ** The settings *)

Lemma str_or_nonempty (s default : string) : default <> "" -> str_or s default <> "".
Proof.
  intros Hd. unfold str_or. cbn.
  destruct (String.eqb s "") eqn:E; cbn; [exact Hd |].
  now apply String.eqb_neq.
Qed.

Lemma str_or_stripped (s default : string) :
  strip default = default ->
  strip (str_or (strip s) default) = str_or (strip s) default.
Proof.
  intros Hd. unfold str_or. destruct (truthy (JStr (strip s))); [| exact Hd].
  apply strip_idempotent.
Qed.

Lemma str_or_keeps (s default : string) : s <> "" -> str_or s default = s.
Proof.
  intros H. unfold str_or. rewrite (nonempty_is_truthy s H). reflexivity.
Qed.

Lemma lookup_store_other (key other : string) (value : json)
      (entries : list (string * json)) :
  String.eqb key other = false ->
  lookup other (store key value entries) = lookup other entries.
Proof.
  intros Hne. induction entries as [| [k v] rest IH]; cbn.
  - rewrite Hne. reflexivity.
  - destruct (String.eqb k key) eqn:E; cbn.
    + apply String.eqb_eq in E. subst k. rewrite Hne. reflexivity.
    + destruct (String.eqb k other); [reflexivity | exact IH].
Qed.

Section SettingsProperties.

Variable repr : json -> string.
Variable float_of_str : string -> option Q.
Variable int_of_str : string -> option Z.

Local Abbreviation from_dict := (Settings.from_dict repr float_of_str int_of_str).
Local Abbreviation update := (Settings.update repr float_of_str int_of_str).

(** The settings [from_dict] returns have a host and a namespace that are
    stripped and not empty. *)
Lemma from_dict_normalised :
  forall raw s,
    from_dict raw = Return s ->
    Settings.host s <> "" /\ Settings.namespace s <> ""
    /\ strip (Settings.host s) = Settings.host s
    /\ strip (Settings.namespace s) = Settings.namespace s.
Proof.
  intros raw s H. unfold Settings.from_dict, and_then in H.
  repeat match type of H with
         | match ?x with _ => _ end = _ => destruct x; try discriminate
         end.
  injection H as <-. cbn [Settings.host Settings.namespace Settings.defaults].
  repeat split.
  - apply str_or_nonempty. discriminate.
  - apply str_or_nonempty. discriminate.
  - apply str_or_stripped. vm_compute. reflexivity.
  - apply str_or_stripped. vm_compute. reflexivity.
Qed.

(** Reading back what [to_dict] wrote. *)
Lemma from_dict_to_dict :
  forall s,
    Settings.host s <> "" -> Settings.namespace s <> "" ->
    strip (Settings.host s) = Settings.host s ->
    strip (Settings.namespace s) = Settings.namespace s ->
    from_dict (Settings.to_dict s) = Return s.
Proof.
  intros [h p pw ssl ns t] Hh Hns Hsh Hsns.
  cbn [Settings.host Settings.namespace] in Hh, Hns, Hsh, Hsns.
  unfold Settings.from_dict, Settings.to_dict. cbn -[strip str_or].
  rewrite Hsh, Hsns.
  rewrite (str_or_keeps h _ Hh), (str_or_keeps ns _ Hns).
  destruct ssl; reflexivity.
Qed.

(** What [from_dict] returns depends on the six keys it reads only. *)
Lemma from_dict_reads_six_keys :
  forall d d',
    d <> [] -> d' <> [] ->
    lookup "host" d = lookup "host" d' ->
    lookup "port" d = lookup "port" d' ->
    lookup "password" d = lookup "password" d' ->
    lookup "use_ssl" d = lookup "use_ssl" d' ->
    lookup "namespace" d = lookup "namespace" d' ->
    lookup "request_timeout" d = lookup "request_timeout" d' ->
    from_dict (JDict d) = from_dict (JDict d').
Proof.
  intros d d' Hd Hd' H1 H2 H3 H4 H5 H6.
  unfold Settings.from_dict.
  assert (Ht : forall x, x <> [] -> py_or (JDict x) (JDict []) = JDict x).
  { intros x Hx. destruct x; [congruence | reflexivity]. }
  rewrite (Ht d Hd), (Ht d' Hd'). unfold py_get_default.
  rewrite H1, H2, H3, H4, H5, H6. reflexivity.
Qed.

(** X25. [from_dict] on no settings at all ([None], [{}]) gives the defaults,
    and whatever it returns has a host and a namespace that are stripped and
    not empty; so the namespace of loaded settings is always accepted by
    [set_namespace]. *)
Theorem from_dict_gives_usable_settings :
  (forall raw, truthy raw = false -> from_dict raw = Return Settings.defaults)
  /\ (forall raw s b,
         from_dict raw = Return s ->
         Settings.host s <> "" /\ Settings.namespace s <> ""
         /\ strip (Settings.host s) = Settings.host s
         /\ strip (Settings.namespace s) = Settings.namespace s
         /\ set_namespace (Settings.namespace s) b
            = (Return tt, Broadcaster (_connection b) (Settings.namespace s))).
Proof.
  split.
  - intros raw Hfalsy. unfold Settings.from_dict, py_or. rewrite Hfalsy.
    vm_compute. reflexivity.
  - intros raw s b H.
    destruct (from_dict_normalised raw s H) as (Hh & Hns & Hsh & Hsns).
    repeat split; try assumption.
    unfold set_namespace. rewrite (nonempty_is_truthy _ Hns). reflexivity.
Qed.

(** X26. Settings survive being saved and loaded: for settings that
    [from_dict] returned, [from_dict(to_dict(s))] is [s] again, and so is
    [s.update()] without arguments; the plugin therefore sees no change when
    nothing changed. *)
Theorem settings_round_trip :
  forall raw s,
    from_dict raw = Return s ->
    from_dict (Settings.to_dict s) = Return s
    /\ update s [] = Return s.
Proof.
  intros raw s H.
  destruct (from_dict_normalised raw s H) as (Hh & Hns & Hsh & Hsns).
  assert (Hback : from_dict (Settings.to_dict s) = Return s)
    by now apply from_dict_to_dict.
  split; [exact Hback |].
  unfold Settings.update. exact Hback.
Qed.

(** X27. [update] ignores the keywords that are not fields of the settings:
    with such keywords only, also misspelt ones, it returns the settings as
    they were and raises nothing. *)
Theorem update_ignores_unknown_keys :
  forall raw s kwargs,
    from_dict raw = Return s ->
    Forall (fun kv =>
              existsb (String.eqb (fst kv))
                ["host"; "port"; "password"; "use_ssl"; "namespace"; "request_timeout"]
              = false) kwargs ->
    update s kwargs = Return s.
Proof.
  intros raw s kwargs H Hunknown.
  destruct (from_dict_normalised raw s H) as (Hh & Hns & Hsh & Hsns).
  rewrite <- (from_dict_to_dict s Hh Hns Hsh Hsns).
  unfold Settings.update, Settings.to_dict, Settings.dict_update.
  set (d := [("host", JStr (Settings.host s)); ("port", JInt (Settings.port s));
             ("password", JStr (Settings.password s));
             ("use_ssl", JBool (Settings.use_ssl s));
             ("namespace", JStr (Settings.namespace s));
             ("request_timeout", JFloat (Settings.request_timeout s))]).
  assert (Hfold : forall d0,
             d0 <> [] ->
             let d1 := fold_left (fun d kv => store (fst kv) (snd kv) d) kwargs d0 in
             d1 <> []
             /\ forall k, In k ["host"; "port"; "password"; "use_ssl"; "namespace";
                                "request_timeout"] ->
                          lookup k d1 = lookup k d0).
  { induction Hunknown as [| [key value] rest Hkey Hrest IH]; intros d0 Hd0.
    - cbn. split; [exact Hd0 | reflexivity].
    - cbn [fold_left fst snd].
      destruct (IH (store key value d0)) as [Hne Hsame].
      { destruct d0 as [| [k v] d0]; cbn; [discriminate |].
        destruct (String.eqb k key); discriminate. }
      split; [exact Hne |].
      intros k Hk. rewrite (Hsame k Hk).
      apply lookup_store_other.
      cbn [fst existsb] in Hkey.
      repeat (apply orb_false_iff in Hkey as [? Hkey]).
      cbn in Hk. repeat (destruct Hk as [<- | Hk]; [assumption |]). destruct Hk. }
  destruct (Hfold d) as [Hne Hsame]; [discriminate |].
  apply from_dict_reads_six_keys; try exact Hne; try discriminate;
    apply Hsame; cbn; tauto.
Qed.

End SettingsProperties.

(** ** Formatting twice, and reading with a time-out *)

(** X22. An event type that already has its namespace passes through
    [_format_event_type] unchanged apart from the white space around it, and
    formatting the result once more gives the same event type: the separator
    is never doubled, no second namespace is put in front. *)
Theorem format_event_type_is_stable :
  forall action b,
    contains ":" (strip action) = true ->
    (event_type <- _format_event_type action ;; _format_event_type event_type) b
    = (Return (strip action), b)
    /\ _format_event_type action b = (Return (strip action), b).
Proof.
  intros action b Hqualified.
  unfold bind, _format_event_type. rewrite Hqualified.
  cbn [ret]. rewrite strip_idempotent, Hqualified. split; reflexivity.
Qed.

Section RecvProperties.

Variable json_loads : string -> option json.

(** X18. A read of the handshake never blocks and leaves the socket as it
    found it but for the frame taken: the time-out the socket had is put back
    whatever the read did, and nothing is written or closed. The errors of the
    [websocket] package never leave [_recv]: they come out as
    [OBSConnectionError]. *)
Theorem recv_restores_timeout :
  forall timeout m w,
    _ws m = Some w ->
    (exists w', _ws (snd (_recv json_loads timeout m)) = Some w'
                /\ ws_timeout w' = ws_timeout w
                /\ outbox w' = outbox w /\ closed w' = closed w)
    /\ fst (_recv json_loads timeout m) <> Blocked
    /\ (forall e, fst (_recv json_loads timeout m) = Raise e ->
                  is_WebSocketException e = false).
Proof.
  intros timeout m w Hws.
  unfold _recv, bind, gets. rewrite Hws.
  unfold on_socket, modify. rewrite Hws.
  unfold try_finally, try_except, recv_call, ws_recv. cbn.
  destruct (closed w) eqn:Hclosed; cbn;
    [| destruct (inbox w) as [| [message | | | | |] rest]; cbn;
       [| destruct (json_loads message); cbn | | | | |]];
    (split;
     [ eexists; split; [reflexivity |]; cbn; repeat split; congruence
     | split;
       [ discriminate
       | intros e H; try discriminate; injection H as <-; reflexivity ] ]).
Qed.

End RecvProperties.

(** ** The further properties on the sample states *)

Lemma disconnect_leaves_manager_released_witness :
  fst (disconnect (Sample.identified_manager [])) = Return tt
  /\ _ws (snd (disconnect (Sample.identified_manager []))) = None
  /\ _identified (snd (disconnect (Sample.identified_manager []))) = false
  /\ _receiver_thread (snd (disconnect (Sample.identified_manager []))) = None
  /\ _receiver_running (snd (disconnect (Sample.identified_manager []))) = false
  /\ is_connected (snd (disconnect (Sample.identified_manager []))) = false
  /\ _connection_lock (snd (disconnect (Sample.identified_manager []))) = false
  /\ _config (snd (disconnect (Sample.identified_manager []))) = default_config
  /\ _responses (snd (disconnect (Sample.identified_manager []))) = []
  /\ disconnect (snd (disconnect (Sample.identified_manager [])))
     = (Return tt, snd (disconnect (Sample.identified_manager []))).
Proof.
  apply (disconnect_leaves_manager_released (Sample.identified_manager [])).
  reflexivity.
Defined.

Lemma connect_failure_is_typed_and_releases_witness :
  is_OBSConnectionError OBSAuthenticationError = true
  /\ _ws (snd (connect Sample.loads Sample.dumps Sample.int_of_str None
                 Sample.network_challenge (new_manager None)))
     = None.
Proof.
  destruct (connect_failure_is_typed_and_releases
              Sample.loads Sample.dumps Sample.int_of_str None
              Sample.network_challenge (new_manager None) OBSAuthenticationError)
    as [Htyped Hreleased].
  - reflexivity.
  - reflexivity.
  - split; [exact Htyped |]. apply Hreleased. right. reflexivity.
Defined.

Lemma connect_success_is_connected_witness :
  is_connected (snd (connect Sample.loads Sample.dumps Sample.int_of_str None
                       Sample.network_up (new_manager None)))
  = true
  /\ thread_is_alive
       (_receiver_thread
          (snd (connect Sample.loads Sample.dumps Sample.int_of_str None
                  Sample.network_up (new_manager None))))
     = true.
Proof.
  destruct (connect_success_is_connected
              Sample.loads Sample.dumps Sample.int_of_str None
              Sample.network_up (new_manager None))
    as (Hconnected & Halive & _).
  - reflexivity.
  - reflexivity.
  - split; [exact Hconnected |]. apply Halive. reflexivity.
Defined.

Lemma update_config_returns_new_config_witness :
  fst (update_config Sample.loads Sample.dumps Sample.int_of_str
         (Changes (Some "obs.local") None None None None None)
         Sample.network_down (Sample.identified_manager []))
  = Return (Config "obs.local" 4455 "" false 5 0)
  /\ _config (snd (update_config Sample.loads Sample.dumps Sample.int_of_str
                     (Changes (Some "obs.local") None None None None None)
                     Sample.network_down (Sample.identified_manager [])))
     = Config "obs.local" 4455 "" false 5 0.
Proof.
  apply (update_config_returns_new_config
           Sample.loads Sample.dumps Sample.int_of_str
           (Changes (Some "obs.local") None None None None None)
           Sample.network_down (Sample.identified_manager [])); reflexivity.
Defined.


Lemma update_config_failed_reconnection_witness :
  fst (update_config Sample.loads Sample.dumps Sample.int_of_str
         (Changes (Some "obs.local") None None None None None)
         Sample.network_down (Sample.identified_manager []))
  = Return (Config "obs.local" 4455 "" false 5 0)
  /\ _config (snd (update_config Sample.loads Sample.dumps Sample.int_of_str
                     (Changes (Some "obs.local") None None None None None)
                     Sample.network_down (Sample.identified_manager [])))
     = Config "obs.local" 4455 "" false 5 0
  /\ _ws (snd (update_config Sample.loads Sample.dumps Sample.int_of_str
                 (Changes (Some "obs.local") None None None None None)
                 Sample.network_down (Sample.identified_manager [])))
     = None
  /\ is_connected (snd (update_config Sample.loads Sample.dumps Sample.int_of_str
                          (Changes (Some "obs.local") None None None None None)
                          Sample.network_down (Sample.identified_manager [])))
     = false
  /\ In (ERROR, "Failed to reconnect to OBS: {}")
        (logged (snd (update_config Sample.loads Sample.dumps Sample.int_of_str
                        (Changes (Some "obs.local") None None None None None)
                        Sample.network_down (Sample.identified_manager [])))).
Proof.
  apply (update_config_failed_reconnection
           Sample.loads Sample.dumps Sample.int_of_str
           (Changes (Some "obs.local") None None None None None)
           Sample.network_down (Sample.identified_manager [])); reflexivity.
Defined.

Lemma receiver_loop_exit_clears_connection_witness :
  _ws (snd (_receiver_loop Sample.loads Sample.dumps Sample.int_of_str 3
              (Sample.identified_manager [Text "nonsense"; PeerClosed])))
  = None
  /\ _identified (snd (_receiver_loop Sample.loads Sample.dumps Sample.int_of_str 3
                         (Sample.identified_manager [Text "nonsense"; PeerClosed])))
     = false
  /\ _receiver_running
       (snd (_receiver_loop Sample.loads Sample.dumps Sample.int_of_str 3
               (Sample.identified_manager [Text "nonsense"; PeerClosed])))
     = false
  /\ is_connected (snd (_receiver_loop Sample.loads Sample.dumps Sample.int_of_str 3
                          (Sample.identified_manager [Text "nonsense"; PeerClosed])))
     = false.
Proof.
  apply (receiver_loop_exit_clears_connection
           Sample.loads Sample.dumps Sample.int_of_str 3
           (Sample.identified_manager [Text "nonsense"; PeerClosed])).
  reflexivity.
Defined.

Lemma receiver_loop_leaves_on_closed_socket_witness :
  _receiver_loop Sample.loads Sample.dumps Sample.int_of_str 1 Sample.stale_manager
  = (Return tt,
     set_logged ([] ++ [(WARNING, "Lost connection to OBS WebSocket")])
       (set_ws None
          (set_receiver_running false (set_identified false Sample.stale_manager)))).
Proof.
  apply (receiver_loop_leaves_on_closed_socket
           Sample.loads Sample.dumps Sample.int_of_str 0
           Sample.stale_manager Sample.closed_socket); reflexivity.
Defined.


Lemma event_frames_are_only_logged_witness :
  exists line,
    _handle_message Sample.loads Sample.dumps Sample.int_of_str
      Sample.event (Sample.identified_manager [])
    = (Return tt,
       set_logged ([] ++ [(DEBUG, line)]) (Sample.identified_manager [])).
Proof.
  apply (event_frames_are_only_logged
           Sample.loads Sample.dumps Sample.int_of_str
           (Sample.identified_manager [])
           [("op", JInt 5); ("d", JDict [("eventType", JStr "SceneChanged")])]
           (JInt 5) (JDict [("eventType", JStr "SceneChanged")]));
    try reflexivity.
Defined.

Lemma handshake_sends_authentication_witness :
  written
    (snd (_perform_handshake Sample.loads Sample.dumps Sample.int_of_str 5
            (Sample.secured_manager [Text (Sample.dumps Sample.hello_challenge)])))
  = [] ++ [(Sample.dumps
              (JDict [("op", JInt 1);
                      ("d", JDict [("rpcVersion", JInt 1);
                                   ("eventSubscriptions", JInt 0);
                                   ("authentication",
                                    JStr (expected_auth_response "pw" "s" "c"))])]),
            false)].
Proof.
  apply (handshake_sends_authentication
           Sample.loads Sample.dumps Sample.int_of_str 5%Q
           (Sample.secured_manager [Text (Sample.dumps Sample.hello_challenge)])
           (Sample.dialled [Text (Sample.dumps Sample.hello_challenge)]) [] 1
           (JDict [("challenge", JStr "c"); ("salt", JStr "s")]) "c" "s").
  - unfold receives_hello. do 5 eexists. repeat split; reflexivity.
  - reflexivity.
  - reflexivity.
  - reflexivity.
  - discriminate.
Defined.

Lemma handshake_rejects_first_frame_witness :
  _perform_handshake Sample.loads Sample.dumps Sample.int_of_str 5
    (Sample.connecting_manager [])
  = (Raise OBSConnectionError, Sample.connecting_manager [])
  /\ _perform_handshake Sample.loads Sample.dumps Sample.int_of_str 5
       (Sample.connecting_manager [Text "nonsense"])
     = (Raise OBSConnectionError, Sample.connecting_manager [])
  /\ _perform_handshake Sample.loads Sample.dumps Sample.int_of_str 5
       (Sample.connecting_manager [Text (Sample.dumps Sample.identified)])
     = (Raise OBSConnectionError, Sample.connecting_manager []).
Proof.
  destruct (handshake_rejects_first_frame Sample.loads Sample.dumps Sample.int_of_str)
    as (Hsilent & Hmalformed & Hother).
  split; [| split].
  - apply (Hsilent 5%Q (Sample.connecting_manager []) (Sample.dialled []));
      reflexivity.
  - apply (Hmalformed 5%Q (Sample.connecting_manager [Text "nonsense"])
             (Sample.dialled [Text "nonsense"]) "nonsense" []); reflexivity.
  - apply (Hother 5%Q
             (Sample.connecting_manager [Text (Sample.dumps Sample.identified)])
             (Sample.dialled [Text (Sample.dumps Sample.identified)])
             (Sample.dumps Sample.identified) [] Sample.identified (JInt 2));
      reflexivity.
Defined.

Lemma handshake_needs_identified_witness :
  _perform_handshake Sample.loads Sample.dumps Sample.int_of_str 5
    (Sample.connecting_manager
       [Text (Sample.dumps Sample.hello_plain); Text (Sample.dumps Sample.identified)])
  = (Return tt,
     set_logged
       ([] ++ [(DEBUG, "OBS WebSocket handshake completed (RPC version {})")])
       (set_ws
          (Some (Socket [] ([] ++ [(Sample.dumps (plain_identify 1 0), false)])
                   None false))
          (set_identified true
             (set_rpc_version 1 (Sample.connecting_manager [])))))
  /\ fst (_perform_handshake Sample.loads Sample.dumps Sample.int_of_str 5
            (Sample.connecting_manager
               [Text (Sample.dumps Sample.hello_plain);
                Text (Sample.dumps Sample.hello_plain)]))
     = Raise OBSConnectionError.
Proof.
  split.
  - destruct (handshake_needs_identified
                Sample.loads Sample.dumps Sample.int_of_str 5%Q
                (Sample.connecting_manager
                   [Text (Sample.dumps Sample.hello_plain);
                    Text (Sample.dumps Sample.identified)])
                (Sample.dialled
                   [Text (Sample.dumps Sample.hello_plain);
                    Text (Sample.dumps Sample.identified)])
                (Sample.dumps Sample.identified) [] 1 JNull Sample.identified (JInt 2))
      as [Hdone _].
    + unfold receives_hello. do 5 eexists. repeat split; reflexivity.
    + reflexivity.
    + reflexivity.
    + reflexivity.
    + apply Hdone. reflexivity.
  - destruct (handshake_needs_identified
                Sample.loads Sample.dumps Sample.int_of_str 5%Q
                (Sample.connecting_manager
                   [Text (Sample.dumps Sample.hello_plain);
                    Text (Sample.dumps Sample.hello_plain)])
                (Sample.dialled
                   [Text (Sample.dumps Sample.hello_plain);
                    Text (Sample.dumps Sample.hello_plain)])
                (Sample.dumps Sample.hello_plain) [] 1 JNull Sample.hello_plain (JInt 0))
      as [_ Hrefused].
    + unfold receives_hello. do 5 eexists. repeat split; reflexivity.
    + reflexivity.
    + reflexivity.
    + reflexivity.
    + apply Hrefused. reflexivity.
Defined.

Lemma wait_times_out_at_the_deadline_witness :
  (forall e,
      fst (wait_loop "id-1" 5 [(1%Q, fun r => r); (6%Q, fun r => r)]
             (Sample.identified_manager []))
      = Raise e ->
      e = OBSResponseTimeoutError
      /\ Exists (fun w : wake => (5 <= fst w)%Q) [(1%Q, fun r => r); (6%Q, fun r => r)])
  /\ fst (wait_loop "id-1" 5 [(1%Q, fun r => r); (6%Q, fun r => r)]
            (Sample.identified_manager []))
     = Raise OBSResponseTimeoutError.
Proof.
  destruct (wait_times_out_at_the_deadline "id-1" 5%Q
              [(1%Q, fun r => r); (6%Q, fun r => r)] (Sample.identified_manager []))
    as [Honly Htimeout].
  split; [exact Honly |].
  apply Htimeout.
  - reflexivity.
  - repeat constructor; intros r Hr; exact Hr.
  - apply Exists_cons_tl, Exists_cons_hd. unfold Qle; simpl; lia.
Defined.

Lemma handled_response_reaches_waiter_witness :
  fst (_handle_message Sample.loads Sample.dumps Sample.int_of_str
         (Sample.response (JStr "id-1") true) (Sample.identified_manager []))
  = Return tt
  /\ wait_loop "id-1" 5 [(1%Q, fun r => r)]
       (snd (_handle_message Sample.loads Sample.dumps Sample.int_of_str
               (Sample.response (JStr "id-1") true) (Sample.identified_manager [])))
     = (Return (Sample.response_data (JStr "id-1") true),
        set_notifications 1 (Sample.identified_manager [])).
Proof.
  apply (handled_response_reaches_waiter
           Sample.loads Sample.dumps Sample.int_of_str
           (Sample.identified_manager []) (Sample.response (JStr "id-1") true)
           (JInt 7) (Sample.response_data (JStr "id-1") true) "id-1"
           5%Q 1%Q (fun r => r) []);
    try reflexivity.
  discriminate.
Defined.

Lemma set_namespace_takes_effect_witness :
  set_namespace "stream" Sample.broadcaster
  = (Return tt, Broadcaster (Sample.identified_manager []) "stream")
  /\ (set_namespace "stream" ;; _format_event_type " GREET ") Sample.broadcaster
     = (Return "stream:GREET", Broadcaster (Sample.identified_manager []) "stream").
Proof.
  destruct set_namespace_takes_effect as (_ & Hset & Hformat).
  split.
  - apply (Hset "stream" Sample.broadcaster). discriminate.
  - apply (Hformat "stream" " GREET " Sample.broadcaster); [discriminate | reflexivity].
Defined.

Lemma safe_broadcast_raises_on_failed_write_witness :
  fst (safe_broadcast Sample.dumps "GREET_FEED_READ_ALL" JNull None
         (Sample.answered true) (new_broadcaster Sample.stale_manager None))
  = Raise OBSConnectionError
  /\ written
       (_connection
          (snd (safe_broadcast Sample.dumps "GREET_FEED_READ_ALL" JNull None
                  (Sample.answered true) (new_broadcaster Sample.stale_manager None))))
     = [].
Proof.
  apply (safe_broadcast_raises_on_failed_write Sample.dumps
           "GREET_FEED_READ_ALL" JNull None (Sample.answered true)
           (new_broadcaster Sample.stale_manager None) Sample.closed_socket);
    try reflexivity.
  discriminate.
Defined.

Lemma broadcast_event_type_is_qualified_witness :
  exists event_type,
    broadcast Sample.dumps "GREET_FEED_READ_ALL" JNull None (Sample.answered true)
      Sample.broadcaster
    = custom_event_request Sample.dumps event_type JNull None (Sample.answered true)
        Sample.broadcaster
    /\ contains ":" event_type = true.
Proof.
  apply (broadcast_event_type_is_qualified Sample.dumps
           "GREET_FEED_READ_ALL" JNull None (Sample.answered true) Sample.broadcaster).
  discriminate.
Defined.

Lemma connect_worker_never_raises_witness :
  fst (connect_worker Sample.loads Sample.dumps Sample.int_of_str
         Sample.network_down (new_manager None))
  = Return tt.
Proof.
  apply (connect_worker_never_raises Sample.loads Sample.dumps Sample.int_of_str
           Sample.network_down (new_manager None)).
  reflexivity.
Defined.

Lemma key_press_while_disconnected_witness :
  on_key_down Sample.dumps (Sample.answered true) Sample.offline_broadcaster
  = (Return tt,
     Broadcaster
       (set_logged
          ([] ++ [(DEBUG, "Broadcasting Twitchat event {} with payload {}")]
              ++ [(ERROR, "Failed to broadcast Twitchat event {}: {}")]
              ++ [(WARNING,
                   "Twitchat greet feed read-all command failed; see plugin logs for details")])
          (new_manager None))
       "twitchat").
Proof.
  apply (key_press_while_disconnected Sample.dumps (Sample.answered true)
           Sample.offline_broadcaster).
  reflexivity.
Defined.

Lemma from_dict_gives_usable_settings_witness :
  Settings.from_dict Sample.repr Sample.float_of_str Sample.int_of_str JNull
  = Return Settings.defaults
  /\ (Settings.host (Settings.Make "obs.local" 4460 "" false "twitchat" 5) <> ""
      /\ Settings.namespace (Settings.Make "obs.local" 4460 "" false "twitchat" 5) <> ""
      /\ strip (Settings.host (Settings.Make "obs.local" 4460 "" false "twitchat" 5))
         = Settings.host (Settings.Make "obs.local" 4460 "" false "twitchat" 5)
      /\ strip (Settings.namespace (Settings.Make "obs.local" 4460 "" false "twitchat" 5))
         = Settings.namespace (Settings.Make "obs.local" 4460 "" false "twitchat" 5)
      /\ set_namespace
           (Settings.namespace (Settings.Make "obs.local" 4460 "" false "twitchat" 5))
           Sample.broadcaster
         = (Return tt,
            Broadcaster (_connection Sample.broadcaster)
              (Settings.namespace
                 (Settings.Make "obs.local" 4460 "" false "twitchat" 5)))).
Proof.
  destruct (from_dict_gives_usable_settings
              Sample.repr Sample.float_of_str Sample.int_of_str)
    as [Hdefaults Husable].
  split.
  - apply Hdefaults. reflexivity.
  - apply (Husable Sample.saved_settings). vm_compute. reflexivity.
Defined.

Lemma settings_round_trip_witness :
  Settings.from_dict Sample.repr Sample.float_of_str Sample.int_of_str
    (Settings.to_dict (Settings.Make "obs.local" 4460 "" false "twitchat" 5))
  = Return (Settings.Make "obs.local" 4460 "" false "twitchat" 5)
  /\ Settings.update Sample.repr Sample.float_of_str Sample.int_of_str
       (Settings.Make "obs.local" 4460 "" false "twitchat" 5) []
     = Return (Settings.Make "obs.local" 4460 "" false "twitchat" 5).
Proof.
  apply (settings_round_trip Sample.repr Sample.float_of_str Sample.int_of_str
           Sample.saved_settings).
  vm_compute. reflexivity.
Defined.

Lemma update_ignores_unknown_keys_witness :
  Settings.update Sample.repr Sample.float_of_str Sample.int_of_str
    (Settings.Make "obs.local" 4460 "" false "twitchat" 5)
    [("hots", JStr "other.local"); ("timeout", JInt 3)]
  = Return (Settings.Make "obs.local" 4460 "" false "twitchat" 5).
Proof.
  apply (update_ignores_unknown_keys Sample.repr Sample.float_of_str Sample.int_of_str
           Sample.saved_settings).
  - vm_compute. reflexivity.
  - repeat constructor.
Defined.

Lemma format_event_type_is_stable_witness :
  (event_type <- _format_event_type " a:b " ;; _format_event_type event_type)
    Sample.broadcaster
  = (Return "a:b", Sample.broadcaster)
  /\ _format_event_type " a:b " Sample.broadcaster = (Return "a:b", Sample.broadcaster).
Proof.
  apply (format_event_type_is_stable " a:b " Sample.broadcaster). reflexivity.
Defined.

Lemma recv_restores_timeout_witness :
  (exists w',
      _ws (snd (_recv Sample.loads 5
                  (Sample.identified_manager [Text "nonsense"])))
      = Some w'
      /\ ws_timeout w' = None /\ outbox w' = [] /\ closed w' = false)
  /\ fst (_recv Sample.loads 5 (Sample.identified_manager [Text "nonsense"]))
     <> Blocked
  /\ (forall e,
         fst (_recv Sample.loads 5 (Sample.identified_manager [Text "nonsense"]))
         = Raise e ->
         is_WebSocketException e = false).
Proof.
  apply (recv_restores_timeout Sample.loads 5%Q
           (Sample.identified_manager [Text "nonsense"])
           (Sample.socket [Text "nonsense"])).
  reflexivity.
Defined.

(** ** Correlation by request id, and requests without answer *)

Lemma wait_loop_quiet (request_id : string) (deadline : Q) (wakes : list wake) :
  Forall (fun w => forall r, registry_find (JStr request_id) r = None ->
                             registry_find (JStr request_id) (snd w r) = None)
         wakes ->
  Exists (fun w => (deadline <= fst w)%Q) wakes ->
  forall m,
    registry_find (JStr request_id) (_responses m) = None ->
    fst (wait_loop request_id deadline wakes m) = Raise OBSResponseTimeoutError.
Proof.
  intros Hquiet. induction Hquiet as [| [now others] later Hnow Hlater IH];
    intros Hex m Hnone.
  - inversion Hex.
  - rewrite wait_loop_pass.
    destruct (Qle_bool (deadline - now) 0) eqn:E; [reflexivity |].
    rewrite Hnone.
    apply Exists_cons in Hex as [Hhead | Htail].
    + cbn in Hhead. apply remaining_exhausted in Hhead. congruence.
    + apply (IH Htail). destruct m; cbn in *. apply Hnow. exact Hnone.
Qed.

Section RequestsWithoutAnswer.

Variable json_loads : string -> option json.
Variable json_dumps : json -> string.
Variable int_of_str : string -> option Z.

Local Abbreviation handle_message := (_handle_message json_loads json_dumps int_of_str).
Local Abbreviation request := (send_request json_dumps).

(** X1. Responses are matched by request id only. Handling a Response frame
    changes nothing of what a caller waiting for another id finds in the
    table, whatever the id of the frame; and a caller that takes its response
    leaves the responses of the other ids where they are. *)
Theorem responses_are_matched_by_id :
  forall m payload op data frame_id other,
    py_get payload "op" = Return op ->
    py_eq op (JInt 7) || py_eq op (JInt 8) = true ->
    py_get_default payload "d" (JDict []) = Return data ->
    py_get data "requestId" = Return frame_id ->
    py_eq (JStr other) frame_id = false ->
    registry_find (JStr other) (_responses (snd (handle_message payload m)))
    = registry_find (JStr other) (_responses m)
    /\ (forall request_id deadline now others later found,
           request_id <> other -> (now < deadline)%Q ->
           registry_find (JStr request_id) (_responses m) = Some found ->
           registry_find (JStr other)
             (_responses (snd (wait_loop request_id deadline ((now, others) :: later) m)))
           = registry_find (JStr other) (_responses m)).
Proof.
  intros m payload op data frame_id other Hop Hkind Hdata Hid Hother.
  split.
  - rewrite (handle_message_response json_loads json_dumps int_of_str
               m payload op data frame_id Hop Hkind Hdata Hid).
    destruct (truthy frame_id); [| reflexivity].
    unfold store_response, with_lock.
    destruct (_response_condition m) eqn:Hheld; [reflexivity |].
    destruct (hashable frame_id).
    + unfold try_finally, bind, modify. cbn [fst snd].
      destruct m; cbn. now apply registry_find_store_other.
    + unfold try_finally, raise, modify. destruct m; reflexivity.
  - intros request_id deadline now others later found Hne Htime Hfound.
    rewrite wait_loop_pass.
    apply remaining_left in Htime. rewrite Htime, Hfound.
    destruct m; cbn. now apply registry_find_remove_other.
Qed.

(** X17. A request that is never answered ends in the time-out: on a manager
    ready to send, with no response for the drawn id in the table and none
    stored while the caller waits, [send_request] raises
    [OBSResponseTimeoutError] once a pass of its wait reads the clock at or
    after the deadline (the clock at the call plus the time-out). The frame of
    the request has been written all the same. *)
Theorem unanswered_request_times_out :
  forall request_type request_data timeout env m w,
    ready_to_send m w ->
    _response_condition m = false ->
    registry_find (JStr (uuid4 env)) (_responses m) = None ->
    Forall (fun w => forall r, registry_find (JStr (uuid4 env)) r = None ->
                               registry_find (JStr (uuid4 env)) (snd w r) = None)
           (wakes_of env) ->
    Exists (fun w => (perf_counter env
                      + timeout_or timeout (request_timeout (_config m)) <= fst w)%Q)
           (wakes_of env) ->
    fst (request request_type request_data timeout env m)
    = Raise OBSResponseTimeoutError
    /\ written (snd (request request_type request_data timeout env m))
       = outbox w
         ++ [(json_dumps (request_envelope request_type (uuid4 env) request_data),
              true)].
Proof.
  intros request_type request_data timeout env m w Hready Hfree Hnone Hquiet Hex.
  assert (Hrun : exists m',
             request request_type request_data timeout env m
             = (Raise OBSResponseTimeoutError, m')
             /\ _ws m'
                = _ws (after_write w
                         (json_dumps
                            (request_envelope request_type (uuid4 env) request_data))
                         m)).
  { rewrite (send_request_connected json_dumps
               request_type request_data timeout env m w Hready).
    unfold bind at 1.
    pose proof (wait_keeps_socket (uuid4 env) timeout (perf_counter env) (wakes_of env)
                  (after_write w
                     (json_dumps
                        (request_envelope request_type (uuid4 env) request_data))
                     m)) as Hsocket.
    unfold _wait_for_response in *. unfold bind at 1, gets at 1 in Hsocket.
    unfold bind at 1, gets at 1.
    unfold with_lock in *.
    assert (Hfree' : _response_condition
                       (after_write w
                          (json_dumps
                             (request_envelope request_type (uuid4 env) request_data))
                          m) = false) by (destruct m; exact Hfree).
    rewrite Hfree' in *. unfold try_finally in *.
    assert (Hcfg : _config
                     (after_write w
                        (json_dumps
                           (request_envelope request_type (uuid4 env) request_data))
                        m) = _config m) by (destruct m; reflexivity).
    rewrite Hcfg in *.
    pose proof (wait_loop_quiet (uuid4 env) _ (wakes_of env) Hquiet Hex
                  (set_response_condition true
                     (after_write w
                        (json_dumps
                           (request_envelope request_type (uuid4 env) request_data))
                        m))) as Hwait.
    destruct (wait_loop (uuid4 env) _ (wakes_of env) _) as [[response | e |] m1];
      cbn [fst] in Hwait;
      [ discriminate (Hwait ltac:(destruct m; exact Hnone))
      | | discriminate (Hwait ltac:(destruct m; exact Hnone)) ].
    assert (He : e = OBSResponseTimeoutError).
    { specialize (Hwait ltac:(destruct m; exact Hnone)). congruence. }
    subst e. cbn [fst snd modify] in *.
    eexists. split; [reflexivity |]. exact Hsocket. }
  destruct Hrun as (m' & Hrun & Hws). rewrite Hrun. cbn [fst snd].
  split; [reflexivity |].
  unfold written. rewrite Hws. reflexivity.
Qed.

End RequestsWithoutAnswer.

Lemma responses_are_matched_by_id_witness :
  registry_find (JStr "id-2")
    (_responses (snd (_handle_message Sample.loads Sample.dumps Sample.int_of_str
                        (Sample.response (JStr "id-1") true)
                        (set_responses [(JStr "id-2", Sample.answer)]
                           (Sample.identified_manager [])))))
  = registry_find (JStr "id-2")
      (_responses (set_responses [(JStr "id-2", Sample.answer)]
                     (Sample.identified_manager [])))
  /\ registry_find (JStr "id-1")
       (_responses
          (snd (wait_loop "id-2" 5 [(1%Q, fun r => r)]
                  (set_responses [(JStr "id-2", Sample.answer)]
                     (Sample.identified_manager [])))))
     = registry_find (JStr "id-1")
         (_responses (set_responses [(JStr "id-2", Sample.answer)]
                        (Sample.identified_manager []))).
Proof.
  split.
  - apply (responses_are_matched_by_id Sample.loads Sample.dumps Sample.int_of_str
             (set_responses [(JStr "id-2", Sample.answer)] (Sample.identified_manager []))
             (Sample.response (JStr "id-1") true) (JInt 7)
             (Sample.response_data (JStr "id-1") true) (JStr "id-1") "id-2");
      reflexivity.
  - destruct (responses_are_matched_by_id Sample.loads Sample.dumps Sample.int_of_str
                (set_responses [(JStr "id-2", Sample.answer)]
                   (Sample.identified_manager []))
                (Sample.response (JStr "id-9") true) (JInt 7)
                (Sample.response_data (JStr "id-9") true) (JStr "id-9") "id-1")
      as [_ Htaken];
      [reflexivity | reflexivity | reflexivity | reflexivity | reflexivity |].
    apply (Htaken "id-2" 5%Q 1%Q (fun r => r) [] Sample.answer).
    + discriminate.
    + unfold Qlt; simpl; lia.
    + reflexivity.
Defined.

Lemma unanswered_request_times_out_witness :
  fst (send_request Sample.dumps "GetVersion" JNull None
         (Surroundings "id-1" 0 [(1%Q, fun r => r); (6%Q, fun r => r)])
         (Sample.identified_manager []))
  = Raise OBSResponseTimeoutError
  /\ written
       (snd (send_request Sample.dumps "GetVersion" JNull None
               (Surroundings "id-1" 0 [(1%Q, fun r => r); (6%Q, fun r => r)])
               (Sample.identified_manager [])))
     = [] ++ [(Sample.dumps (request_envelope "GetVersion" "id-1" JNull), true)].
Proof.
  apply (unanswered_request_times_out Sample.dumps "GetVersion" JNull None
           (Surroundings "id-1" 0 [(1%Q, fun r => r); (6%Q, fun r => r)])
           (Sample.identified_manager []) (Sample.socket [])).
  - repeat split; reflexivity.
  - reflexivity.
  - reflexivity.
  - repeat constructor; intros r Hr; exact Hr.
  - apply Exists_cons_tl, Exists_cons_hd. unfold Qle; simpl; lia.
Defined.
